(** * arcclimate: separation of global irradiance into direct and diffuse parts

    A shallow embedding of [src/arcclimate/solar_separation.py].

    Numbers.  The Python code computes on IEEE binary64 values.  Here a
    float is either the missing-value marker [NaN] or a finite value carried
    as an exact rational: rounding, overflow and the infinities are left out
    of the model, so every statement below is about the arithmetic the
    formulas denote.  What is kept exactly is everything the control flow
    depends on: comparisons with [NaN] are false, arithmetic on [NaN] gives
    [NaN], and Python's [min]/[max] keep their first argument unless the
    second one compares strictly smaller/greater.  A finite value divided by
    zero (numpy: an infinity or nan with a warning) is [NaN] in the model.
    Results of arithmetic are kept as reduced fractions.

    Transcendental functions ([**] with a non-literal exponent, [np.exp],
    [np.cos], [np.radians]) are not definable on rationals; they are taken
    from a [Libm] instance and every theorem holds for all instances. *)

From Stdlib Require Import QArith Qabs Qround Lqa Lia.
From stdpp Require Import gmap strings list fin_maps.

Open Scope Q_scope.

(** ** Floats with a missing-value marker *)

Inductive float : Type :=
  | NaN
  | Fin (q : Q).

Coercion Fin : Q >-> float.

Declare Scope float_scope.
Delimit Scope float_scope with fl.
Bind Scope float_scope with float.

Definition lift2 (f : Q -> Q -> Q) (x y : float) : float :=
  match x, y with
  | Fin p, Fin q => Fin (Qred (f p q))
  | _, _ => NaN
  end.

Definition fadd : float -> float -> float := lift2 Qplus.
Definition fsub : float -> float -> float := lift2 Qminus.
Definition fmul : float -> float -> float := lift2 Qmult.

Definition fdiv (x y : float) : float :=
  match x, y with
  | Fin p, Fin q => if Qeq_bool q 0 then NaN else Fin (Qred (p / q))
  | _, _ => NaN
  end.

Definition fabs (x : float) : float :=
  match x with
  | Fin q => Fin (Qabs q)
  | NaN => NaN
  end.

(** [x ** n] for a literal exponent [n] (the source writes [**2], [**3],
    [**4], [**2.0], ...): the exact power. *)
Fixpoint fpowi (x : float) (n : nat) : float :=
  match n with
  | O => Fin 1
  | S O => x
  | S n' => fmul x (fpowi x n')
  end.

Definition fle (x y : float) : bool :=
  match x, y with
  | Fin p, Fin q => Qle_bool p q
  | _, _ => false
  end.

Definition flt (x y : float) : bool :=
  match x, y with
  | Fin p, Fin q => negb (Qle_bool q p)
  | _, _ => false
  end.

Definition fge (x y : float) : bool := fle y x.
Definition fgt (x y : float) : bool := flt y x.

Definition isnan (x : float) : bool :=
  match x with
  | NaN => true
  | Fin _ => false
  end.

Infix "+" := fadd : float_scope.
Infix "-" := fsub : float_scope.
Infix "*" := fmul : float_scope.
Infix "/" := fdiv : float_scope.
Notation "x ** n" := (fpowi x n%nat) (at level 30, right associativity) : float_scope.
Infix "<=?" := fle : float_scope.
Infix "<?" := flt : float_scope.
Infix ">=?" := fge (at level 70) : float_scope.
Infix ">?" := fgt (at level 70) : float_scope.

(** Python's builtin [max(a, b)] and [min(a, b)]: the first argument is kept
    unless the second compares strictly greater (smaller). *)
Definition py_max (a b : float) : float := if fgt b a then b else a.
Definition py_min (a b : float) : float := if flt b a then b else a.

(** ** Functions of the C library *)

Class Libm : Type := {
  (** [x ** y] with an exponent computed at run time, and [np.power] *)
  pow : float -> float -> float;
  (** [np.exp] *)
  exp : float -> float;
  (** [np.cos] *)
  cos : float -> float;
  (** [np.radians] *)
  radians : float -> float
}.

(** ** Exceptions *)

Inductive exn : Type :=
  | IndexError
  | KeyError (k : string).

Inductive result (A : Type) : Type :=
  | Ok (a : A)
  | Raise (e : exn).

Arguments Ok {A} a.
Arguments Raise {A} e.

#[export] Instance result_ret : MRet result := fun A a => Ok a.
#[export] Instance result_bind : MBind result := fun A B f m =>
  match m with
  | Ok a => f a
  | Raise e => Raise e
  end.

(** [arr[i]] on an ndarray with a non-negative index *)
Definition getitem (arr : list float) (i : nat) : result float :=
  match arr !! i with
  | Some x => Ok x
  | None => Raise IndexError
  end.

(** [out = []; for i in range(n): ...; out.append(x)] followed by
    [np.array(out)]: the bodies run in order, the first exception ends the
    loop. *)
Fixpoint collect (body : nat -> result float) (rows : list nat) : result (list float) :=
  match rows with
  | [] => Ok []
  | i :: rows' => x ← body i; xs ← collect body rows'; Ok (x :: xs)
  end.

Definition for_range (n : nat) (body : nat -> result float) : result (list float) :=
  collect body (seq 0 n).

(** ** The transmittance solver (Nagata and Watanabe models) *)

Section Solver.
Context {M : Libm}.
Open Scope float_scope.

Definition func_TH (P IN0 Sinh SH : float) : float :=
  IN0 * pow P (1 / Sinh) * Sinh + SH.

Definition func_SH_Nagata (P IN0 Sinh : float) : float :=
  IN0 * Sinh * (1.0 - pow P (1 / Sinh)) *
    (0.66 - 0.32 * Sinh) * (0.5 + (0.4 - 0.3 * P) * Sinh).

Definition func_SH_Watanabe (P IN0 Sinh : float) : float :=
  let P := if P >=? 1.0 then Fin 1.0 else P in
  let Q := (0.8672 + 0.7505 * Sinh) *
           pow P (0.421 * 1 / Sinh) * pow (1 - pow P (1 / Sinh)) 2.277 in
  IN0 * Sinh * (Q / (1 + Q)).

Definition LIMIT1 : float := 1e-5.
Definition LIMIT2 : float := 1e-10.
Definition P_min : float := 0.0.
Definition P_max : float := 0.85.

(** One pass through the body of [while True]. *)
Inductive step_result : Type :=
  | Return (r : float)
  | Continue (a b : float).

Definition get_SH_core_step (method_SH : float -> float -> float -> float)
    (TH Sinh IN0 a b : float) : step_result :=
  let P := (a + b) / 2 in
  let SH := method_SH P IN0 Sinh in
  let TH0 := func_TH P IN0 Sinh SH in
  if fabs (TH0 - TH) <=? LIMIT1 then
    let SH := if P >=? P_max then method_SH P_max IN0 Sinh else SH in
    Return (py_min SH TH)
  else if a >=? P_max then Return (py_min (method_SH P_max IN0 Sinh) TH)
  else if b <=? P_min then Return (py_min (method_SH P_min IN0 Sinh) TH)
  else if P <=? LIMIT2 * 10 then Return (py_min (method_SH 0.0 IN0 Sinh) TH)
  else if fabs (a - b) <=? LIMIT2 then Return NaN
  else if TH0 <? TH then Continue P b
  else Continue a P.

(** The loop, run for at most [fuel] passes; [None] when the passes are used
    up before a [return]. *)
Fixpoint get_SH_core_loop (fuel : nat) (method_SH : float -> float -> float -> float)
    (TH Sinh IN0 a b : float) : option float :=
  match fuel with
  | O => None
  | S fuel' =>
      match get_SH_core_step method_SH TH Sinh IN0 a b with
      | Return r => Some r
      | Continue a' b' => get_SH_core_loop fuel' method_SH TH Sinh IN0 a' b'
      end
  end.

(** 35 passes always reach a [return] (proved below); the [NaN] of the
    [None] case is the source's [return np.nan] after the loop. *)
Definition get_SH_core_passes : nat := 35.

Definition get_SH_core (TH Sinh IN0 : float)
    (method_SH : float -> float -> float -> float) : float :=
  match get_SH_core_loop get_SH_core_passes method_SH TH Sinh IN0 0.0 1.2 with
  | Some r => r
  | None => NaN
  end.

Definition get_SH (TH Sinh IN0 : list float)
    (method_SH : float -> float -> float -> float) : result (list float) :=
  for_range (length TH) (fun i =>
    s ← getitem Sinh i;
    if s <=? 0.0 then Ok (Fin 0.0)
    else
      th ← getitem TH i;
      if isnan th then Ok NaN
      else
        in0 ← getitem IN0 i;
        Ok (py_max 0.0 (get_SH_core th s in0 method_SH))).

End Solver.

(** ** Closed-form models: Erbs (diffuse) and Udagawa (direct normal) *)

Section ClosedForm.
Open Scope float_scope.

Definition func_DN (TH SH Sinh : float) : float := (TH - SH) / Sinh.

Definition func_SH (TH DN Sinh : float) : float := TH - (DN * Sinh).

Definition func_KT (TH IN0 Sinh : float) : float := TH / (IN0 * Sinh).

Definition func_SH_Erbs_1d_022 (TH KT : float) : float :=
  TH * (1.0 - 0.09 * KT).

Definition func_SH_Erbs_4d (TH KT : float) : float :=
  TH * (0.9511 - 0.1604 * KT + 4.388 * KT ** 2 - 16.638 * KT ** 3 + 12.336 * KT ** 4).

Definition func_SH_Erbs_1d_080 (TH : float) : float := 0.165 * TH.

Definition get_SH_Erbs (TH IN0 Sinh : list float) : result (list float) :=
  for_range (length TH) (fun i =>
    th ← getitem TH i;
    if isnan th then Ok NaN
    else if th <=? 0.0 then Ok (Fin 0.0)
    else
      in0 ← getitem IN0 i;
      s ← getitem Sinh i;
      let KT := py_min 1.0 (func_KT th in0 s) in
      if KT <=? 0.22 then Ok (func_SH_Erbs_1d_022 th KT)
      else if (0.22 <? KT) && (KT <=? 0.80) then Ok (func_SH_Erbs_4d th KT)
      else Ok (func_SH_Erbs_1d_080 th)).

Definition func_DN_Udagawa_3d (IN0 Sinh KT : float) : float :=
  IN0 * (2.277 - 1.258 * Sinh + 0.2396 * Sinh ** 2) * KT ** 3.

Definition func_DN_Udagawa_1d (IN0 KT : float) : float :=
  IN0 * (-0.43 + 1.43 * KT).

Definition get_DN_Udagawa (TH IN0 Sinh : list float) : result (list float) :=
  for_range (length TH) (fun i =>
    th ← getitem TH i;
    if isnan th then Ok NaN
    else if th <=? 0.0 then Ok (Fin 0.0)
    else
      s ← getitem Sinh i;
      in0 ← getitem IN0 i;
      let KC := (0.5163 + 0.333 * s + 0.00803 * s ** 2) * in0 * s in
      let KT := py_min 1.0 (func_KT th in0 s) in
      if KT <? KC then Ok (py_max 0.0 (func_DN_Udagawa_3d in0 s KT))
      else Ok (py_max 0.0 (func_DN_Udagawa_1d in0 KT))).

End ClosedForm.

(** ** The Perez model *)

(** [np.digitize(x, bins)] for increasing [bins] (the default
    [right=False]): the number of thresholds [b] with [b <= x]; a nan is
    sorted after every threshold. *)
Fixpoint searchsorted_right (bins : list float) (x : float) : nat :=
  match bins with
  | [] => O
  | b :: bins' => if fle b x then S (searchsorted_right bins' x) else O
  end.

Definition digitize (x : float) (bins : list float) : nat :=
  if isnan x then length bins else searchsorted_right bins x.

(** The three-element arrays (previous, current, next hour) handed to
    [get_DN_perez_core]; [at0], [at1], [at2] are [arr[0]], [arr[1]],
    [arr[2]]. *)
Record ndarray3 : Type := mk3 { at0 : float; at1 : float; at2 : float }.

Definition amap (f : float -> float) (x : ndarray3) : ndarray3 :=
  mk3 (f (at0 x)) (f (at1 x)) (f (at2 x)).

Definition amap2 (f : float -> float -> float) (x y : ndarray3) : ndarray3 :=
  mk3 (f (at0 x) (at0 y)) (f (at1 x) (at1 y)) (f (at2 x) (at2 y)).

Definition set0 (x : ndarray3) (v : float) : ndarray3 := mk3 v (at1 x) (at2 x).
Definition set2 (x : ndarray3) (v : float) : ndarray3 := mk3 (at0 x) (at1 x) v.

(** The coefficients of [get_CM], in the order of the source, before
    [reshape((6,6,7,5))]. *)
Definition CM_flat : list Q := [
  0.385230; 0.385230; 0.385230; 0.462880; 0.317440;
  0.338390; 0.338390; 0.221270; 0.316730; 0.503650;
  0.235680; 0.235680; 0.241280; 0.157830; 0.269440;
  0.830130; 0.830130; 0.171970; 0.841070; 0.457370;
  0.548010; 0.548010; 0.478000; 0.966880; 1.036370;
  0.548010; 0.548010; 1.000000; 3.012370; 1.976540;
  0.582690; 0.582690; 0.229720; 0.892710; 0.569950;
  0.131280; 0.131280; 0.385460; 0.511070; 0.127940;
  0.223710; 0.223710; 0.193560; 0.304560; 0.193940;
  0.229970; 0.229970; 0.275020; 0.312730; 0.244610;
  0.090100; 0.184580; 0.260500; 0.687480; 0.579440;
  0.131530; 0.131530; 0.370190; 1.380350; 1.052270;
  1.116250; 1.116250; 0.928030; 3.525490; 2.316920;
  0.090100; 0.237000; 0.300040; 0.812470; 0.664970;
  0.587510; 0.130000; 0.400000; 0.537210; 0.832490;
  0.306210; 0.129830; 0.204460; 0.500000; 0.681640;
  0.224020; 0.260620; 0.334080; 0.501040; 0.350470;
  0.421540; 0.753970; 0.750660; 3.706840; 0.983790;
  0.706680; 0.373530; 1.245670; 0.864860; 1.992630;
  4.864400; 0.117390; 0.265180; 0.359180; 3.310820;
  0.392080; 0.493290; 0.651560; 1.932780; 0.898730;
  0.126970; 0.126970; 0.126970; 0.126970; 0.126970;
  0.810820; 0.810820; 0.810820; 0.810820; 0.810820;
  3.241680; 2.500000; 2.291440; 2.291440; 2.291440;
  4.000000; 3.000000; 2.000000; 0.975430; 1.965570;
  12.494170; 12.494170; 8.000000; 5.083520; 8.792390;
  21.744240; 21.744240; 21.744240; 21.744240; 21.744240;
  3.241680; 12.494170; 1.620760; 1.375250; 2.331620;
  0.126970; 0.126970; 0.126970; 0.126970; 0.126970;
  0.810820; 0.810820; 0.810820; 0.810820; 0.810820;
  3.241680; 2.500000; 2.291440; 2.291440; 2.291440;
  4.000000; 3.000000; 2.000000; 0.975430; 1.965570;
  12.494170; 12.494170; 8.000000; 5.083520; 8.792390;
  21.744240; 21.744240; 21.744240; 21.744240; 21.744240;
  3.241680; 12.494170; 1.620760; 1.375250; 2.331620;
  0.126970; 0.126970; 0.126970; 0.126970; 0.126970;
  0.810820; 0.810820; 0.810820; 0.810820; 0.810820;
  3.241680; 2.500000; 2.291440; 2.291440; 2.291440;
  4.000000; 3.000000; 2.000000; 0.975430; 1.965570;
  12.494170; 12.494170; 8.000000; 5.083520; 8.792390;
  21.744240; 21.744240; 21.744240; 21.744240; 21.744240;
  3.241680; 12.494170; 1.620760; 1.375250; 2.331620;
  0.337440; 0.337440; 0.969110; 1.097190; 1.116080;
  0.337440; 0.337440; 0.969110; 1.116030; 0.623900;
  0.337440; 0.337440; 1.530590; 1.024420; 0.908480;
  0.584040; 0.584040; 0.847250; 0.914940; 1.289300;
  0.337440; 0.337440; 0.310240; 1.435020; 1.852830;
  0.337440; 0.337440; 1.015010; 1.097190; 2.117230;
  0.337440; 0.337440; 0.969110; 1.145730; 1.476400;
  0.300000; 0.300000; 0.700000; 1.100000; 0.796940;
  0.219870; 0.219870; 0.526530; 0.809610; 0.649300;
  0.386650; 0.386650; 0.119320; 0.576120; 0.685460;
  0.746730; 0.399830; 0.470970; 0.986530; 0.785370;
  0.575420; 0.936700; 1.649200; 1.495840; 1.335590;
  1.319670; 4.002570; 1.276390; 2.644550; 2.518670;
  0.665190; 0.678910; 1.012360; 1.199940; 0.986580;
  0.378870; 0.974060; 0.500000; 0.491880; 0.665290;
  0.105210; 0.263470; 0.407040; 0.553460; 0.582590;
  0.312900; 0.345240; 1.144180; 0.854790; 0.612280;
  0.119070; 0.365120; 0.560520; 0.793720; 0.802600;
  0.781610; 0.837390; 1.270420; 1.537980; 1.292950;
  1.152290; 1.152290; 1.492080; 1.245370; 2.177100;
  0.424660; 0.529550; 0.966910; 1.033460; 0.958730;
  0.310590; 0.714410; 0.252450; 0.500000; 0.607600;
  0.975190; 0.363420; 0.500000; 0.400000; 0.502800;
  0.175580; 0.196250; 0.476360; 1.072470; 0.490510;
  0.719280; 0.698620; 0.657770; 1.190840; 0.681110;
  0.426240; 1.464840; 0.678550; 1.157730; 0.978430;
  2.501120; 1.789130; 1.387090; 2.394180; 2.394180;
  0.491640; 0.677610; 0.685610; 1.082400; 0.735410;
  0.597000; 0.500000; 0.300000; 0.310050; 0.413510;
  0.314790; 0.336310; 0.400000; 0.400000; 0.442460;
  0.166510; 0.460440; 0.552570; 1.000000; 0.461610;
  0.401020; 0.559110; 0.403630; 1.016710; 0.671490;
  0.400360; 0.750830; 0.842640; 1.802600; 1.023830;
  3.315300; 1.510380; 2.443650; 1.638820; 2.133990;
  0.530790; 0.745850; 0.693050; 1.458040; 0.804500;
  0.597000; 0.500000; 0.300000; 0.310050; 0.800920;
  0.314790; 0.336310; 0.400000; 0.400000; 0.237040;
  0.166510; 0.460440; 0.552570; 1.000000; 0.581990;
  0.401020; 0.559110; 0.403630; 1.016710; 0.898570;
  0.400360; 0.750830; 0.842640; 1.802600; 3.400390;
  3.315300; 1.510380; 2.443650; 1.638820; 2.508780;
  0.204340; 1.157740; 2.003080; 2.622080; 1.409380;
  1.242210; 1.242210; 1.242210; 1.242210; 1.242210;
  0.056980; 0.056980; 0.656990; 0.656990; 0.925160;
  0.089090; 0.089090; 1.040430; 1.232480; 1.205300;
  1.053850; 1.053850; 1.399690; 1.084640; 1.233340;
  1.151540; 1.151540; 1.118290; 1.531640; 1.411840;
  1.494980; 1.494980; 1.700000; 1.800810; 1.671600;
  1.018450; 1.018450; 1.153600; 1.321890; 1.294670;
  0.700000; 0.700000; 1.023460; 0.700000; 0.945830;
  0.886300; 0.886300; 1.333620; 0.800000; 1.066620;
  0.902180; 0.902180; 0.954330; 1.126690; 1.097310;
  1.095300; 1.075060; 1.176490; 1.139470; 1.096110;
  1.201660; 1.201660; 1.438200; 1.256280; 1.198060;
  1.525850; 1.525850; 1.869160; 1.985410; 1.911590;
  1.288220; 1.082810; 1.286370; 1.166170; 1.119330;
  0.600000; 1.029910; 0.859890; 0.550000; 0.813600;
  0.604450; 1.029910; 0.859890; 0.656700; 0.928840;
  0.455850; 0.750580; 0.804930; 0.823000; 0.911000;
  0.526580; 0.932310; 0.908620; 0.983520; 0.988090;
  1.036110; 1.100690; 0.848380; 1.035270; 1.042380;
  1.048440; 1.652720; 0.900000; 2.350410; 1.082950;
  0.817410; 0.976160; 0.861300; 0.974780; 1.004580;
  0.782110; 0.564280; 0.600000; 0.600000; 0.665740;
  0.894480; 0.680730; 0.541990; 0.800000; 0.669140;
  0.487460; 0.818950; 0.841830; 0.872540; 0.709040;
  0.709310; 0.872780; 0.908480; 0.953290; 0.844350;
  0.863920; 0.947770; 0.876220; 1.078750; 0.936910;
  1.280350; 0.866720; 0.769790; 1.078750; 0.975130;
  0.725420; 0.869970; 0.868810; 0.951190; 0.829220;
  0.791750; 0.654040; 0.483170; 0.409000; 0.597180;
  0.566140; 0.948990; 0.971820; 0.653570; 0.718550;
  0.648710; 0.637730; 0.870510; 0.860600; 0.694300;
  0.637630; 0.767610; 0.925670; 0.990310; 0.847670;
  0.736380; 0.946060; 1.117590; 1.029340; 0.947020;
  1.180970; 0.850000; 1.050000; 0.950000; 0.888580;
  0.700560; 0.801440; 0.961970; 0.906140; 0.823880;
  0.500000; 0.500000; 0.586770; 0.470550; 0.629790;
  0.500000; 0.500000; 1.056220; 1.260140; 0.658140;
  0.500000; 0.500000; 0.631830; 0.842620; 0.582780;
  0.554710; 0.734730; 0.985820; 0.915640; 0.898260;
  0.712510; 1.205990; 0.909510; 1.078260; 0.885610;
  1.899260; 1.559710; 1.000000; 1.150000; 1.120390;
  0.653880; 0.793120; 0.903320; 0.944070; 0.796130;
  1.000000; 1.000000; 1.050000; 1.170380; 1.178090;
  0.960580; 0.960580; 1.059530; 1.179030; 1.131690;
  0.871470; 0.871470; 0.995860; 1.141910; 1.114600;
  1.201590; 1.201590; 0.993610; 1.109380; 1.126320;
  1.065010; 1.065010; 0.828660; 0.939970; 1.017930;
  1.065010; 1.065010; 0.623690; 1.119620; 1.132260;
  1.071570; 1.071570; 0.958070; 1.114130; 1.127110;
  0.950000; 0.973390; 0.852520; 1.092200; 1.096590;
  0.804120; 0.913870; 0.980990; 1.094580; 1.042420;
  0.737540; 0.935970; 0.999940; 1.056490; 1.050060;
  1.032980; 1.034540; 0.968460; 1.032080; 1.015780;
  0.900000; 0.977210; 0.945960; 1.008840; 0.969960;
  0.600000; 0.750000; 0.750000; 0.844710; 0.899100;
  0.926800; 0.965030; 0.968520; 1.044910; 1.032310;
  0.850000; 1.029710; 0.961100; 1.055670; 1.009700;
  0.818530; 0.960010; 0.996450; 1.081970; 1.036470;
  0.765380; 0.953500; 0.948260; 1.052110; 1.000140;
  0.775610; 0.909610; 0.927800; 0.987800; 0.952100;
  1.000990; 0.881880; 0.875950; 0.949100; 0.893690;
  0.902370; 0.875960; 0.807990; 0.942410; 0.917920;
  0.856580; 0.928270; 0.946820; 1.032260; 0.972990;
  0.750000; 0.857930; 0.983800; 1.056540; 0.980240;
  0.750000; 0.987010; 1.013730; 1.133780; 1.038250;
  0.800000; 0.947380; 1.012380; 1.091270; 0.999840;
  0.800000; 0.914550; 0.908570; 0.999190; 0.915230;
  0.778540; 0.800590; 0.799070; 0.902180; 0.851560;
  0.680190; 0.317410; 0.507680; 0.388910; 0.646710;
  0.794920; 0.912780; 0.960830; 1.057110; 0.947950;
  0.750000; 0.833890; 0.867530; 1.059890; 0.932840;
  0.979700; 0.971470; 0.995510; 1.068490; 1.030150;
  0.858850; 0.987920; 1.043220; 1.108700; 1.044900;
  0.802400; 0.955110; 0.911660; 1.045070; 0.944470;
  0.884890; 0.766210; 0.885390; 0.859070; 0.818190;
  0.615680; 0.700000; 0.850000; 0.624620; 0.669300;
  0.835570; 0.946150; 0.977090; 1.049350; 0.979970;
  0.689220; 0.809600; 0.900000; 0.789500; 0.853990;
  0.854660; 0.852840; 0.938200; 0.923110; 0.955010;
  0.938600; 0.932980; 1.010390; 1.043950; 1.041640;
  0.843620; 0.981300; 0.951590; 0.946100; 0.966330;
  0.694740; 0.814690; 0.572650; 0.400000; 0.726830;
  0.211370; 0.671780; 0.416340; 0.297290; 0.498050;
  0.843540; 0.882330; 0.911760; 0.898420; 0.960210;
  1.054880; 1.075210; 1.068460; 1.153370; 1.069220;
  1.000000; 1.062220; 1.013470; 1.088170; 1.046200;
  0.885090; 0.993530; 0.942590; 1.054990; 1.012740;
  0.920000; 0.950000; 0.978720; 1.020280; 0.984440;
  0.850000; 0.908500; 0.839940; 0.985570; 0.962180;
  0.800000; 0.800000; 0.810080; 0.950000; 0.961550;
  1.038590; 1.063200; 1.034440; 1.112780; 1.037800;
  1.017610; 1.028360; 1.058960; 1.133180; 1.045620;
  0.920000; 0.998970; 1.033590; 1.089030; 1.022060;
  0.912370; 0.949930; 0.979770; 1.020420; 0.981770;
  0.847160; 0.935300; 0.930540; 0.955050; 0.946560;
  0.880260; 0.867110; 0.874130; 0.972650; 0.883420;
  0.627150; 0.627150; 0.700000; 0.774070; 0.845130;
  0.973700; 1.006240; 1.026190; 1.071960; 1.017240;
  1.028710; 1.017570; 1.025900; 1.081790; 1.024240;
  0.924980; 0.985500; 1.014100; 1.092210; 0.999610;
  0.828570; 0.934920; 0.994950; 1.024590; 0.949710;
  0.900810; 0.901330; 0.928830; 0.979570; 0.913100;
  0.761030; 0.845150; 0.805360; 0.936790; 0.853460;
  0.626400; 0.546750; 0.730500; 0.850000; 0.689050;
  0.957630; 0.985480; 0.991790; 1.050220; 0.987900;
  0.992730; 0.993880; 1.017150; 1.059120; 1.017450;
  0.975610; 0.987160; 1.026820; 1.075440; 1.007250;
  0.871090; 0.933190; 0.974690; 0.979840; 0.952730;
  0.828750; 0.868090; 0.834920; 0.905510; 0.871530;
  0.781540; 0.782470; 0.767910; 0.764140; 0.795890;
  0.743460; 0.693390; 0.514870; 0.630150; 0.715660;
  0.934760; 0.957870; 0.959640; 0.972510; 0.981640;
  0.965840; 0.941240; 0.987100; 1.022540; 1.011160;
  0.988630; 0.994770; 0.976590; 0.950000; 1.034840;
  0.958200; 1.018080; 0.974480; 0.920000; 0.989870;
  0.811720; 0.869090; 0.812020; 0.850000; 0.821050;
  0.682030; 0.679480; 0.632450; 0.746580; 0.738550;
  0.668290; 0.445860; 0.500000; 0.678920; 0.696510;
  0.926940; 0.953350; 0.959050; 0.876210; 0.991490;
  0.948940; 0.997760; 0.850000; 0.826520; 0.998470;
  1.017860; 0.970000; 0.850000; 0.700000; 0.988560;
  1.000000; 0.950000; 0.850000; 0.606240; 0.947260;
  1.000000; 0.746140; 0.751740; 0.598390; 0.725230;
  0.922210; 0.500000; 0.376800; 0.517110; 0.548630;
  0.500000; 0.450000; 0.429970; 0.404490; 0.539940;
  0.960430; 0.881630; 0.775640; 0.596350; 0.937680;
  1.030000; 1.040000; 1.000000; 1.000000; 1.049510;
  1.050000; 0.990000; 0.990000; 0.950000; 0.996530;
  1.050000; 0.990000; 0.990000; 0.820000; 0.971940;
  1.050000; 0.790000; 0.880000; 0.820000; 0.951840;
  1.000000; 0.530000; 0.440000; 0.710000; 0.928730;
  0.540000; 0.470000; 0.500000; 0.550000; 0.773950;
  1.038270; 0.920180; 0.910930; 0.821140; 1.034560;
  1.041020; 0.997520; 0.961600; 1.000000; 1.035780;
  0.948030; 0.980000; 0.900000; 0.950360; 0.977460;
  0.950000; 0.977250; 0.869270; 0.800000; 0.951680;
  0.951870; 0.850000; 0.748770; 0.700000; 0.883850;
  0.900000; 0.823190; 0.727450; 0.600000; 0.839870;
  0.850000; 0.805020; 0.692310; 0.500000; 0.788410;
  1.010090; 0.895270; 0.773030; 0.816280; 1.011680;
  1.022450; 1.004600; 0.983650; 1.000000; 1.032940;
  0.943960; 0.999240; 0.983920; 0.905990; 0.978150;
  0.936240; 0.946480; 0.850000; 0.850000; 0.930320;
  0.816420; 0.885000; 0.644950; 0.817650; 0.865310;
  0.742960; 0.765690; 0.561520; 0.700000; 0.827140;
  0.643870; 0.596710; 0.474460; 0.600000; 0.651200;
  0.971740; 0.940560; 0.714880; 0.864380; 1.001650;
  0.995260; 0.977010; 1.000000; 1.000000; 1.035250;
  0.939810; 0.975250; 0.939980; 0.950000; 0.982550;
  0.876870; 0.879440; 0.850000; 0.900000; 0.917810;
  0.873480; 0.873450; 0.751470; 0.850000; 0.863040;
  0.761470; 0.702360; 0.638770; 0.750000; 0.783120;
  0.734080; 0.650000; 0.600000; 0.650000; 0.715660;
  0.942160; 0.919100; 0.770340; 0.731170; 0.995180;
  0.952560; 0.916780; 0.920000; 0.900000; 1.005880;
  0.928620; 0.994420; 0.900000; 0.900000; 0.983720;
  0.913070; 0.850000; 0.850000; 0.800000; 0.924280;
  0.868090; 0.807170; 0.823550; 0.600000; 0.844520;
  0.769570; 0.719870; 0.650000; 0.550000; 0.733500;
  0.580250; 0.650000; 0.600000; 0.500000; 0.628850;
  0.904770; 0.852650; 0.708370; 0.493730; 0.949030;
  0.911970; 0.800000; 0.800000; 0.800000; 0.956320;
  0.912620; 0.682610; 0.750000; 0.700000; 0.950110;
  0.653450; 0.659330; 0.700000; 0.600000; 0.856110;
  0.648440; 0.600000; 0.641120; 0.500000; 0.695780;
  0.570000; 0.550000; 0.598800; 0.40000; 0.560150;
  0.475230; 0.500000; 0.518640; 0.339970; 0.520230;
  0.743440; 0.592190; 0.603060; 0.316930; 0.794390
].

Definition get_CM : list float := map Fin CM_flat.

(** [CM[I,J,K,L]] on the array of shape (6,6,7,5), row-major. *)
Definition CM_getitem (I J K L : nat) : result float :=
  if Nat.ltb I 6 && Nat.ltb J 6 && Nat.ltb K 7 && Nat.ltb L 5
  then getitem get_CM (((I * 6 + J) * 7 + K) * 5 + L)%nat
  else Raise IndexError.

Section Perez.
Context {M : Libm}.
Open Scope float_scope.

Definition W_to_MJ (W : float) : float := W * 3600 * 1e-6.

Definition MJ_to_W (MJ : float) : float := MJ / (3600 * 1e-6).

Definition KTBIN : list float := [Fin 0.24; Fin 0.4; Fin 0.56; Fin 0.7; Fin 0.8].
Definition ZBIN : list float := [Fin 25.0; Fin 40.0; Fin 55.0; Fin 70.0; Fin 80.0].
Definition DKTBIN : list float := [Fin 0.015; Fin 0.035; Fin 0.07; Fin 0.15; Fin 0.3].
Definition WBIN : list float := [Fin 1.0; Fin 2.0; Fin 3.0].

(** The four indices into the coefficient table, from the corrected
    clearness indices [KT1], the zenith angles and the dew point. *)
Definition perez_bins (KT1 ZENITH : ndarray3) (TD : float) : nat * nat * nat * nat :=
  let K :=
    if isnan (at0 KT1) && isnan (at2 KT1) then 6%nat
    else
      let DKT1 :=
        if isnan (at0 KT1) || (at0 ZENITH >=? 85.0) then
          fabs (at2 KT1 - at1 KT1)
        else if isnan (at2 KT1) || (at2 ZENITH >=? 85.0) then
          fabs (at1 KT1 - at0 KT1)
        else
          0.5 * (fabs (at1 KT1 - at0 KT1) + fabs (at2 KT1 - at1 KT1)) in
      digitize DKT1 DKTBIN in
  let I := digitize (at1 KT1) KTBIN in
  let J := digitize (at1 ZENITH) ZBIN in
  let L :=
    if isnan TD then 4%nat
    else
      let W := exp (-0.075 + 0.07 * TD) in
      digitize W WBIN in
  (I, J, K, L).

Definition get_DN_perez_core (G_mj h_deg : ndarray3) (TD ALT IN0 : float) : result float :=
  let G := amap MJ_to_W G_mj in
  if (at1 G <? 1.0) || isnan (at1 G) then Ok (Fin 0.0)
  else if at1 h_deg <=? 0.0 then Ok (Fin 0.0)
  else
    let h_deg := amap (fun x => if x <? 0.0 then NaN else x) h_deg in
    let IO := MJ_to_W IN0 in
    let ZENITH := amap (fun x => 90 - x) h_deg in
    let cz := amap (fun z => cos (radians z)) ZENITH in
    let CZ := amap (fun c => if c <=? 6.5 * 1e-2 then 6.5 * 1e-2 else c) cz in
    let IOCZ := amap (fun c => IO * c) CZ in
    let KT := amap2 fdiv G IOCZ in
    let AM := amap2 (fun c z => 1.0 / (c + 0.15 * pow (93.9 - z) (-1.253))) CZ ZENITH in
    let AM := amap (fun x => if x >=? 15.25 then Fin 15.25 else x) AM in
    let KTPAM := amap (fun x => x * exp (-0.0001184 * ALT)) AM in
    let KT1 := amap2 (fun kt k => kt / (1.031 * exp (-1.4 / (0.9 + 9.4 / k)) + 0.1)) KT KTPAM in
    let KT1 := amap2 (fun c k => if c <? 0.0 then NaN else k) cz KT1 in
    let KT1 := if isnan (at0 G) || isnan (at0 ZENITH) then set0 KT1 NaN else KT1 in
    let KT1 := if isnan (at2 G) || isnan (at2 ZENITH) then set2 KT1 NaN else KT1 in
    if at1 CZ <? 0.0 then Ok (Fin 0.0)
    else
      let kt := at1 KT in
      let am := at1 AM in
      let '(A, B, C) :=
        if kt <=? 0.6 then
          (0.512 - (1.56 * kt) + (2.286 * (kt ** 2)) - (2.22 * (kt ** 3)),
           0.37 + (0.962 * kt),
           -0.28 + (0.932 * kt) - (2.048 * (kt ** 2)))
        else
          (-5.743 + (21.77 * kt) - (27.49 * (kt ** 2)) + (11.56 * (kt ** 3)),
           41.40 - (118.5 * kt) + (66.05 * (kt ** 2)) + (31.9 * (kt ** 3)),
           -47.01 + (184.2 * kt) - (222.0 * (kt ** 2)) + (73.81 * (kt ** 3))) in
      let KNC := 0.866 - (0.122 * am) + (0.0121 * (am ** 2))
                 - (0.000653 * (am ** 3)) + (0.000014 * (am ** 4)) in
      let BMAX := IO * (KNC - (A + B * exp (C * am))) in
      let '(i, j, k, l) := perez_bins KT1 ZENITH TD in
      cm ← CM_getitem i j k l;
      let DIRMAX := BMAX * cm in
      let DIRMAX := if DIRMAX <? 0.0 then Fin 0.0 else DIRMAX in
      Ok (W_to_MJ DIRMAX).

Definition get_DN_perez (TH h TD : list float) (ALT : float) (IN0 : list float)
    : result (list float) :=
  let dataL := length TH in
  for_range dataL (fun i =>
    GH ← (if Nat.eqb i 0 then
            th ← getitem TH i; th1 ← getitem TH (i + 1);
            hi ← getitem h i; h1 ← getitem h (i + 1);
            Ok (mk3 NaN th th1, mk3 NaN hi h1)
          else if Nat.eqb i (dataL - 1) then
            th0 ← getitem TH (i - 1); th ← getitem TH i;
            h0 ← getitem h (i - 1); hi ← getitem h i;
            Ok (mk3 th0 th NaN, mk3 h0 hi NaN)
          else
            th0 ← getitem TH (i - 1); th ← getitem TH i; th1 ← getitem TH (i + 1);
            h0 ← getitem h (i - 1); hi ← getitem h i; h1 ← getitem h (i + 1);
            Ok (mk3 th0 th th1, mk3 h0 hi h1));
    th ← getitem TH i;
    if isnan th then Ok NaN
    else
      td ← getitem TD i;
      in0 ← getitem IN0 i;
      get_DN_perez_core GH.1 GH.2 td ALT in0).

End Perez.

(** ** The entry point *)

(** A pandas frame: the hourly index and the named columns, each of the
    length of the index. *)
Record DataFrame : Type := mkDataFrame {
  index : list Z;
  columns : gmap string (list float)
}.

(** The four columns returned by [get_sun_position]. *)
Record SunPosition : Type := mkSunPosition {
  sun_IN0 : list float;
  sun_h : list float;
  sun_Sinh : list float;
  sun_A : list float
}.

(** [get_sun_position] is calendar arithmetic and trigonometry on the
    index; the separation only reads the four columns it returns, so it is
    taken as given. *)
Class Ephemeris : Type := {
  get_sun_position : float -> float -> list Z -> SunPosition
}.

(** [df[k].values] *)
Definition column (cols : gmap string (list float)) (k : string) : result (list float) :=
  match cols !! k with
  | Some c => Ok c
  | None => Raise (KeyError k)
  end.

(** Element-wise arithmetic on three columns of one frame. *)
Fixpoint map3 (f : float -> float -> float -> float) (x y z : list float) : list float :=
  match x, y, z with
  | a :: x', b :: y', c :: z' => f a b c :: map3 f x' y' z'
  | _, _, _ => []
  end.

(** [df.loc[df[k] <= 0.0, k] = 0.0] *)
Definition floor_at_zero (x : float) : float :=
  if fle x 0.0 then Fin 0.0 else x.

Definition floor_column (k : string) (cols : gmap string (list float))
    : gmap string (list float) :=
  alter (map floor_at_zero) k cols.

Section Separate.
Context {M : Libm} {E : Ephemeris}.

(** The part of the body of [for targ in ["est","msm"]] that selects the
    model: it adds ["SH_" + targ] or ["DN_" + targ], or nothing. *)
Definition dispatch_model (ele_target : float) (mode_separation targ : string)
    (TH : list float) (cols : gmap string (list float))
    : result (gmap string (list float)) :=
  if String.eqb mode_separation "Nagata" || String.eqb mode_separation "Watanabe" then
    let method_SH :=
      if String.eqb mode_separation "Nagata" then func_SH_Nagata else func_SH_Watanabe in
    Sinh ← column cols "Sinh";
    IN0 ← column cols "IN0";
    SH ← get_SH TH Sinh IN0 method_SH;
    Ok (<["SH_" +:+ targ := SH]> cols)
  else if String.eqb mode_separation "Erbs" then
    IN0 ← column cols "IN0";
    Sinh ← column cols "Sinh";
    SH ← get_SH_Erbs TH IN0 Sinh;
    Ok (<["SH_" +:+ targ := SH]> cols)
  else if String.eqb mode_separation "Udagawa" then
    IN0 ← column cols "IN0";
    Sinh ← column cols "Sinh";
    DN ← get_DN_Udagawa TH IN0 Sinh;
    Ok (<["DN_" +:+ targ := DN]> cols)
  else if String.eqb mode_separation "Perez" then
    h ← column cols "h";
    DT ← column cols "DT";
    IN0 ← column cols "IN0";
    DN ← get_DN_perez TH h DT ele_target IN0;
    Ok (<["DN_" +:+ targ := DN]> cols)
  else Ok cols.

(** The derivation of the complementary quantity. *)
Definition derive_complement (targ : string) (cols : gmap string (list float))
    : result (gmap string (list float)) :=
  if decide (is_Some (cols !! ("SH_" +:+ targ))) then
    TH ← column cols ("DSWRF_" +:+ targ);
    SH ← column cols ("SH_" +:+ targ);
    Sinh ← column cols "Sinh";
    Ok (floor_column ("DN_" +:+ targ)
          (<["DN_" +:+ targ := map3 func_DN TH SH Sinh]> cols))
  else if decide (is_Some (cols !! ("DN_" +:+ targ))) then
    TH ← column cols ("DSWRF_" +:+ targ);
    DN ← column cols ("DN_" +:+ targ);
    Sinh ← column cols "Sinh";
    Ok (floor_column ("SH_" +:+ targ)
          (<["SH_" +:+ targ := map3 func_SH TH DN Sinh]> cols))
  else Ok cols.

Definition separate_target (ele_target : float) (mode_separation targ : string)
    (cols : gmap string (list float)) : result (gmap string (list float)) :=
  match cols !! ("DSWRF_" +:+ targ) with
  | Some TH =>
      cols' ← dispatch_model ele_target mode_separation targ TH cols;
      derive_complement targ cols'
  | None => Ok cols
  end.

Fixpoint for_targets (ele_target : float) (mode_separation : string)
    (targs : list string) (cols : gmap string (list float))
    : result (gmap string (list float)) :=
  match targs with
  | [] => Ok cols
  | targ :: targs' =>
      cols' ← separate_target ele_target mode_separation targ cols;
      for_targets ele_target mode_separation targs' cols'
  end.

Definition get_separate (msm_target : DataFrame) (lat lon ele_target : float)
    (mode_separation : string) : result DataFrame :=
  let sun := get_sun_position lat lon (index msm_target) in
  let cols :=
    <["A" := sun_A sun]> (<["Sinh" := sun_Sinh sun]>
      (<["h" := sun_h sun]> (<["IN0" := sun_IN0 sun]> (columns msm_target)))) in
  cols' ← for_targets ele_target mode_separation ["est"; "msm"] cols;
  Ok (mkDataFrame (index msm_target) (delete "Sinh" (delete "IN0" cols'))).

End Separate.

(** ** The exit policy of the solver, as the specification words it

    Checked in this order on every pass, with [P] the midpoint of the
    bracket [[a, b]]:
    1. residual [|TH(P) - TH| <= 1e-5]: return [min(SH, TH)], with [P]
       clamped to 0.85 before [SH] is evaluated when [P >= 0.85];
    2. [a >= 0.85]: return [min(SH(0.85), TH)];
    3. [b <= 0]: return [min(SH(0), TH)];
    4. [P <= 1e-9]: return [min(SH(0), TH)];
    5. [|a - b| <= 1e-10]: return the missing-value marker;
    6. otherwise the lower bound moves to [P] when [TH(P) < TH], else the
       upper bound moves to [P]. *)

Section ExitPolicy.
Context {M : Libm}.
Variable method_SH : float -> float -> float -> float.
Variables TH Sinh IN0 a b : float.
Open Scope float_scope.

Let P : float := (a + b) / 2.
Let TH_P : float := func_TH P IN0 Sinh (method_SH P IN0 Sinh).

Inductive exit_policy_spec : step_result -> Prop :=
  | exit_converged :
      (fabs (TH_P - TH) <=? 1e-5) = true ->
      exit_policy_spec
        (Return (py_min (method_SH (if P >=? 0.85 then Fin 0.85 else P) IN0 Sinh) TH))
  | exit_lower_bound :
      (fabs (TH_P - TH) <=? 1e-5) = false ->
      (a >=? 0.85) = true ->
      exit_policy_spec (Return (py_min (method_SH 0.85 IN0 Sinh) TH))
  | exit_upper_bound :
      (fabs (TH_P - TH) <=? 1e-5) = false ->
      (a >=? 0.85) = false ->
      (b <=? 0.0) = true ->
      exit_policy_spec (Return (py_min (method_SH 0.0 IN0 Sinh) TH))
  | exit_zero_midpoint :
      (fabs (TH_P - TH) <=? 1e-5) = false ->
      (a >=? 0.85) = false ->
      (b <=? 0.0) = false ->
      (P <=? 1e-9) = true ->
      exit_policy_spec (Return (py_min (method_SH 0.0 IN0 Sinh) TH))
  | exit_not_converged :
      (fabs (TH_P - TH) <=? 1e-5) = false ->
      (a >=? 0.85) = false ->
      (b <=? 0.0) = false ->
      (P <=? 1e-9) = false ->
      (fabs (a - b) <=? 1e-10) = true ->
      exit_policy_spec (Return NaN)
  | move_lower_bound :
      (fabs (TH_P - TH) <=? 1e-5) = false ->
      (a >=? 0.85) = false ->
      (b <=? 0.0) = false ->
      (P <=? 1e-9) = false ->
      (fabs (a - b) <=? 1e-10) = false ->
      (TH_P <? TH) = true ->
      exit_policy_spec (Continue P b)
  | move_upper_bound :
      (fabs (TH_P - TH) <=? 1e-5) = false ->
      (a >=? 0.85) = false ->
      (b <=? 0.0) = false ->
      (P <=? 1e-9) = false ->
      (fabs (a - b) <=? 1e-10) = false ->
      (TH_P <? TH) = false ->
      exit_policy_spec (Continue a P).

End ExitPolicy.

(** The loop as the specification describes it: the policy is applied to
    the bracket [[a, b]]; when it returns [r] the solver returns [r], and
    when it moves a bound the next pass is made on the moved bracket. *)
Inductive exit_policy_run {M : Libm} (method_SH : float -> float -> float -> float)
    (TH Sinh IN0 : float) : float -> float -> float -> Prop :=
  | run_return (a b r : float) :
      exit_policy_spec method_SH TH Sinh IN0 a b (Return r) ->
      exit_policy_run method_SH TH Sinh IN0 a b r
  | run_next_pass (a b a' b' r : float) :
      exit_policy_spec method_SH TH Sinh IN0 a b (Continue a' b') ->
      exit_policy_run method_SH TH Sinh IN0 a' b' r ->
      exit_policy_run method_SH TH Sinh IN0 a b r.

(** ** Instances on which the model can be run

    [pow] is exact at non-negative integer exponents, and [exp], [cos] and
    [radians] at 0; elsewhere the value is in general irrational and [NaN]
    stands for "outside the model".  The runs below stay on the exact
    points: they use the Erbs and Udagawa formulas, rows that return before
    any of these functions is called, and the solver at [Sinh = 1]. *)

Definition pow_exact (x y : float) : float :=
  match y with
  | Fin q =>
      if Qeq_bool q (inject_Z (Qfloor q)) && (0 <=? Qfloor q)%Z
      then fpowi x (Z.to_nat (Qfloor q))
      else NaN
  | NaN => NaN
  end.

Definition at_zero (v : Q) (x : float) : float :=
  match x with
  | Fin q => if Qeq_bool q 0 then Fin v else NaN
  | NaN => NaN
  end.

Definition libm_exact : Libm :=
  {| pow := pow_exact; exp := at_zero 1; cos := at_zero 1; radians := at_zero 0 |}.

(** A diffuse-irradiance formula with a jump at [P = 0.7], to be plugged into
    the solver like [func_SH_Nagata]. *)
Definition method_SH_jump (P IN0 Sinh : float) : float :=
  if flt P 0.7 then Fin 0.0 else Fin 3.0.

(** An ephemeris reporting the same sun for every hour of the index. *)
Definition constant_sun (IN0 h Sinh A : float) : Ephemeris :=
  {| get_sun_position := fun _ _ idx =>
       mkSunPosition (map (fun _ => IN0) idx) (map (fun _ => h) idx)
                     (map (fun _ => Sinh) idx) (map (fun _ => A) idx) |}.

(** A sun 17.46 degrees above the horizon ([Sinh = 0.3]), a sun 30 degrees
    below it, and the frame holding one observed irradiance column. *)
Definition sun_low : Ephemeris := constant_sun (Fin 4.921) (Fin 17.46) (Fin 0.3) (Fin 180).
Definition sun_down : Ephemeris := constant_sun (Fin 4.921) (Fin (-30)) (Fin (-0.5)) (Fin 0).

(** A sun at the zenith ([Sinh = 1], where [P ** (1/Sinh)] is [P]). *)
Definition sun_zenith : Ephemeris := constant_sun (Fin 4.921) (Fin 90) (Fin 1.0) (Fin 180).

Definition frame_of (TH : list float) : DataFrame :=
  mkDataFrame (map Z.of_nat (seq 0 (length TH))) {[ "DSWRF_est" := TH ]}.

(** ** The five model names

    [get_separate] compares [mode_separation] with five string literals;
    [model_of_name] names the outcome of those comparisons. *)
Inductive model : Type := Nagata | Watanabe | Erbs | Udagawa | Perez.

Definition model_of_name (name : string) : option model :=
  if String.eqb name "Nagata" then Some Nagata
  else if String.eqb name "Watanabe" then Some Watanabe
  else if String.eqb name "Erbs" then Some Erbs
  else if String.eqb name "Udagawa" then Some Udagawa
  else if String.eqb name "Perez" then Some Perez
  else None.

(** The models that estimate [SH] and derive [DN] from it; the others
    estimate [DN] and derive [SH]. *)
Definition estimates_SH (m : model) : bool :=
  match m with
  | Nagata | Watanabe | Erbs => true
  | Udagawa | Perez => false
  end.

(** ** Agreement of two values within an absolute tolerance

    Both values are present and differ by at most [tol]. *)
Definition agree_within (tol : Q) (x y : float) : Prop :=
  match x, y with
  | Fin p, Fin q => Qabs (p - q) <= tol
  | _, _ => False
  end.

(** ** Present and not negative, or missing *)
Definition nonneg_or_missing (x : float) : Prop :=
  match x with
  | NaN => True
  | Fin q => 0 <= q
  end.

(** ** What the solver can return

    The marker, or [min(SH(P), TH)] at [P = 0], at [P = P_max], or at a
    midpoint below [P_max] at which the residual is within [LIMIT1]. *)
Definition solver_outcome {M : Libm} (method_SH : float -> float -> float -> float)
    (TH Sinh IN0 r : float) : Prop :=
  r = NaN \/
  r = py_min (method_SH (Fin 0.0) IN0 Sinh) TH \/
  r = py_min (method_SH P_max IN0 Sinh) TH \/
  exists q, 0 <= q /\ q < 0.85 /\
    fle (fabs (fsub (func_TH (Fin q) IN0 Sinh (method_SH (Fin q) IN0 Sinh)) TH)) LIMIT1
      = true /\
    r = py_min (method_SH (Fin q) IN0 Sinh) TH.

(** ** The quartic of the Erbs correlation on an interval

    [erbs_poly] is the factor of [func_SH_Erbs_4d].  Expanded at [lo], the
    quartic at [lo + t] is
    [erbs_poly lo + d1*t + d2*t^2 + d3*t^3 + 12.336*t^4]; for
    [0 <= t <= step] each term lies between its value at [0] and its value
    at [step], which bounds the quartic from both sides.  [pieces_ok]
    checks that a lower enclosure stays above [lb] and an upper enclosure
    below [ub] on [n] consecutive pieces of width [step] starting at [lo]. *)
Definition erbs_poly (k : Q) : Q :=
  0.9511 - 0.1604 * k + 4.388 * (k * k)
  - 16.638 * (k * (k * k)) + 12.336 * (k * (k * (k * k))).

Definition erbs_d1 (lo : Q) : Q :=
  - 0.1604 + 8.776 * lo - 49.914 * (lo * lo) + 49.344 * (lo * (lo * lo)).

Definition erbs_d2 (lo : Q) : Q := 4.388 - 49.914 * lo + 74.016 * (lo * lo).

Definition erbs_d3 (lo : Q) : Q := - 16.638 + 49.344 * lo.

Definition Qmin0 (c : Q) : Q := if Qle_bool 0 c then 0 else c.
Definition Qmax0 (c : Q) : Q := if Qle_bool 0 c then c else 0.

Definition erbs_poly_lower (lo step : Q) : Q :=
  erbs_poly lo + Qmin0 (erbs_d1 lo) * step + Qmin0 (erbs_d2 lo) * (step * step)
  + Qmin0 (erbs_d3 lo) * (step * (step * step)).

Definition erbs_poly_upper (lo step : Q) : Q :=
  erbs_poly lo + Qmax0 (erbs_d1 lo) * step + Qmax0 (erbs_d2 lo) * (step * step)
  + Qmax0 (erbs_d3 lo) * (step * (step * step))
  + 12.336 * (step * (step * (step * step))).

Fixpoint pieces_ok (lower upper : Q -> Q -> Q) (lb ub : Q) (n : nat) (lo step : Q)
    : bool :=
  match n with
  | O => true
  | S n' =>
      Qle_bool lb (lower lo step) && Qle_bool (upper lo step) ub &&
      pieces_ok lower upper lb ub n' (Qred (lo + step)) step
  end.

(** * Properties *)

(** ** Comparisons and the missing-value marker *)

Lemma fle_Fin (p q : Q) : fle (Fin p) (Fin q) = true <-> p <= q.
Proof. apply Qle_bool_iff. Qed.

Lemma fle_Fin_false (p q : Q) : fle (Fin p) (Fin q) = false <-> q < p.
Proof.
  simpl. rewrite <- not_true_iff_false, Qle_bool_iff. split.
  - apply Qnot_le_lt.
  - apply Qlt_not_le.
Qed.

Lemma fle_proper (x : float) (p q : Q) : p == q -> fle x (Fin p) = fle x (Fin q).
Proof.
  intros Hpq. destruct x as [|r]; [done|].
  apply eq_true_iff_eq. rewrite !fle_Fin. by rewrite Hpq.
Qed.

(** [max(0.0, nan)] is [0.0]: the marker is not greater than anything. *)
Lemma py_max_NaN (a : float) : py_max a NaN = a.
Proof. by destruct a. Qed.

(** ** Loops over the rows *)

Lemma collect_lookup (body : nat -> result float) (rows : list nat) (out : list float) :
  collect body rows = Ok out ->
  length out = length rows /\
  forall k i, rows !! k = Some i -> exists x, body i = Ok x /\ out !! k = Some x.
Proof.
  revert out. induction rows as [|i rows IH]; intros out Hc; simpl in Hc.
  - inversion Hc; subst. split; [done|]. intros k i Hk. by rewrite lookup_nil in Hk.
  - unfold mbind, result_bind in Hc.
    destruct (body i) as [x|e] eqn:Hb; [|discriminate].
    destruct (collect body rows) as [xs|e] eqn:Hr; [|discriminate].
    inversion Hc; subst. destruct (IH xs eq_refl) as [Hlen Hrows].
    split; [simpl; by rewrite Hlen|].
    intros [|k] j Hk; simpl in Hk.
    + inversion Hk; subst. eauto.
    + apply Hrows, Hk.
Qed.

Lemma collect_ok (body : nat -> result float) (rows : list nat) :
  (forall i, i ∈ rows -> exists x, body i = Ok x) ->
  exists out, collect body rows = Ok out.
Proof.
  induction rows as [|i rows IH]; intros Hb; simpl.
  - eauto.
  - destruct (Hb i) as [x Hx]; [left|].
    destruct IH as [xs Hxs]; [intros j Hj; apply Hb; by right|].
    exists (x :: xs). unfold mbind, result_bind. by rewrite Hx, Hxs.
Qed.

Lemma for_range_lookup (n : nat) (body : nat -> result float) (out : list float) :
  for_range n body = Ok out ->
  length out = n /\
  forall i, (i < n)%nat -> exists x, body i = Ok x /\ out !! i = Some x.
Proof.
  intros Hf. apply collect_lookup in Hf as [Hlen Hrows].
  rewrite length_seq in Hlen. split; [done|].
  intros i Hi. apply Hrows. by rewrite lookup_seq_lt.
Qed.

Lemma for_range_ok (n : nat) (body : nat -> result float) :
  (forall i, (i < n)%nat -> exists x, body i = Ok x) ->
  exists out, for_range n body = Ok out.
Proof.
  intros Hb. apply collect_ok. intros i Hi. apply Hb.
  apply elem_of_seq in Hi. lia.
Qed.

Lemma for_range_raise (n : nat) (body : nat -> result float) (e : exn) :
  (0 < n)%nat -> body 0%nat = Raise e -> for_range n body = Raise e.
Proof.
  intros Hn Hb. destruct n as [|n]; [lia|].
  unfold for_range. simpl. unfold mbind, result_bind. by rewrite Hb.
Qed.

Lemma getitem_Some (arr : list float) (i : nat) (x : float) :
  arr !! i = Some x -> getitem arr i = Ok x.
Proof. unfold getitem. by intros ->. Qed.

Lemma getitem_Ok (arr : list float) (i : nat) (x : float) :
  getitem arr i = Ok x -> arr !! i = Some x.
Proof. unfold getitem. destruct (arr !! i); by inversion 1. Qed.

Lemma getitem_lt (arr : list float) (i : nat) :
  (i < length arr)%nat -> exists x, getitem arr i = Ok x /\ arr !! i = Some x.
Proof.
  intros Hi. destruct (lookup_lt_is_Some_2 arr i Hi) as [x Hx].
  exists x. split; [by apply getitem_Some|done].
Qed.

(** ** The transmittance solver *)

Section SolverProperties.
Context {M : Libm}.
Variable method_SH : float -> float -> float -> float.
Variables TH Sinh IN0 : float.

(** A pass that does not return halves the bracket, and only happens while
    the bracket is wider than [LIMIT2]. *)
Lemma get_SH_core_step_continue (qa qb : Q) (a' b' : float) :
  get_SH_core_step method_SH TH Sinh IN0 (Fin qa) (Fin qb) = Continue a' b' ->
  exists qa' qb',
    a' = Fin qa' /\ b' = Fin qb' /\
    qb' - qa' == (qb - qa) / 2 /\ 1e-10 < Qabs (qa - qb).
Proof.
  unfold get_SH_core_step.
  repeat match goal with
         | |- context [if ?c then Return _ else _] =>
             let E := fresh "E" in destruct c eqn:E; [discriminate|]
         end.
  apply fle_Fin_false in E3. rewrite Qred_correct in E3.
  assert (Hmid : fdiv (fadd (Fin qa) (Fin qb)) (Fin 2)
                 = Fin (Qred (Qred (qa + qb) / 2))) by done.
  rewrite Hmid.
  destruct (flt _ TH); intros [= <- <-].
  - exists (Qred (Qred (qa + qb) / 2)), qb.
    repeat split; [rewrite !Qred_correct; field | exact E3].
  - exists qa, (Qred (Qred (qa + qb) / 2)).
    repeat split; [rewrite !Qred_correct; field | exact E3].
Qed.

Lemma get_SH_core_loop_halving (n : nat) (qa qb : Q) :
  qa <= qb -> qb - qa <= 1e-10 * inject_Z (2 ^ Z.of_nat n) ->
  exists r, get_SH_core_loop (S n) method_SH TH Sinh IN0 (Fin qa) (Fin qb) = Some r.
Proof.
  revert qa qb. induction n as [|n IH]; intros qa qb Hab Hw.
  - simpl. destruct (get_SH_core_step _ _ _ _ _ _) as [r|a' b'] eqn:Hs; [eauto|].
    apply get_SH_core_step_continue in Hs as (qa' & qb' & _ & _ & _ & Hwide).
    exfalso. rewrite Qabs_Qminus, Qabs_pos in Hwide by lra.
    change (inject_Z (2 ^ Z.of_nat 0)) with 1 in Hw. lra.
  - cbn [get_SH_core_loop].
    destruct (get_SH_core_step _ _ _ _ _ _) as [r|a' b'] eqn:Hs; [eauto|].
    apply get_SH_core_step_continue in Hs as (qa' & qb' & -> & -> & Hhalf & _).
    unfold Qdiv in Hhalf. change (/ 2) with (1 # 2) in Hhalf.
    apply IH; [lra|].
    + replace (2 ^ Z.of_nat (S n))%Z with (2 * 2 ^ Z.of_nat n)%Z in Hw
        by (rewrite Nat2Z.inj_succ, Z.pow_succ_r; lia).
      rewrite inject_Z_mult in Hw. change (inject_Z 2) with 2 in Hw.
      set (w := inject_Z (2 ^ Z.of_nat n)) in *. lra.
Qed.

Lemma get_SH_core_loop_more_fuel (n m : nat) (a b r : float) :
  (n <= m)%nat ->
  get_SH_core_loop n method_SH TH Sinh IN0 a b = Some r ->
  get_SH_core_loop m method_SH TH Sinh IN0 a b = Some r.
Proof.
  revert m a b. induction n as [|n IH]; intros m a b Hnm Hn; [discriminate|].
  destruct m as [|m]; [lia|]. simpl in *.
  destruct (get_SH_core_step _ _ _ _ _ _); [done|].
  apply IH; [lia|done].
Qed.

(** C7: the [while True] loop of [get_SH_core] returns after at most 35
    passes, whatever the inputs and the diffuse formula (in particular for
    [Sinh > 0] and finite [TH], [IN0]): a pass that does not return halves
    the bracket, and [1.2 / 2^34 <= 1e-10] makes the 35th pass return at the
    bracket-width test at the latest.  More passes change nothing. *)
Theorem get_SH_core_terminates :
  exists r,
    get_SH_core_loop 35 method_SH TH Sinh IN0 (Fin 0.0) (Fin 1.2) = Some r /\
    (forall fuel, (35 <= fuel)%nat ->
       get_SH_core_loop fuel method_SH TH Sinh IN0 (Fin 0.0) (Fin 1.2) = Some r) /\
    get_SH_core TH Sinh IN0 method_SH = r.
Proof.
  destruct (get_SH_core_loop_halving 34 0.0 1.2) as [r Hr].
  - lra.
  - vm_compute. discriminate.
  - exists r. split; [exact Hr|]. split.
    + intros fuel Hfuel. by apply (get_SH_core_loop_more_fuel 35).
    + unfold get_SH_core, get_SH_core_passes. by rewrite Hr.
Qed.

(** The literal [1e-9] of the specification is the source's [LIMIT2*10]. *)
Lemma LIMIT2_times_10 (P : float) : fle P (fmul LIMIT2 (Fin 10)) = fle P (Fin 1e-9).
Proof. apply fle_proper. reflexivity. Qed.

Lemma get_SH_core_step_policy (a b : float) (out : step_result) :
  exit_policy_spec method_SH TH Sinh IN0 a b out <->
  get_SH_core_step method_SH TH Sinh IN0 a b = out.
Proof.
  unfold get_SH_core_step, P_max, P_min, LIMIT1.
  rewrite LIMIT2_times_10. unfold LIMIT2. split.
  - intros Hspec. inversion Hspec; subst;
      repeat match goal with
             | H : (_ = true) |- _ => rewrite H; clear H
             | H : (_ = false) |- _ => rewrite H; clear H
             end; try reflexivity.
    by destruct (fge _ _).
  - intros <-.
    destruct (fle (fabs _) (Fin 1e-5)) eqn:E1.
    { replace (if fge (fdiv (fadd a b) (Fin 2)) (Fin 0.85) then _ else _)
        with (method_SH (if fge (fdiv (fadd a b) (Fin 2)) (Fin 0.85) then Fin 0.85
                         else fdiv (fadd a b) (Fin 2)) IN0 Sinh)
        by (by destruct (fge _ _)).
      by apply exit_converged. }
    destruct (fge a (Fin 0.85)) eqn:E2; [by apply exit_lower_bound|].
    destruct (fle b (Fin 0.0)) eqn:E3; [by apply exit_upper_bound|].
    destruct (fle _ (Fin 1e-9)) eqn:E4; [by apply exit_zero_midpoint|].
    destruct (fle (fabs _) (Fin 1e-10)) eqn:E5; [by apply exit_not_converged|].
    destruct (flt _ TH) eqn:E6; [by apply move_lower_bound|by apply move_upper_bound].
Qed.

(** The loop makes its passes on the brackets the policy leaves: it returns
    [r] from [[a, b]] within some number of passes exactly when the policy,
    iterated from [[a, b]], returns [r]. *)
Lemma get_SH_core_loop_policy (a b r : float) :
  exit_policy_run method_SH TH Sinh IN0 a b r <->
  exists n, get_SH_core_loop n method_SH TH Sinh IN0 a b = Some r.
Proof.
  split.
  - induction 1 as [a b r Hret|a b a' b' r Hmove _ [n Hn]].
    + exists 1%nat. apply get_SH_core_step_policy in Hret.
      cbn [get_SH_core_loop]. by rewrite Hret.
    + exists (S n). apply get_SH_core_step_policy in Hmove.
      cbn [get_SH_core_loop]. by rewrite Hmove.
  - intros [n Hn]. revert a b Hn.
    induction n as [|n IH]; intros a b Hn; [discriminate|].
    cbn [get_SH_core_loop] in Hn.
    destruct (get_SH_core_step method_SH TH Sinh IN0 a b) as [r'|a' b'] eqn:Hstep;
      apply get_SH_core_step_policy in Hstep.
    + inversion Hn; subst. by apply run_return.
    + eapply run_next_pass; [exact Hstep|]. by apply IH.
Qed.

(** C5: [get_SH_core] is the exit policy of the specification, iterated
    from the bracket [0, 1.2].  On every pass, for every bracket [[a, b]],
    the outcome is the one the policy prescribes, its conditions tested in
    the order (1) to (6); a pass that moves a bound hands the moved bracket
    to the next pass; and the value [get_SH_core] returns is exactly the
    value at which the policy, iterated from [[0.0, 1.2]], returns. *)
Theorem get_SH_core_exit_order :
  (forall a b out,
     exit_policy_spec method_SH TH Sinh IN0 a b out <->
     get_SH_core_step method_SH TH Sinh IN0 a b = out) /\
  (forall a b r,
     exit_policy_run method_SH TH Sinh IN0 a b r <->
     exists n, get_SH_core_loop n method_SH TH Sinh IN0 a b = Some r) /\
  (forall r,
     exit_policy_run method_SH TH Sinh IN0 (Fin 0.0) (Fin 1.2) r <->
     get_SH_core TH Sinh IN0 method_SH = r).
Proof.
  split; [apply get_SH_core_step_policy|].
  split; [apply get_SH_core_loop_policy|].
  intros r.
  destruct (get_SH_core_loop_halving 34 0.0 1.2) as [r35 H35];
    [lra|vm_compute; discriminate|].
  assert (Hcore : get_SH_core TH Sinh IN0 method_SH = r35)
    by (unfold get_SH_core, get_SH_core_passes; by rewrite H35).
  rewrite Hcore. split.
  - intros Hrun. apply get_SH_core_loop_policy in Hrun as [n Hn].
    pose proof (get_SH_core_loop_more_fuel n (n + 35) _ _ _ ltac:(lia) Hn) as H1.
    pose proof (get_SH_core_loop_more_fuel 35 (n + 35) _ _ _ ltac:(lia) H35) as H2.
    congruence.
  - intros <-. apply get_SH_core_loop_policy. by exists 35%nat.
Qed.

End SolverProperties.

(** ** Element-wise column arithmetic *)

Lemma map3_lookup (f : float -> float -> float -> float) (x y z : list float)
    (i : nat) (a b c : float) :
  x !! i = Some a -> y !! i = Some b -> z !! i = Some c ->
  map3 f x y z !! i = Some (f a b c).
Proof.
  revert y z i. induction x as [|a' x IH]; intros [|b' y] [|c' z] [|i]; simpl;
    try discriminate.
  - by intros [= ->] [= ->] [= ->].
  - apply IH.
Qed.

(** ** The batch wrapper of the solver and the non-convergence marker *)

Section BatchSolver.
Context {M : Libm}.

Lemma get_SH_row (method_SH : float -> float -> float -> float)
    (TH Sinh IN0 SH : list float) (i : nat) (th : float) :
  get_SH TH Sinh IN0 method_SH = Ok SH ->
  TH !! i = Some th ->
  exists s, Sinh !! i = Some s /\
    if fle s 0.0 then SH !! i = Some (Fin 0.0)
    else if isnan th then SH !! i = Some NaN
    else exists in0, IN0 !! i = Some in0 /\
           SH !! i = Some (py_max 0.0 (get_SH_core th s in0 method_SH)).
Proof.
  intros Hrun Hth. apply for_range_lookup in Hrun as [_ Hrows].
  destruct (Hrows i) as (x & Hbody & Hx); [by eapply lookup_lt_Some|].
  unfold mbind, result_bind in Hbody.
  destruct (getitem Sinh i) as [s|] eqn:Hs; [|discriminate].
  apply getitem_Ok in Hs. exists s. split; [done|].
  destruct (fle s 0.0); [by inversion Hbody; subst|].
  rewrite (getitem_Some _ _ _ Hth) in Hbody.
  destruct (isnan th); [by inversion Hbody; subst|].
  destruct (getitem IN0 i) as [in0|] eqn:Hin; [|discriminate].
  apply getitem_Ok in Hin. exists in0. split; [done|]. by inversion Hbody; subst.
Qed.

(** C3 (what the code does): when [get_SH_core] returns the missing-value
    marker for a row with the sun up and [TH] present, in particular when it
    declares non-convergence, [max(0.0, nan)] in [get_SH] keeps [0.0]: the
    batch value of [SH] is 0, not the marker, and the direct-normal value
    derived from it by [func_DN] is the finite [TH / Sinh]. *)
Theorem get_SH_drops_nonconvergence_marker
    (method_SH : float -> float -> float -> float)
    (TH Sinh IN0 SH : list float) (i : nat) (th s : Q) (in0 : float) :
  TH !! i = Some (Fin th) -> Sinh !! i = Some (Fin s) -> IN0 !! i = Some in0 ->
  0 < s ->
  get_SH_core (Fin th) (Fin s) in0 method_SH = NaN ->
  get_SH TH Sinh IN0 method_SH = Ok SH ->
  SH !! i = Some (Fin 0.0) /\
  exists dn, map3 func_DN TH SH Sinh !! i = Some (Fin dn) /\ dn == th / s.
Proof.
  intros Hth Hs Hin Hpos Hnan Hrun.
  destruct (get_SH_row _ _ _ _ _ _ _ Hrun Hth) as (s' & Hs' & Hrow).
  rewrite Hs in Hs'. inversion Hs'; subst s'; clear Hs'.
  assert (Hup : fle (Fin s) 0.0 = false) by (apply fle_Fin_false; lra).
  rewrite Hup in Hrow. simpl in Hrow. destruct Hrow as (in0' & Hin' & Hrow).
  rewrite Hin in Hin'. inversion Hin'; subst in0'; clear Hin'.
  rewrite Hnan, py_max_NaN in Hrow. split; [exact Hrow|].
  exists (Qred (Qred (th - 0.0) / s)). split.
  - rewrite (map3_lookup _ _ _ _ _ _ _ _ Hth Hrow Hs). unfold func_DN. simpl.
    destruct (Qeq_bool s 0) eqn:Hz; [|done].
    apply Qeq_bool_iff in Hz. lra.
  - rewrite !Qred_correct. field. lra.
Qed.

End BatchSolver.

(** The solver with the jump formula, at [TH = 4.0], [Sinh = 1.0],
    [IN0 = 4.921]: [TH(P)] stays below 3.45 left of the jump and above 6.44
    right of it, so no pass converges and the bracket closes on 0.7; the
    35th pass declares non-convergence, and the 34 before it do not return. *)
Example get_SH_core_jump_not_converged :
  @get_SH_core libm_exact (Fin 4.0) (Fin 1.0) (Fin 4.921) method_SH_jump = NaN /\
  @get_SH_core_loop libm_exact 34 method_SH_jump (Fin 4.0) (Fin 1.0) (Fin 4.921)
    (Fin 0.0) (Fin 1.2) = None.
Proof. split; vm_compute; reflexivity. Qed.

(** The row of the example above, through the batch wrapper. *)
Lemma get_SH_drops_nonconvergence_marker_witness :
  @get_SH_core libm_exact (Fin 4.0) (Fin 1.0) (Fin 4.921) method_SH_jump = NaN /\
  @get_SH libm_exact [Fin 4.0] [Fin 1.0] [Fin 4.921] method_SH_jump = Ok [Fin 0.0] /\
  [Fin 0.0] !! 0%nat = Some (Fin 0.0) /\
  exists dn, map3 func_DN [Fin 4.0] [Fin 0.0] [Fin 1.0] !! 0%nat = Some (Fin dn) /\
             dn == 4.0 / 1.0.
Proof.
  split; [vm_compute; reflexivity|]. split; [vm_compute; reflexivity|].
  apply (@get_SH_drops_nonconvergence_marker libm_exact method_SH_jump
           [Fin 4.0] [Fin 1.0] [Fin 4.921] [Fin 0.0] 0%nat 4.0 1.0 (Fin 4.921)).
  - reflexivity.
  - reflexivity.
  - reflexivity.
  - reflexivity.
  - vm_compute; reflexivity.
  - vm_compute; reflexivity.
Defined.

(** ** The Erbs correlation at its branch boundaries *)

Lemma func_SH_Erbs_1d_022_value (th kt : Q) :
  exists v, func_SH_Erbs_1d_022 (Fin th) (Fin kt) = Fin v /\
            v == th * (1.0 - 0.09 * kt).
Proof.
  eexists. split; [reflexivity|]. rewrite !Qred_correct. reflexivity.
Qed.

Lemma func_SH_Erbs_4d_value (th kt : Q) :
  exists v, func_SH_Erbs_4d (Fin th) (Fin kt) = Fin v /\
            v == th * (0.9511 - 0.1604 * kt + 4.388 * (kt * kt)
                       - 16.638 * (kt * (kt * kt)) + 12.336 * (kt * (kt * (kt * kt)))).
Proof.
  eexists. split; [reflexivity|]. rewrite !Qred_correct. reflexivity.
Qed.

Lemma func_SH_Erbs_1d_080_value (th : Q) :
  exists v, func_SH_Erbs_1d_080 (Fin th) = Fin v /\ v == 0.165 * th.
Proof.
  eexists. split; [reflexivity|]. rewrite !Qred_correct. reflexivity.
Qed.

(** C8 (as amended): the branches of the Erbs correlation do not meet at the
    boundaries.  For every [TH], at [KT = 0.22] the degree-1 polynomial
    exceeds the degree-4 polynomial by [0.00027240384 * TH], and at
    [KT = 0.80] the degree-4 polynomial exceeds [0.165 * TH] by
    [0.0002696 * TH]; so the branches agree to within [0.0003 * |TH|], and no
    closer. *)
Theorem Erbs_boundary_gap (th : Q) :
  (exists d1 d4,
     func_SH_Erbs_1d_022 (Fin th) (Fin 0.22) = Fin d1 /\
     func_SH_Erbs_4d (Fin th) (Fin 0.22) = Fin d4 /\
     d1 - d4 == 0.00027240384 * th) /\
  (exists d4 d1,
     func_SH_Erbs_4d (Fin th) (Fin 0.80) = Fin d4 /\
     func_SH_Erbs_1d_080 (Fin th) = Fin d1 /\
     d4 - d1 == 0.0002696 * th) /\
  agree_within (0.0003 * Qabs th)
    (func_SH_Erbs_1d_022 (Fin th) (Fin 0.22)) (func_SH_Erbs_4d (Fin th) (Fin 0.22)) /\
  agree_within (0.0003 * Qabs th)
    (func_SH_Erbs_4d (Fin th) (Fin 0.80)) (func_SH_Erbs_1d_080 (Fin th)).
Proof.
  destruct (func_SH_Erbs_1d_022_value th 0.22) as (a & Ha & Hav).
  destruct (func_SH_Erbs_4d_value th 0.22) as (b & Hb & Hbv).
  destruct (func_SH_Erbs_4d_value th 0.80) as (c & Hc & Hcv).
  destruct (func_SH_Erbs_1d_080_value th) as (d & Hd & Hdv).
  assert (Hab : a - b == 0.00027240384 * th) by (rewrite Hav, Hbv; ring).
  assert (Hcd : c - d == 0.0002696 * th) by (rewrite Hcv, Hdv; ring).
  rewrite Ha, Hb, Hc, Hd. unfold agree_within.
  split; [by exists a, b|]. split; [by exists c, d|].
  rewrite Hab, Hcd, !Qabs_Qmult.
  assert (0 <= Qabs th) by apply Qabs_nonneg.
  change (Qabs 0.00027240384) with 0.00027240384.
  change (Qabs 0.0002696) with 0.0002696.
  set (t := Qabs th) in *. clearbody t. clear - H. split; lra.
Qed.

(** C8 (as claimed) fails already at the loosest tolerance the
    specification uses anywhere, 1e-4: for [TH = 1] the two branches are
    2.7e-4 apart at each boundary. *)
Lemma Erbs_boundary_gap_counterexample :
  ~ agree_within 1e-4
      (func_SH_Erbs_1d_022 (Fin 1.0) (Fin 0.22)) (func_SH_Erbs_4d (Fin 1.0) (Fin 0.22)) /\
  ~ agree_within 1e-4
      (func_SH_Erbs_4d (Fin 1.0) (Fin 0.80)) (func_SH_Erbs_1d_080 (Fin 1.0)).
Proof. split; vm_compute; intros H; apply H; reflexivity. Qed.

(** ** The Perez model *)

Lemma searchsorted_right_le (bins : list float) (x : float) :
  (searchsorted_right bins x <= length bins)%nat.
Proof.
  induction bins as [|b bins IH]; simpl; [lia|].
  destruct (fle b x); lia.
Qed.

Lemma digitize_le (x : float) (bins : list float) :
  (digitize x bins <= length bins)%nat.
Proof.
  unfold digitize. destruct (isnan x); [lia|apply searchsorted_right_le].
Qed.

Lemma get_CM_length : length get_CM = (6 * 6 * 7 * 5)%nat.
Proof. vm_compute. reflexivity. Qed.

Lemma CM_getitem_ok (i j k l : nat) :
  (i <= 5)%nat -> (j <= 5)%nat -> (k <= 6)%nat -> (l <= 4)%nat ->
  exists c, CM_getitem i j k l = Ok c.
Proof.
  intros Hi Hj Hk Hl. unfold CM_getitem.
  assert (Hin : Nat.ltb i 6 && Nat.ltb j 6 && Nat.ltb k 7 && Nat.ltb l 5 = true).
  { rewrite !andb_true_iff, !Nat.ltb_lt. lia. }
  rewrite Hin.
  destruct (getitem_lt get_CM (((i * 6 + j) * 7 + k) * 5 + l)) as (c & Hc & _).
  - rewrite get_CM_length. lia.
  - eauto.
Qed.

Section PerezProperties.
Context {M : Libm}.

Lemma perez_bins_in_range (KT1 ZENITH : ndarray3) (TD : float) :
  ((perez_bins KT1 ZENITH TD).1.1.1 <= 5)%nat /\
  ((perez_bins KT1 ZENITH TD).1.1.2 <= 5)%nat /\
  ((perez_bins KT1 ZENITH TD).1.2 <= 6)%nat /\
  ((perez_bins KT1 ZENITH TD).2 <= 4)%nat.
Proof.
  unfold perez_bins. cbn [fst snd]. repeat split.
  - apply (digitize_le _ KTBIN).
  - apply (digitize_le _ ZBIN).
  - destruct (isnan (at0 KT1) && isnan (at2 KT1)); [lia|].
    etrans; [apply digitize_le|]. simpl. lia.
  - destruct (isnan TD); [lia|].
    etrans; [apply digitize_le|]. simpl. lia.
Qed.

Lemma get_DN_perez_core_ok (G_mj h_deg : ndarray3) (TD ALT IN0 : float) :
  exists dn, get_DN_perez_core G_mj h_deg TD ALT IN0 = Ok dn.
Proof.
  unfold get_DN_perez_core.
  destruct (_ || _); [eauto|].
  destruct (fle (at1 h_deg) _); [eauto|].
  destruct (flt _ _); [eauto|].
  destruct (if fle _ _ then _ else _) as [[A B] C].
  match goal with
  | |- context [perez_bins ?k ?z ?t] =>
      pose proof (perez_bins_in_range k z t) as (Hi & Hj & Hk & Hl);
      destruct (perez_bins k z t) as [[[i j] k'] l]
  end.
  cbn [fst snd] in *.
  destruct (CM_getitem_ok i j k' l Hi Hj Hk Hl) as [c Hc].
  rewrite Hc. cbn. eauto.
Qed.

(** C9: the four indices computed by [get_DN_perez_core] are within the
    shape (6,6,7,5) of the coefficient table: [I] and [J] are at most 5, [K]
    at most 6 (a digitize against five thresholds or the fallback 6), [L] at
    most 4 (a digitize against three thresholds or the fallback 4); the
    table has 6*6*7*5 entries, and no call of [get_DN_perez_core] raises. *)
Theorem perez_table_lookup_in_range :
  (forall KT1 ZENITH TD,
     ((perez_bins KT1 ZENITH TD).1.1.1 <= 5)%nat /\
     ((perez_bins KT1 ZENITH TD).1.1.2 <= 5)%nat /\
     ((perez_bins KT1 ZENITH TD).1.2 <= 6)%nat /\
     ((perez_bins KT1 ZENITH TD).2 <= 4)%nat) /\
  length get_CM = (6 * 6 * 7 * 5)%nat /\
  (forall G_mj h_deg TD ALT IN0,
     exists dn, get_DN_perez_core G_mj h_deg TD ALT IN0 = Ok dn).
Proof.
  split; [apply perez_bins_in_range|].
  split; [apply get_CM_length|apply get_DN_perez_core_ok].
Qed.

Lemma get_DN_perez_core_zero (G_mj h_deg : ndarray3) (TD ALT IN0 : float) :
  flt (MJ_to_W (at1 G_mj)) 1.0 = true \/ fle (at1 h_deg) 0.0 = true ->
  get_DN_perez_core G_mj h_deg TD ALT IN0 = Ok (Fin 0.0).
Proof.
  intros Hzero. unfold get_DN_perez_core. cbn [amap at1].
  destruct (flt (MJ_to_W (at1 G_mj)) 1.0 || isnan (MJ_to_W (at1 G_mj))) eqn:Hg; [done|].
  destruct Hzero as [Hlow|Hdown].
  - by rewrite Hlow in Hg.
  - by rewrite Hdown.
Qed.

End PerezProperties.

(** Steps through the [arr[i]] accesses of a loop body that is known to
    have returned. *)
Ltac step_getitem H :=
  repeat match type of H with
         | context [getitem ?arr ?j] =>
             let E := fresh "Hget" in
             destruct (getitem arr j) eqn:E;
             [apply getitem_Ok in E | discriminate H];
             cbn [mbind result_bind fst snd] in H
         end.

Section PerezBatch.
Context {M : Libm}.

Lemma get_DN_perez_row (TH h TD : list float) (ALT : float) (IN0 DN : list float)
    (i : nat) (th : float) :
  get_DN_perez TH h TD ALT IN0 = Ok DN ->
  TH !! i = Some th ->
  exists hi G H,
    h !! i = Some hi /\ at1 G = th /\ at1 H = hi /\
    if isnan th then DN !! i = Some NaN
    else exists td in0 dn,
           TD !! i = Some td /\ IN0 !! i = Some in0 /\
           get_DN_perez_core G H td ALT in0 = Ok dn /\ DN !! i = Some dn.
Proof.
  intros Hrun Hth. apply for_range_lookup in Hrun as [_ Hrows].
  destruct (Hrows i) as (x & Hbody & Hx); [by eapply lookup_lt_Some|].
  clear Hrows. unfold mbind in Hbody.
  destruct (Nat.eqb i 0); [|destruct (Nat.eqb i (length TH - 1))];
    cbn [mbind result_bind fst snd] in Hbody; step_getitem Hbody;
    match goal with
    | Hg : TH !! i = Some ?v |- _ =>
        tryif constr_eq v th then fail
        else (assert (v = th) by congruence; subst v; clear Hg)
    end;
    (eexists _, (mk3 _ th _), (mk3 _ _ _); split; [eassumption|];
     split; [reflexivity|]; split; [reflexivity|];
     destruct (isnan th);
     [by inversion Hbody; subst
     |step_getitem Hbody; eexists _, _, _;
      split; [eassumption|]; split; [eassumption|]; split; [exact Hbody|exact Hx]]).
Qed.

(** C6: [get_DN_perez_core] returns 0 when the current hour's global
    irradiance, in W/m2, is below 1, and returns 0 when the current hour's
    solar altitude is at most 0 degrees, whatever the irradiance values in
    the window; and so does the batch [get_DN_perez] for every hour whose
    [TH] is present. *)
Theorem perez_zero_rules :
  (forall G_mj h_deg TD ALT IN0,
     flt (MJ_to_W (at1 G_mj)) 1.0 = true \/ fle (at1 h_deg) 0.0 = true ->
     get_DN_perez_core G_mj h_deg TD ALT IN0 = Ok (Fin 0.0)) /\
  (forall TH h TD ALT IN0 DN i th hi,
     get_DN_perez TH h TD ALT IN0 = Ok DN ->
     TH !! i = Some th -> h !! i = Some hi -> isnan th = false ->
     flt (MJ_to_W th) 1.0 = true \/ fle hi 0.0 = true ->
     DN !! i = Some (Fin 0.0)).
Proof.
  split; [apply get_DN_perez_core_zero|].
  intros TH h TD ALT IN0 DN i th hi Hrun Hth Hh Hpresent Hzero.
  destruct (get_DN_perez_row _ _ _ _ _ _ _ _ Hrun Hth)
    as (hi' & G & H & Hh' & HG & HH & Hrow).
  assert (Heq : hi' = hi) by congruence. rewrite Heq in HH.
  rewrite Hpresent in Hrow. destruct Hrow as (td & in0 & dn & _ & _ & Hcore & Hdn).
  rewrite get_DN_perez_core_zero in Hcore by (by rewrite HG, HH).
  by inversion Hcore; subst.
Qed.

(** C10: with the four input series of one length, [get_DN_perez] returns
    one value per row when there are at least two rows (every neighbour
    access [TH[i+1]], [h[i+1]], [TH[i-1]], [h[i-1]] is in range), and raises
    [IndexError] on a single row, whose first-row branch reads index 1. *)
Theorem get_DN_perez_needs_two_rows (TH h TD : list float) (ALT : float)
    (IN0 : list float) :
  length h = length TH -> length TD = length TH -> length IN0 = length TH ->
  ((2 <= length TH)%nat ->
     exists DN, get_DN_perez TH h TD ALT IN0 = Ok DN /\ length DN = length TH) /\
  (length TH = 1%nat -> get_DN_perez TH h TD ALT IN0 = Raise IndexError).
Proof.
  intros Hh HTD HIN0. split.
  - intros Hlen.
    assert (Hok : exists DN, get_DN_perez TH h TD ALT IN0 = Ok DN).
    { apply for_range_ok. intros i Hi.
      assert (Hgo : forall arr j, (j < length arr)%nat ->
                      exists x, getitem arr j = Ok x)
        by (intros arr j Hj; destruct (getitem_lt arr j Hj) as (x & ? & _); eauto).
      destruct (Nat.eqb_spec i 0) as [->|Hi0]; [|destruct (Nat.eqb_spec i (length TH - 1))].
      all: repeat match goal with
             | |- context [getitem ?arr ?j] =>
                 let x := fresh "x" in let E := fresh "E" in
                 destruct (Hgo arr j) as [x E]; [lia|];
                 rewrite E; cbn [mbind result_bind fst snd]
             | |- context [if isnan ?v then _ else _] => destruct (isnan v); [eauto|]
             end; apply get_DN_perez_core_ok. }
    destruct Hok as [DN HDN]. exists DN. split; [done|].
    by apply for_range_lookup in HDN as [? _].
  - intros Hone. apply for_range_raise; [lia|].
    destruct TH as [|th [|? ?]]; try discriminate.
    destruct h as [|hi [|? ?]]; try discriminate.
    reflexivity.
Qed.

End PerezBatch.

(** A dark hour between a missing and a bright neighbour, and a two-hour
    series whose first hour has the sun 3 degrees below the horizon. *)
Lemma perez_zero_rules_witness :
  @get_DN_perez_core libm_exact (mk3 NaN (Fin 0.0) (Fin 2.0))
    (mk3 NaN (Fin 30) (Fin 40)) (Fin 5) (Fin 100) (Fin 4.921) = Ok (Fin 0.0) /\
  @get_DN_perez libm_exact [Fin 2.0; Fin 0.0] [Fin (-3); Fin 10] [Fin 5; Fin 5]
    (Fin 100) [Fin 4.921; Fin 4.921] = Ok [Fin 0.0; Fin 0.0] /\
  [Fin 0.0; Fin 0.0] !! 0%nat = Some (Fin 0.0).
Proof.
  pose proof (@perez_zero_rules libm_exact) as [Hcore Hbatch].
  split; [apply Hcore; left; reflexivity|].
  assert (Hrun : @get_DN_perez libm_exact [Fin 2.0; Fin 0.0] [Fin (-3); Fin 10]
                   [Fin 5; Fin 5] (Fin 100) [Fin 4.921; Fin 4.921]
                 = Ok [Fin 0.0; Fin 0.0]) by (vm_compute; reflexivity).
  split; [exact Hrun|].
  apply (Hbatch _ _ _ _ _ _ 0%nat (Fin 2.0) (Fin (-3)) Hrun);
    [reflexivity|reflexivity|reflexivity|right; reflexivity].
Defined.

(** Two dark hours, and the first of them alone. *)
Lemma get_DN_perez_needs_two_rows_witness :
  (exists DN, @get_DN_perez libm_exact [Fin 0.0; Fin 0.0] [Fin 10; Fin 20]
                [Fin 5; Fin 5] (Fin 100) [Fin 4.921; Fin 4.921] = Ok DN /\
              length DN = 2%nat) /\
  @get_DN_perez libm_exact [Fin 0.0] [Fin 10] [Fin 5] (Fin 100) [Fin 4.921]
    = Raise IndexError.
Proof.
  split.
  - apply (@get_DN_perez_needs_two_rows libm_exact [Fin 0.0; Fin 0.0] [Fin 10; Fin 20]
             [Fin 5; Fin 5] (Fin 100) [Fin 4.921; Fin 4.921]);
      [reflexivity|reflexivity|reflexivity|simpl; lia].
  - apply (@get_DN_perez_needs_two_rows libm_exact [Fin 0.0] [Fin 10] [Fin 5]
             (Fin 100) [Fin 4.921]); reflexivity.
Defined.

(** ** The entry point: one target column at a time *)

Ltac names_differ :=
  let H := fresh in intros H; cbn in H; discriminate H.

Lemma floor_column_lookup (k : string) (cols : gmap string (list float)) :
  floor_column k cols !! k = map floor_at_zero <$> cols !! k.
Proof. unfold floor_column. apply lookup_alter_eq. Qed.

Lemma floor_column_lookup_ne (k j : string) (cols : gmap string (list float)) :
  k ≠ j -> floor_column k cols !! j = cols !! j.
Proof. unfold floor_column. apply lookup_alter_ne. Qed.

Lemma column_Ok (cols : gmap string (list float)) (k : string) (c : list float) :
  column cols k = Ok c <-> cols !! k = Some c.
Proof.
  unfold column. destruct (cols !! k); split; intros H; by inversion H.
Qed.

Section Targets.
Context {M : Libm}.

Lemma derive_complement_spec (targ : string) (cols cols' : gmap string (list float)) :
  derive_complement targ cols = Ok cols' ->
  (forall k, k ≠ "DN_" +:+ targ -> k ≠ "SH_" +:+ targ -> cols' !! k = cols !! k) /\
  match cols !! ("SH_" +:+ targ) with
  | Some SH =>
      exists TH Sinh,
        cols !! ("DSWRF_" +:+ targ) = Some TH /\ cols !! "Sinh" = Some Sinh /\
        cols' !! ("SH_" +:+ targ) = Some SH /\
        cols' !! ("DN_" +:+ targ) = Some (map floor_at_zero (map3 func_DN TH SH Sinh))
  | None =>
      match cols !! ("DN_" +:+ targ) with
      | Some DN =>
          exists TH Sinh,
            cols !! ("DSWRF_" +:+ targ) = Some TH /\ cols !! "Sinh" = Some Sinh /\
            cols' !! ("DN_" +:+ targ) = Some DN /\
            cols' !! ("SH_" +:+ targ) = Some (map floor_at_zero (map3 func_SH TH DN Sinh))
      | None => cols' = cols
      end
  end.
Proof.
  unfold derive_complement. intros Hrun.
  assert (Hne : "DN_" +:+ targ ≠ "SH_" +:+ targ) by names_differ.
  destruct (decide (is_Some (cols !! ("SH_" +:+ targ)))) as [[SH HSH]|HnoSH].
  - rewrite HSH. unfold mbind, result_bind in Hrun.
    destruct (column cols ("DSWRF_" +:+ targ)) as [TH|] eqn:HTH; [|discriminate].
    destruct (column cols ("SH_" +:+ targ)) as [SH'|] eqn:HSH'; [|discriminate].
    destruct (column cols "Sinh") as [Sinh|] eqn:HSinh; [|discriminate].
    apply column_Ok in HTH, HSH', HSinh.
    assert (SH' = SH) by congruence. subst SH'.
    inversion Hrun; subst cols'; clear Hrun. split.
    + intros k Hk1 Hk2. rewrite floor_column_lookup_ne by done.
      by rewrite lookup_insert_ne.
    + exists TH, Sinh. repeat split; try done.
      * rewrite floor_column_lookup_ne by done. by rewrite lookup_insert_ne.
      * by rewrite floor_column_lookup, lookup_insert_eq.
  - assert (HSH : cols !! ("SH_" +:+ targ) = None).
    { destruct (cols !! ("SH_" +:+ targ)) eqn:E; [|done]. destruct HnoSH; eauto. }
    rewrite HSH.
    destruct (decide (is_Some (cols !! ("DN_" +:+ targ)))) as [[DN HDN]|HnoDN].
    + rewrite HDN. unfold mbind, result_bind in Hrun.
      destruct (column cols ("DSWRF_" +:+ targ)) as [TH|] eqn:HTH; [|discriminate].
      destruct (column cols ("DN_" +:+ targ)) as [DN'|] eqn:HDN'; [|discriminate].
      destruct (column cols "Sinh") as [Sinh|] eqn:HSinh; [|discriminate].
      apply column_Ok in HTH, HDN', HSinh.
      assert (DN' = DN) by congruence. subst DN'.
      inversion Hrun; subst cols'; clear Hrun. split.
      * intros k Hk1 Hk2. rewrite floor_column_lookup_ne by done.
        by rewrite lookup_insert_ne.
      * exists TH, Sinh. repeat split; try done.
        -- rewrite floor_column_lookup_ne by done. by rewrite lookup_insert_ne.
        -- by rewrite floor_column_lookup, lookup_insert_eq.
    + assert (HDN : cols !! ("DN_" +:+ targ) = None).
      { destruct (cols !! ("DN_" +:+ targ)) eqn:E; [|done]. destruct HnoDN; eauto. }
      rewrite HDN. by inversion Hrun.
Qed.

Lemma dispatch_model_spec (ele_target : float) (mode_separation targ : string)
    (TH : list float) (cols cols' : gmap string (list float)) :
  dispatch_model ele_target mode_separation targ TH cols = Ok cols' ->
  match model_of_name mode_separation with
  | Some Nagata =>
      exists Sinh IN0 SH,
        cols !! "Sinh" = Some Sinh /\ cols !! "IN0" = Some IN0 /\
        get_SH TH Sinh IN0 func_SH_Nagata = Ok SH /\
        cols' = <["SH_" +:+ targ := SH]> cols
  | Some Watanabe =>
      exists Sinh IN0 SH,
        cols !! "Sinh" = Some Sinh /\ cols !! "IN0" = Some IN0 /\
        get_SH TH Sinh IN0 func_SH_Watanabe = Ok SH /\
        cols' = <["SH_" +:+ targ := SH]> cols
  | Some Erbs =>
      exists Sinh IN0 SH,
        cols !! "Sinh" = Some Sinh /\ cols !! "IN0" = Some IN0 /\
        get_SH_Erbs TH IN0 Sinh = Ok SH /\
        cols' = <["SH_" +:+ targ := SH]> cols
  | Some Udagawa =>
      exists Sinh IN0 DN,
        cols !! "Sinh" = Some Sinh /\ cols !! "IN0" = Some IN0 /\
        get_DN_Udagawa TH IN0 Sinh = Ok DN /\
        cols' = <["DN_" +:+ targ := DN]> cols
  | Some Perez =>
      exists h DT IN0 DN,
        cols !! "h" = Some h /\ cols !! "DT" = Some DT /\ cols !! "IN0" = Some IN0 /\
        get_DN_perez TH h DT ele_target IN0 = Ok DN /\
        cols' = <["DN_" +:+ targ := DN]> cols
  | None => cols' = cols
  end.
Proof.
  unfold dispatch_model, model_of_name. intros Hrun.
  destruct (String.eqb mode_separation "Nagata");
    [|destruct (String.eqb mode_separation "Watanabe");
      [|destruct (String.eqb mode_separation "Erbs");
        [|destruct (String.eqb mode_separation "Udagawa");
          [|destruct (String.eqb mode_separation "Perez")]]]];
    cbn [orb] in Hrun; unfold mbind, result_bind in Hrun;
    repeat match type of Hrun with
           | context [column cols ?k] =>
               let E := fresh "Hcol" in
               destruct (column cols k) eqn:E; [apply column_Ok in E|discriminate Hrun]
           end;
    repeat match type of Hrun with
           | match ?run with Ok _ => _ | Raise _ => _ end = _ =>
               let E := fresh "Hrows" in
               destruct run eqn:E; [|discriminate Hrun]
           end;
    inversion Hrun; subst; eauto 10.
Qed.

End Targets.

Section EntryPoint.
Context {M : Libm} {E : Ephemeris}.

Lemma dispatch_model_frame (ele_target : float) (mode_separation targ : string)
    (TH : list float) (cols cols' : gmap string (list float)) (k : string) :
  dispatch_model ele_target mode_separation targ TH cols = Ok cols' ->
  k ≠ "DN_" +:+ targ -> k ≠ "SH_" +:+ targ -> cols' !! k = cols !! k.
Proof.
  intros Hrun Hk1 Hk2. apply dispatch_model_spec in Hrun.
  destruct (model_of_name mode_separation) as [[]|].
  1-4: destruct Hrun as (? & ? & ? & _ & _ & _ & ->); by rewrite lookup_insert_ne.
  - destruct Hrun as (? & ? & ? & ? & _ & _ & _ & _ & ->); by rewrite lookup_insert_ne.
  - by subst.
Qed.

Lemma separate_target_frame (ele_target : float) (mode_separation targ : string)
    (cols cols' : gmap string (list float)) (k : string) :
  separate_target ele_target mode_separation targ cols = Ok cols' ->
  k ≠ "DN_" +:+ targ -> k ≠ "SH_" +:+ targ -> cols' !! k = cols !! k.
Proof.
  unfold separate_target. intros Hrun Hk1 Hk2.
  destruct (cols !! ("DSWRF_" +:+ targ)) as [TH|]; [|by inversion Hrun].
  unfold mbind, result_bind in Hrun.
  destruct (dispatch_model _ _ _ _ _) as [cols1|] eqn:Hd; [|discriminate].
  apply derive_complement_spec in Hrun as [Hframe _].
  rewrite Hframe by done. by eapply dispatch_model_frame.
Qed.

(** The two targets are processed independently: for either of them, the
    frame handed to its model agrees with the input frame and the sun
    position on every column the model reads, and the columns it writes
    reach the result unchanged. *)
Lemma get_separate_target (df df' : DataFrame) (lat lon ele_target : float)
    (mode_separation targ : string) (TH : list float) :
  get_separate df lat lon ele_target mode_separation = Ok df' ->
  targ = "est" \/ targ = "msm" ->
  columns df !! ("DSWRF_" +:+ targ) = Some TH ->
  exists cols_a cols_b cols_c,
    cols_a !! "Sinh" = Some (sun_Sinh (get_sun_position lat lon (index df))) /\
    cols_a !! "IN0" = Some (sun_IN0 (get_sun_position lat lon (index df))) /\
    cols_a !! "h" = Some (sun_h (get_sun_position lat lon (index df))) /\
    cols_a !! "DT" = columns df !! "DT" /\
    cols_a !! ("DSWRF_" +:+ targ) = Some TH /\
    cols_a !! ("SH_" +:+ targ) = columns df !! ("SH_" +:+ targ) /\
    cols_a !! ("DN_" +:+ targ) = columns df !! ("DN_" +:+ targ) /\
    dispatch_model ele_target mode_separation targ TH cols_a = Ok cols_b /\
    derive_complement targ cols_b = Ok cols_c /\
    columns df' !! ("SH_" +:+ targ) = cols_c !! ("SH_" +:+ targ) /\
    columns df' !! ("DN_" +:+ targ) = cols_c !! ("DN_" +:+ targ).
Proof.
  unfold get_separate. cbn [for_targets]. unfold mbind, result_bind.
  set (sun := get_sun_position lat lon (index df)).
  set (cols0 := <["A":=sun_A sun]> (<["Sinh":=sun_Sinh sun]>
                  (<["h":=sun_h sun]> (<["IN0":=sun_IN0 sun]> (columns df))))).
  destruct (separate_target _ _ "est" cols0) as [cols1|] eqn:Hest; [|discriminate].
  destruct (separate_target _ _ "msm" cols1) as [cols2|] eqn:Hmsm; [|discriminate].
  intros [= <-] Htarg HTH. cbn [columns].
  assert (H0 : forall k, k ≠ "A" -> k ≠ "Sinh" -> k ≠ "h" -> k ≠ "IN0" ->
                 cols0 !! k = columns df !! k).
  { intros k ? ? ? ?. unfold cols0. by rewrite !lookup_insert_ne. }
  assert (HS : cols0 !! "Sinh" = Some (sun_Sinh sun)).
  { unfold cols0. rewrite lookup_insert_ne by names_differ. apply lookup_insert_eq. }
  assert (HI : cols0 !! "IN0" = Some (sun_IN0 sun)).
  { unfold cols0. rewrite !lookup_insert_ne by names_differ. apply lookup_insert_eq. }
  assert (Hh : cols0 !! "h" = Some (sun_h sun)).
  { unfold cols0. do 2 rewrite lookup_insert_ne by names_differ. apply lookup_insert_eq. }
  assert (HDT : cols0 !! "DT" = columns df !! "DT") by (by apply H0).
  destruct Htarg as [-> | ->].
  - pose proof Hest as Hest'. unfold separate_target in Hest'.
    rewrite H0, HTH in Hest' by names_differ.
    unfold mbind, result_bind in Hest'.
    destruct (dispatch_model _ _ _ _ _) as [cols_b|] eqn:Hd; [|discriminate].
    exists cols0, cols_b, cols1.
    repeat split; try done.
    + rewrite H0 by names_differ. done.
    + apply H0; names_differ.
    + apply H0; names_differ.
    + rewrite !lookup_delete_ne by names_differ.
      apply (separate_target_frame _ _ _ _ _ _ Hmsm); names_differ.
    + rewrite !lookup_delete_ne by names_differ.
      apply (separate_target_frame _ _ _ _ _ _ Hmsm); names_differ.
  - assert (H1 : forall k, k ≠ "DN_est" -> k ≠ "SH_est" -> cols1 !! k = cols0 !! k)
      by (intros k ? ?; by apply (separate_target_frame _ _ _ _ _ _ Hest)).
    pose proof Hmsm as Hmsm'. unfold separate_target in Hmsm'.
    rewrite H1, H0, HTH in Hmsm' by names_differ.
    unfold mbind, result_bind in Hmsm'.
    destruct (dispatch_model _ _ _ _ _) as [cols_b|] eqn:Hd; [|discriminate].
    exists cols1, cols_b, cols2.
    repeat split; try done.
    + rewrite H1 by names_differ. done.
    + rewrite H1 by names_differ. done.
    + rewrite H1 by names_differ. done.
    + rewrite H1 by names_differ. done.
    + rewrite H1, H0 by names_differ. done.
    + rewrite H1 by names_differ. apply H0; names_differ.
    + rewrite H1 by names_differ. apply H0; names_differ.
    + by rewrite !lookup_delete_ne by names_differ.
    + by rewrite !lookup_delete_ne by names_differ.
Qed.

End EntryPoint.

(** ** The energy balance [TH = DN * Sinh + SH] *)

Lemma floor_func_DN_balance (th sh s dn : Q) :
  0 < s ->
  floor_at_zero (func_DN (Fin th) (Fin sh) (Fin s)) = Fin dn ->
  th <= dn * s + sh /\ (0 < dn -> th == dn * s + sh).
Proof.
  intros Hs. unfold func_DN, floor_at_zero. cbn [fsub fdiv lift2].
  destruct (Qeq_bool s 0) eqn:Hz; [apply Qeq_bool_iff in Hz; lra|].
  assert (Hdiv : Qred (Qred (th - sh) / s) * s == th - sh)
    by (rewrite !Qred_correct; field; lra).
  set (d := Qred (Qred (th - sh) / s)) in *.
  destruct (fle (Fin d) 0.0) eqn:Hfloor; intros [= <-].
  - apply fle_Fin in Hfloor. split; [nra|]. intros Hpos. lra.
  - apply fle_Fin_false in Hfloor. split; [lra|]. intros _. lra.
Qed.

Lemma floor_func_SH_balance (th dn s sh : Q) :
  floor_at_zero (func_SH (Fin th) (Fin dn) (Fin s)) = Fin sh ->
  th <= dn * s + sh /\ (0 < sh -> th == dn * s + sh).
Proof.
  unfold func_SH, floor_at_zero. cbn [fsub fmul lift2].
  assert (Hsub : Qred (th - Qred (dn * s)) == th - dn * s)
    by (rewrite !Qred_correct; reflexivity).
  set (d := Qred (th - Qred (dn * s))) in *.
  destruct (fle (Fin d) 0.0) eqn:Hfloor; intros [= <-].
  - apply fle_Fin in Hfloor. split; [lra|]. intros Hpos. lra.
  - split; [lra|]. intros _. lra.
Qed.

Section EnergyBalance.
Context {M : Libm} {E : Ephemeris}.

(** C1 (as amended): for every model and either target, on a row with
    [Sinh > 0] where [TH], [DN] and [SH] are present, [TH <= DN*Sinh + SH];
    the identity [TH = DN*Sinh + SH] holds exactly (in exact arithmetic)
    whenever the derived quantity was not floored: [DN > 0] for the models
    that estimate [SH] (Nagata, Watanabe, Erbs), [SH > 0] for the models that
    estimate [DN] (Udagawa, Perez; the input frame carrying no ["SH_"]
    column of its own). *)
Theorem energy_balance_unless_floored (df df' : DataFrame) (lat lon ele_target : float)
    (mode_separation targ : string) (m : model) (TH DN SH : list float)
    (i : nat) (th s dn sh : Q) :
  get_separate df lat lon ele_target mode_separation = Ok df' ->
  model_of_name mode_separation = Some m ->
  targ = "est" \/ targ = "msm" ->
  columns df !! ("DSWRF_" +:+ targ) = Some TH ->
  columns df' !! ("DN_" +:+ targ) = Some DN ->
  columns df' !! ("SH_" +:+ targ) = Some SH ->
  TH !! i = Some (Fin th) ->
  sun_Sinh (get_sun_position lat lon (index df)) !! i = Some (Fin s) ->
  0 < s ->
  DN !! i = Some (Fin dn) ->
  SH !! i = Some (Fin sh) ->
  th <= dn * s + sh /\
  (estimates_SH m = true -> 0 < dn -> th == dn * s + sh) /\
  (estimates_SH m = false -> columns df !! ("SH_" +:+ targ) = None ->
   0 < sh -> th == dn * s + sh).
Proof.
  intros Hrun Hm Htarg HTH HDN HSH Hth Hs Hpos Hdn Hsh.
  destruct (get_separate_target _ _ _ _ _ _ _ _ Hrun Htarg HTH)
    as (cols_a & cols_b & cols_c & HaS & _ & _ & _ & HaTH & HaSH & _ &
        Hdisp & Hder & HfSH & HfDN).
  assert (HbTH : cols_b !! ("DSWRF_" +:+ targ) = Some TH)
    by (rewrite (dispatch_model_frame _ _ _ _ _ _ _ Hdisp) by names_differ; done).
  assert (HbS : cols_b !! "Sinh" = Some (sun_Sinh (get_sun_position lat lon (index df))))
    by (rewrite (dispatch_model_frame _ _ _ _ _ _ _ Hdisp) by names_differ; done).
  apply dispatch_model_spec in Hdisp. rewrite Hm in Hdisp.
  apply derive_complement_spec in Hder as [_ Hder].
  rewrite HDN in HfDN. rewrite HSH in HfSH.
  destruct (cols_b !! ("SH_" +:+ targ)) as [SHb|] eqn:HbSH.
  - destruct Hder as (TH' & Sinh' & HTH' & HSinh' & HcSH & HcDN).
    assert (TH' = TH) by congruence.
    assert (Sinh' = sun_Sinh (get_sun_position lat lon (index df))) by congruence.
    assert (SHb = SH) by congruence. subst TH' Sinh' SHb.
    rewrite HcDN in HfDN. inversion HfDN as [HDNeq]. rewrite HDNeq in Hdn.
    rewrite list_lookup_fmap, (map3_lookup _ _ _ _ _ _ _ _ Hth Hsh Hs) in Hdn.
    inversion Hdn as [Hfloor].
    destruct (floor_func_DN_balance _ _ _ _ Hpos Hfloor) as [Hle Heq].
    split; [exact Hle|]. split; [intros _; exact Heq|].
    intros HmDN Hfresh. exfalso.
    destruct m; try discriminate HmDN.
    + destruct Hdisp as (? & ? & ? & _ & _ & _ & ->).
      rewrite lookup_insert_ne in HbSH by names_differ. congruence.
    + destruct Hdisp as (? & ? & ? & ? & _ & _ & _ & _ & ->).
      rewrite lookup_insert_ne in HbSH by names_differ. congruence.
  - destruct (cols_b !! ("DN_" +:+ targ)) as [DNb|] eqn:HbDN.
    + destruct Hder as (TH' & Sinh' & HTH' & HSinh' & HcDN & HcSH).
      assert (TH' = TH) by congruence.
      assert (Sinh' = sun_Sinh (get_sun_position lat lon (index df))) by congruence.
      assert (DNb = DN) by congruence. subst TH' Sinh' DNb.
      rewrite HcSH in HfSH. inversion HfSH as [HSHeq]. rewrite HSHeq in Hsh.
      rewrite list_lookup_fmap, (map3_lookup _ _ _ _ _ _ _ _ Hth Hdn Hs) in Hsh.
      inversion Hsh as [Hfloor].
      destruct (floor_func_SH_balance _ _ _ _ Hfloor) as [Hle Heq].
      split; [exact Hle|]. split; [|intros _ _; exact Heq].
      intros HmSH. exfalso.
      destruct m; try discriminate HmSH;
        destruct Hdisp as (? & ? & ? & _ & _ & _ & ->);
        by rewrite lookup_insert_eq in HbSH.
    + subst cols_c. congruence.
Qed.

End EnergyBalance.

(** A clear hour with a low sun under the Udagawa model: [KT = 0.5] gives
    [SH > 0] and the identity holds. *)
Lemma energy_balance_unless_floored_witness :
  exists df' DN SH dn sh,
    @get_separate libm_exact sun_low (frame_of [Fin 0.73815])
      (Fin 35) (Fin 139) (Fin 10) "Udagawa" = Ok df' /\
    columns df' !! "DN_est" = Some DN /\ columns df' !! "SH_est" = Some SH /\
    DN !! 0%nat = Some (Fin dn) /\ SH !! 0%nat = Some (Fin sh) /\
    0 < sh /\ 0.73815 == dn * 0.3 + sh.
Proof.
  eexists _, _, _, _, _.
  split; [vm_compute; reflexivity|].
  split; [vm_compute; reflexivity|].
  split; [vm_compute; reflexivity|].
  split; [reflexivity|]. split; [reflexivity|].
  split; [reflexivity|].
  eapply (@energy_balance_unless_floored libm_exact sun_low (frame_of [Fin 0.73815])
            _ (Fin 35) (Fin 139) (Fin 10) "Udagawa" "est" Udagawa
            [Fin 0.73815] _ _ 0%nat 0.73815 0.3).
  - vm_compute; reflexivity.
  - reflexivity.
  - by left.
  - reflexivity.
  - vm_compute; reflexivity.
  - vm_compute; reflexivity.
  - reflexivity.
  - reflexivity.
  - reflexivity.
  - reflexivity.
  - reflexivity.
  - reflexivity.
  - reflexivity.
  - reflexivity.
Defined.

(** C1 (as claimed) fails on a floored row.  Udagawa model, [Sinh = 0.3],
    [IN0 = 4.921], [TH = 1.107225] ([KT = 0.75], below the cutoff
    [KC = 0.9108]): the cubic gives [DN = 3.98843], so [DN*Sinh = 1.19653]
    exceeds [TH], [SH] is floored from -0.0893 to 0, and [DN*Sinh + SH]
    misses [TH] by 0.0893. *)
Lemma energy_balance_floored_counterexample :
  exists df' dn,
    @get_separate libm_exact sun_low (frame_of [Fin 1.107225])
      (Fin 35) (Fin 139) (Fin 10) "Udagawa" = Ok df' /\
    columns df' !! "DN_est" = Some [Fin dn] /\
    columns df' !! "SH_est" = Some [Fin 0.0] /\
    ~ agree_within 1e-4 (Fin 1.107225) (fadd (fmul (Fin dn) (Fin 0.3)) (Fin 0.0)).
Proof.
  eexists _, _.
  split; [vm_compute; reflexivity|].
  split; [vm_compute; reflexivity|].
  split; [vm_compute; reflexivity|].
  vm_compute. intros H. apply H. reflexivity.
Qed.

(** ** Missing irradiance *)

Lemma get_SH_Erbs_missing (TH IN0 Sinh SH : list float) (i : nat) :
  get_SH_Erbs TH IN0 Sinh = Ok SH -> TH !! i = Some NaN -> SH !! i = Some NaN.
Proof.
  intros Hrun Hth. apply for_range_lookup in Hrun as [_ Hrows].
  destruct (Hrows i) as (x & Hbody & Hx); [by eapply lookup_lt_Some|].
  rewrite (getitem_Some _ _ _ Hth) in Hbody. cbn in Hbody.
  by inversion Hbody; subst.
Qed.

Lemma get_DN_Udagawa_missing (TH IN0 Sinh DN : list float) (i : nat) :
  get_DN_Udagawa TH IN0 Sinh = Ok DN -> TH !! i = Some NaN -> DN !! i = Some NaN.
Proof.
  intros Hrun Hth. apply for_range_lookup in Hrun as [_ Hrows].
  destruct (Hrows i) as (x & Hbody & Hx); [by eapply lookup_lt_Some|].
  rewrite (getitem_Some _ _ _ Hth) in Hbody. cbn in Hbody.
  by inversion Hbody; subst.
Qed.

Section Missing.
Context {M : Libm} {E : Ephemeris}.

Lemma get_SH_missing (method_SH : float -> float -> float -> float)
    (TH Sinh IN0 SH : list float) (i : nat) (s : float) :
  get_SH TH Sinh IN0 method_SH = Ok SH ->
  TH !! i = Some NaN -> Sinh !! i = Some s ->
  SH !! i = Some (if fle s 0.0 then Fin 0.0 else NaN).
Proof.
  intros Hrun Hth Hs.
  destruct (get_SH_row _ _ _ _ _ _ _ Hrun Hth) as (s' & Hs' & Hrow).
  assert (s' = s) by congruence. subst s'.
  by destruct (fle s 0.0).
Qed.

Lemma get_DN_perez_missing (TH h TD : list float) (ALT : float) (IN0 DN : list float)
    (i : nat) :
  get_DN_perez TH h TD ALT IN0 = Ok DN -> TH !! i = Some NaN -> DN !! i = Some NaN.
Proof.
  intros Hrun Hth.
  by destruct (get_DN_perez_row _ _ _ _ _ _ _ _ Hrun Hth) as (? & ? & ? & _ & _ & _ & ?).
Qed.

(** C2 (as amended): for every model and either target, on a row whose [TH]
    is the missing-value marker, [DN] is the marker; [SH] is the marker for
    Erbs, Udagawa and Perez, and for Nagata and Watanabe when the sun is up,
    while for Nagata and Watanabe with [Sinh <= 0] the test on [Sinh] comes
    first and [SH] is 0.  (For Udagawa and Perez the input frame carries no
    ["SH_"] column of its own.) *)
Theorem missing_TH_propagates (df df' : DataFrame) (lat lon ele_target : float)
    (mode_separation targ : string) (m : model) (TH : list float)
    (i : nat) (s : float) :
  get_separate df lat lon ele_target mode_separation = Ok df' ->
  model_of_name mode_separation = Some m ->
  targ = "est" \/ targ = "msm" ->
  columns df !! ("DSWRF_" +:+ targ) = Some TH ->
  TH !! i = Some NaN ->
  sun_Sinh (get_sun_position lat lon (index df)) !! i = Some s ->
  (estimates_SH m = false -> columns df !! ("SH_" +:+ targ) = None) ->
  exists DN SH,
    columns df' !! ("DN_" +:+ targ) = Some DN /\
    columns df' !! ("SH_" +:+ targ) = Some SH /\
    DN !! i = Some NaN /\
    SH !! i = Some (match m with
                    | Nagata | Watanabe => if fle s 0.0 then Fin 0.0 else NaN
                    | Erbs | Udagawa | Perez => NaN
                    end).
Proof.
  intros Hrun Hm Htarg HTH Hth Hs Hfresh.
  destruct (get_separate_target _ _ _ _ _ _ _ _ Hrun Htarg HTH)
    as (cols_a & cols_b & cols_c & HaS & HaI & Hah & _ & HaTH & HaSH & _ &
        Hdisp & Hder & HfSH & HfDN).
  assert (HbTH : cols_b !! ("DSWRF_" +:+ targ) = Some TH)
    by (rewrite (dispatch_model_frame _ _ _ _ _ _ _ Hdisp) by names_differ; done).
  assert (HbS : cols_b !! "Sinh" = Some (sun_Sinh (get_sun_position lat lon (index df))))
    by (rewrite (dispatch_model_frame _ _ _ _ _ _ _ Hdisp) by names_differ; done).
  apply dispatch_model_spec in Hdisp. rewrite Hm in Hdisp.
  apply derive_complement_spec in Hder as [_ Hder].
  rewrite HfDN, HfSH. clear HfDN HfSH.
  assert (HSHmodel : forall SHb x,
            cols_b !! ("SH_" +:+ targ) = Some SHb -> SHb !! i = Some x ->
            exists DN SH,
              cols_c !! ("DN_" +:+ targ) = Some DN /\
              cols_c !! ("SH_" +:+ targ) = Some SH /\
              DN !! i = Some NaN /\ SH !! i = Some x).
  { intros SHb x HbSH Hx. rewrite HbSH in Hder.
    destruct Hder as (TH' & Sinh' & HTH' & HSinh' & HcSH & HcDN).
    assert (TH' = TH) by congruence.
    assert (Sinh' = sun_Sinh (get_sun_position lat lon (index df))) by congruence.
    subst TH' Sinh'. eexists _, SHb. repeat split; try eassumption.
    by rewrite list_lookup_fmap, (map3_lookup _ _ _ _ _ _ _ _ Hth Hx Hs). }
  assert (HDNmodel : forall DNb,
            cols_b !! ("SH_" +:+ targ) = None ->
            cols_b !! ("DN_" +:+ targ) = Some DNb -> DNb !! i = Some NaN ->
            exists DN SH,
              cols_c !! ("DN_" +:+ targ) = Some DN /\
              cols_c !! ("SH_" +:+ targ) = Some SH /\
              DN !! i = Some NaN /\ SH !! i = Some NaN).
  { intros DNb HbSH HbDN Hx. rewrite HbSH, HbDN in Hder.
    destruct Hder as (TH' & Sinh' & HTH' & HSinh' & HcDN & HcSH).
    assert (TH' = TH) by congruence.
    assert (Sinh' = sun_Sinh (get_sun_position lat lon (index df))) by congruence.
    subst TH' Sinh'. eexists DNb, _. repeat split; try eassumption.
    by rewrite list_lookup_fmap, (map3_lookup _ _ _ _ _ _ _ _ Hth Hx Hs). }
  clear Hder. destruct m.
  - destruct Hdisp as (Sinh & IN0 & SH & HSinh & _ & Hest & ->).
    assert (Sinh = sun_Sinh (get_sun_position lat lon (index df))) by congruence.
    subst Sinh. eapply HSHmodel; [apply lookup_insert_eq|].
    by eapply get_SH_missing.
  - destruct Hdisp as (Sinh & IN0 & SH & HSinh & _ & Hest & ->).
    assert (Sinh = sun_Sinh (get_sun_position lat lon (index df))) by congruence.
    subst Sinh. eapply HSHmodel; [apply lookup_insert_eq|].
    by eapply get_SH_missing.
  - destruct Hdisp as (Sinh & IN0 & SH & _ & _ & Hest & ->).
    eapply HSHmodel; [apply lookup_insert_eq|].
    by eapply get_SH_Erbs_missing.
  - destruct Hdisp as (Sinh & IN0 & DN & _ & _ & Hest & ->).
    eapply HDNmodel; [|apply lookup_insert_eq|by eapply get_DN_Udagawa_missing].
    rewrite lookup_insert_ne by names_differ. rewrite HaSH. by apply Hfresh.
  - destruct Hdisp as (h & DT & IN0 & DN & _ & _ & _ & Hest & ->).
    eapply HDNmodel; [|apply lookup_insert_eq|by eapply get_DN_perez_missing].
    rewrite lookup_insert_ne by names_differ. rewrite HaSH. by apply Hfresh.
Qed.

End Missing.

(** One hour without irradiance, sun up, Erbs model. *)
Lemma missing_TH_propagates_witness :
  exists df' DN SH,
    @get_separate libm_exact sun_low (frame_of [NaN])
      (Fin 35) (Fin 139) (Fin 10) "Erbs" = Ok df' /\
    columns df' !! "DN_est" = Some DN /\ columns df' !! "SH_est" = Some SH /\
    DN !! 0%nat = Some NaN /\ SH !! 0%nat = Some NaN.
Proof.
  assert (Hrun : exists df',
            @get_separate libm_exact sun_low (frame_of [NaN])
              (Fin 35) (Fin 139) (Fin 10) "Erbs" = Ok df')
    by (eexists; vm_compute; reflexivity).
  destruct Hrun as [df' Hrun]. exists df'.
  destruct (@missing_TH_propagates libm_exact sun_low (frame_of [NaN]) df'
              (Fin 35) (Fin 139) (Fin 10) "Erbs" "est" Erbs [NaN] 0%nat (Fin 0.3))
    as (DN & SH & H); [exact Hrun|reflexivity|by left|reflexivity|reflexivity
                      |reflexivity|discriminate|].
  exists DN, SH. split; [exact Hrun|exact H].
Defined.

(** C2 (as claimed) fails for the bisection models at night: with the
    Nagata model, a missing [TH] and [Sinh = -0.5], [get_SH] tests
    [Sinh <= 0] before [isnan(TH)] and the row gets [SH = 0.0]. *)
Lemma missing_TH_night_counterexample :
  exists df',
    @get_separate libm_exact sun_down (frame_of [NaN])
      (Fin 35) (Fin 139) (Fin 10) "Nagata" = Ok df' /\
    columns (frame_of [NaN]) !! "DSWRF_est" = Some [NaN] /\
    columns df' !! "SH_est" = Some [Fin 0.0] /\
    columns df' !! "DN_est" = Some [NaN].
Proof.
  eexists. split; [vm_compute; reflexivity|].
  split; [reflexivity|]. split; vm_compute; reflexivity.
Qed.

(** ** Unrecognized model names *)

Lemma model_of_name_None (name : string) :
  name ∉ ["Nagata"; "Watanabe"; "Erbs"; "Udagawa"; "Perez"] <->
  model_of_name name = None.
Proof.
  unfold model_of_name. rewrite !not_elem_of_cons.
  destruct (String.eqb_spec name "Nagata"); [split; [tauto|discriminate]|].
  destruct (String.eqb_spec name "Watanabe"); [split; [tauto|discriminate]|].
  destruct (String.eqb_spec name "Erbs"); [split; [tauto|discriminate]|].
  destruct (String.eqb_spec name "Udagawa"); [split; [tauto|discriminate]|].
  destruct (String.eqb_spec name "Perez"); [split; [tauto|discriminate]|].
  split; [done|]. intros _. repeat split; try done. apply not_elem_of_nil.
Qed.

Section UnknownModel.
Context {M : Libm} {E : Ephemeris}.

Lemma separate_target_unknown (ele_target : float) (mode_separation targ : string)
    (cols : gmap string (list float)) :
  model_of_name mode_separation = None ->
  cols !! ("SH_" +:+ targ) = None -> cols !! ("DN_" +:+ targ) = None ->
  separate_target ele_target mode_separation targ cols = Ok cols.
Proof.
  intros Hm HSH HDN. unfold separate_target.
  destruct (cols !! ("DSWRF_" +:+ targ)) as [TH|]; [|done].
  assert (Hd : dispatch_model ele_target mode_separation targ TH cols = Ok cols).
  { unfold dispatch_model. unfold model_of_name in Hm.
    destruct (String.eqb mode_separation "Nagata"); [discriminate|].
    destruct (String.eqb mode_separation "Watanabe"); [discriminate|].
    destruct (String.eqb mode_separation "Erbs"); [discriminate|].
    destruct (String.eqb mode_separation "Udagawa"); [discriminate|].
    destruct (String.eqb mode_separation "Perez"); [discriminate|].
    reflexivity. }
  rewrite Hd. cbn. unfold derive_complement.
  rewrite HSH, HDN.
  destruct (decide (is_Some None)) as [[? ?]|]; [discriminate|done].
Qed.

(** C4 (as amended): for every [mode_separation] outside the five names,
    [get_separate] raises nothing: it computes the sun position, runs no
    model, and returns the input frame with the columns ["h"] and ["A"]
    added (["IN0"] and ["Sinh"] dropped); on an input frame without
    ["SH_"]/["DN_"] columns of its own the result has none either. *)
Theorem unknown_model_is_ignored (df : DataFrame) (lat lon ele_target : float)
    (mode_separation : string) :
  mode_separation ∉ ["Nagata"; "Watanabe"; "Erbs"; "Udagawa"; "Perez"] ->
  (forall targ, targ ∈ ["est"; "msm"] ->
     columns df !! ("SH_" +:+ targ) = None /\ columns df !! ("DN_" +:+ targ) = None) ->
  exists df',
    get_separate df lat lon ele_target mode_separation = Ok df' /\
    index df' = index df /\
    columns df' =
      <["A" := sun_A (get_sun_position lat lon (index df))]>
        (<["h" := sun_h (get_sun_position lat lon (index df))]>
           (delete "Sinh" (delete "IN0" (columns df)))) /\
    (forall targ, targ ∈ ["est"; "msm"] ->
       columns df' !! ("SH_" +:+ targ) = None /\ columns df' !! ("DN_" +:+ targ) = None).
Proof.
  intros Hname Hfresh. apply model_of_name_None in Hname.
  set (sun := get_sun_position lat lon (index df)).
  set (cols0 := <["A":=sun_A sun]> (<["Sinh":=sun_Sinh sun]>
                  (<["h":=sun_h sun]> (<["IN0":=sun_IN0 sun]> (columns df))))).
  assert (H0 : forall targ, targ ∈ ["est"; "msm"] ->
                 cols0 !! ("SH_" +:+ targ) = None /\ cols0 !! ("DN_" +:+ targ) = None).
  { intros targ Htarg. destruct (Hfresh targ Htarg) as [HSH HDN].
    unfold cols0. rewrite !lookup_insert_ne by names_differ. done. }
  assert (Hcols : delete "Sinh" (delete "IN0" cols0)
                  = <["A":=sun_A sun]> (<["h":=sun_h sun]>
                      (delete "Sinh" (delete "IN0" (columns df))))).
  { apply map_eq. intros k. unfold cols0.
    destruct (decide (k = "Sinh")) as [->|].
    { rewrite lookup_delete_eq, !lookup_insert_ne by names_differ.
      by rewrite lookup_delete_eq. }
    destruct (decide (k = "IN0")) as [->|].
    { rewrite lookup_delete_ne, lookup_delete_eq by names_differ.
      rewrite !lookup_insert_ne, lookup_delete_ne by names_differ.
      by rewrite lookup_delete_eq. }
    rewrite !lookup_delete_ne by done.
    destruct (decide (k = "A")) as [->|]; [by rewrite !lookup_insert_eq|].
    rewrite !(lookup_insert_ne _ "A") by done.
    rewrite (lookup_insert_ne _ "Sinh") by done.
    destruct (decide (k = "h")) as [->|]; [by rewrite !lookup_insert_eq|].
    rewrite !(lookup_insert_ne _ "h") by done.
    rewrite (lookup_insert_ne _ "IN0") by done.
    by rewrite !lookup_delete_ne. }
  exists (mkDataFrame (index df) (delete "Sinh" (delete "IN0" cols0))).
  split; [|split; [done|split; [exact Hcols|]]].
  - unfold get_separate. fold sun. fold cols0. cbn [for_targets].
    destruct (H0 "est") as [? ?]; [left|].
    destruct (H0 "msm") as [? ?]; [right; left|].
    rewrite separate_target_unknown by done. cbn.
    rewrite separate_target_unknown by done. done.
  - intros targ Htarg. destruct (H0 targ Htarg) as [HSH HDN]. cbn [columns].
    rewrite !lookup_delete_ne by names_differ. done.
Qed.

End UnknownModel.

(** A misspelt model name on a one-hour frame. *)
Lemma unknown_model_is_ignored_witness :
  exists df',
    @get_separate libm_exact sun_low (frame_of [Fin 1.0])
      (Fin 35) (Fin 139) (Fin 10) "nagata" = Ok df' /\
    columns df' !! "SH_est" = None /\ columns df' !! "DN_est" = None.
Proof.
  destruct (@unknown_model_is_ignored libm_exact sun_low (frame_of [Fin 1.0])
              (Fin 35) (Fin 139) (Fin 10) "nagata") as (df' & Hrun & _ & _ & Hnone).
  - apply model_of_name_None. reflexivity.
  - intros targ Htarg.
    apply elem_of_cons in Htarg as [->|Htarg]; [by split|].
    apply elem_of_cons in Htarg as [->|Htarg]; [by split|].
    by apply not_elem_of_nil in Htarg.
  - exists df'. split; [exact Hrun|]. apply Hnone. left.
Defined.

(** C4 (as claimed) fails: with the misspelt name ["nagata"] the call
    returns normally, and the frame it returns has the sun's altitude but
    neither a [DN] nor an [SH] column. *)
Lemma unknown_model_counterexample :
  exists df',
    @get_separate libm_exact sun_low (frame_of [Fin 1.0])
      (Fin 35) (Fin 139) (Fin 10) "nagata" = Ok df' /\
    columns df' !! "h" = Some [Fin 17.46] /\
    columns df' !! "SH_est" = None /\ columns df' !! "DN_est" = None.
Proof.
  eexists. split; [vm_compute; reflexivity|].
  split; [|split]; vm_compute; reflexivity.
Qed.

(** * Further properties of the code *)

(** ** The solver: what it returns *)

Lemma py_min_at_most (x : float) (th : Q) :
  py_min x (Fin th) = NaN \/ exists q, py_min x (Fin th) = Fin q /\ q <= th.
Proof.
  unfold py_min. destruct x as [|q]; [by left|]. right.
  destruct (flt (Fin th) (Fin q)) eqn:Hlt.
  - exists th. split; [done|lra].
  - exists q. split; [done|]. simpl in Hlt. apply negb_false_iff in Hlt.
    by apply Qle_bool_iff in Hlt.
Qed.

Section SolverRange.
Context {M : Libm}.
Variable method_SH : float -> float -> float -> float.

Lemma get_SH_core_step_at_most (th : Q) (Sinh IN0 a b r : float) :
  get_SH_core_step method_SH (Fin th) Sinh IN0 a b = Return r ->
  r = NaN \/ exists q, r = Fin q /\ q <= th.
Proof.
  unfold get_SH_core_step.
  repeat match goal with
         | |- context [if ?c then Return _ else _] => destruct c
         end;
    try (intros [= <-]; first [by left | apply py_min_at_most]).
  by destruct (flt _ _).
Qed.

Lemma get_SH_core_loop_at_most (n : nat) (th : Q) (Sinh IN0 a b r : float) :
  get_SH_core_loop n method_SH (Fin th) Sinh IN0 a b = Some r ->
  r = NaN \/ exists q, r = Fin q /\ q <= th.
Proof.
  revert a b. induction n as [|n IH]; intros a b; [discriminate|]. simpl.
  destruct (get_SH_core_step _ _ _ _ _ _) as [r'|a' b'] eqn:Hs.
  - intros [= <-]. by eapply get_SH_core_step_at_most.
  - apply IH.
Qed.

Lemma get_SH_core_at_most (th : Q) (Sinh IN0 : float) :
  get_SH_core (Fin th) Sinh IN0 method_SH = NaN \/
  exists q, get_SH_core (Fin th) Sinh IN0 method_SH = Fin q /\ q <= th.
Proof.
  unfold get_SH_core.
  destruct (get_SH_core_loop _ _ _ _ _ _ _) as [r|] eqn:Hloop; [|by left].
  by eapply get_SH_core_loop_at_most.
Qed.

End SolverRange.

Section SolverKinds.
Context {M : Libm}.
Variable method_SH : float -> float -> float -> float.
Variables TH Sinh IN0 : float.

Lemma get_SH_core_step_outcome (qa qb : Q) :
  0 <= qa -> qa <= qb ->
  match get_SH_core_step method_SH TH Sinh IN0 (Fin qa) (Fin qb) with
  | Return r => solver_outcome method_SH TH Sinh IN0 r
  | Continue a' b' =>
      exists qa' qb', a' = Fin qa' /\ b' = Fin qb' /\ 0 <= qa' /\ qa' <= qb'
  end.
Proof.
  intros Ha Hab. unfold get_SH_core_step.
  assert (Hmid : fdiv (fadd (Fin qa) (Fin qb)) (Fin 2)
                 = Fin (Qred (Qred (qa + qb) / 2))) by done.
  rewrite Hmid. set (p := Qred (Qred (qa + qb) / 2)).
  assert (Hp : p == (qa + qb) * (1 # 2)) by (unfold p; rewrite !Qred_correct; field).
  destruct (fle (fabs _) LIMIT1) eqn:Hres.
  { destruct (fge (Fin p) P_max) eqn:Hclamp.
    - right; right; by left.
    - right; right; right. exists p. apply (fle_Fin_false 0.85 p) in Hclamp.
      repeat split; [lra|done|done]. }
  destruct (fge (Fin qa) P_max); [right; right; by left|].
  destruct (fle (Fin qb) P_min); [right; by left|].
  destruct (fle (Fin p) _); [right; by left|].
  destruct (fle (fabs _) LIMIT2); [by left|].
  destruct (flt _ TH).
  - exists p, qb. repeat split; lra.
  - exists qa, p. repeat split; lra.
Qed.

Lemma get_SH_core_loop_outcome (n : nat) (qa qb : Q) (r : float) :
  0 <= qa -> qa <= qb ->
  get_SH_core_loop n method_SH TH Sinh IN0 (Fin qa) (Fin qb) = Some r ->
  solver_outcome method_SH TH Sinh IN0 r.
Proof.
  revert qa qb. induction n as [|n IH]; intros qa qb Ha Hab; [discriminate|].
  cbn [get_SH_core_loop].
  pose proof (get_SH_core_step_outcome qa qb Ha Hab) as Hstep.
  destruct (get_SH_core_step _ _ _ _ _ _) as [r'|a' b'].
  - by intros [= <-].
  - destruct Hstep as (qa' & qb' & -> & -> & Ha' & Hab'). by apply IH.
Qed.

(** X1: whatever the inputs and the diffuse formula, [get_SH_core] returns
    the marker or [min(SH(P), TH)] for a transmittance [P] in the band
    [[0, 0.85]]: [P = 0], [P = 0.85], or a midpoint below 0.85 at which
    [TH(P)] matches [TH] to within 1e-5.  The formula is never used above
    0.85 in the result. *)
Theorem get_SH_core_outcome :
  solver_outcome method_SH TH Sinh IN0 (get_SH_core TH Sinh IN0 method_SH).
Proof.
  unfold get_SH_core.
  destruct (get_SH_core_loop _ _ _ _ _ _ _) as [r|] eqn:Hloop; [|by left].
  eapply (get_SH_core_loop_outcome _ 0.0 1.2); [lra|lra|exact Hloop].
Qed.

End SolverKinds.

(** ** Targets outside the range of the diffuse formula *)

Section SolverClamp.
Context {M : Libm}.
Variable method_SH : float -> float -> float -> float.
Variables TH Sinh IN0 : float.

(** X2: when the formula's [TH(P)] is below [TH] by more than [LIMIT1] at
    the first two midpoints, [(0.0 + 1.2)/2] and [(0.6 + 1.2)/2], the lower
    bound passes [P_max] and [get_SH_core] returns [min(SH(0.85), TH)]. *)
Theorem get_SH_core_clamps_high :
  let TH0 := fun P => func_TH P IN0 Sinh (method_SH P IN0 Sinh) in
  let P1 := fdiv (fadd (Fin 0.0) (Fin 1.2)) (Fin 2) in
  let P2 := fdiv (fadd P1 (Fin 1.2)) (Fin 2) in
  fle (fabs (fsub (TH0 P1) TH)) LIMIT1 = false -> flt (TH0 P1) TH = true ->
  fle (fabs (fsub (TH0 P2) TH)) LIMIT1 = false -> flt (TH0 P2) TH = true ->
  get_SH_core TH Sinh IN0 method_SH = py_min (method_SH P_max IN0 Sinh) TH.
Proof.
  intros TH0 P1 P2 Hres1 Hlow1 Hres2 Hlow2.
  unfold get_SH_core, get_SH_core_passes.
  cbn [get_SH_core_loop].
  unfold get_SH_core_step at 1. fold P1. fold (TH0 P1). rewrite Hres1, Hlow1.
  change (fge (Fin 0.0) P_max) with false.
  change (fle (Fin 1.2) P_min) with false.
  change (fle P1 (fmul LIMIT2 (Fin 10))) with false.
  change (fle (fabs (fsub (Fin 0.0) (Fin 1.2))) LIMIT2) with false.
  cbn iota.
  unfold get_SH_core_step at 1. fold P2. fold (TH0 P2). rewrite Hres2, Hlow2.
  change (fge P1 P_max) with false.
  change (fle (Fin 1.2) P_min) with false.
  change (fle P2 (fmul LIMIT2 (Fin 10))) with false.
  change (fle (fabs (fsub P1 (Fin 1.2))) LIMIT2) with false.
  cbn iota.
  unfold get_SH_core_step at 1.
  change (fge P2 P_max) with true.
  change (fge (fdiv (fadd P2 (Fin 1.2)) (Fin 2)) P_max) with true.
  cbn iota.
  match goal with
  | |- context [if ?c then Return _ else Return _] => destruct c
  end; reflexivity.
Qed.

Lemma get_SH_core_loop_low (n : nat) (qb : Q) (r : float) :
  (forall q, 0 < q -> q <= 0.6 ->
     fle (fabs (fsub (func_TH (Fin q) IN0 Sinh (method_SH (Fin q) IN0 Sinh)) TH)) LIMIT1
       = false /\
     flt (func_TH (Fin q) IN0 Sinh (method_SH (Fin q) IN0 Sinh)) TH = false) ->
  0 < qb -> qb <= 1.2 ->
  get_SH_core_loop n method_SH TH Sinh IN0 (Fin 0.0) (Fin qb) = Some r ->
  r = py_min (method_SH (Fin 0.0) IN0 Sinh) TH.
Proof.
  intros Habove. revert qb. induction n as [|n IH]; intros qb Hpos Hle; [discriminate|].
  cbn [get_SH_core_loop]. unfold get_SH_core_step.
  assert (Hmid : fdiv (fadd (Fin 0.0) (Fin qb)) (Fin 2)
                 = Fin (Qred (Qred (0.0 + qb) / 2))) by done.
  rewrite Hmid. set (p := Qred (Qred (0.0 + qb) / 2)).
  assert (Hp : p == qb * (1 # 2)) by (unfold p; rewrite !Qred_correct; field).
  destruct (Habove p) as [Hres Hlt]; [lra|lra|].
  rewrite Hres, Hlt.
  change (fge (Fin 0.0) P_max) with false.
  assert (Hb : fle (Fin qb) P_min = false) by (apply (fle_Fin_false qb 0.0); lra).
  rewrite Hb. cbn iota.
  destruct (fle (Fin p) (fmul LIMIT2 (Fin 10))) eqn:Hzero; [by intros [= <-]|].
  apply fle_Fin_false in Hzero. rewrite Qred_correct in Hzero.
  assert (Hwide : fle (fabs (fsub (Fin 0.0) (Fin qb))) LIMIT2 = false).
  { apply fle_Fin_false. rewrite Qred_correct, Qabs_neg by lra.
    assert (E10 : 1e-10 * 10 == 0.000000001) by reflexivity.
    assert (E : 1e-10 == 0.0000000001) by reflexivity.
    rewrite E10 in Hzero. rewrite E. lra. }
  rewrite Hwide. apply IH; lra.
Qed.

(** X3: when the formula's [TH(P)] is above [TH] by more than [LIMIT1]
    for every [P] in (0, 0.6], the upper bound closes on 0 and
    [get_SH_core] returns [min(SH(0.0), TH)]. *)
Theorem get_SH_core_clamps_low :
  (forall q, 0 < q -> q <= 0.6 ->
     fle (fabs (fsub (func_TH (Fin q) IN0 Sinh (method_SH (Fin q) IN0 Sinh)) TH)) LIMIT1
       = false /\
     flt (func_TH (Fin q) IN0 Sinh (method_SH (Fin q) IN0 Sinh)) TH = false) ->
  get_SH_core TH Sinh IN0 method_SH = py_min (method_SH (Fin 0.0) IN0 Sinh) TH.
Proof.
  intros Habove. unfold get_SH_core, get_SH_core_passes.
  destruct (get_SH_core_loop_halving method_SH TH Sinh IN0 34 0.0 1.2) as [r Hr].
  - lra.
  - vm_compute. discriminate.
  - rewrite Hr. eapply get_SH_core_loop_low; [exact Habove| | |exact Hr]; lra.
Qed.

End SolverClamp.

(** An hour brighter than the Nagata formula can explain under a zenith sun
    ([Sinh = 1], where [P ** (1/Sinh)] is [P]): [TH = 4.8] of an
    extraterrestrial 4.921. *)
Lemma get_SH_core_clamps_high_witness :
  @get_SH_core libm_exact (Fin 4.8) (Fin 1.0) (Fin 4.921) (@func_SH_Nagata libm_exact)
  = py_min (@func_SH_Nagata libm_exact P_max (Fin 4.921) (Fin 1.0)) (Fin 4.8).
Proof.
  apply (@get_SH_core_clamps_high libm_exact (@func_SH_Nagata libm_exact)
           (Fin 4.8) (Fin 1.0) (Fin 4.921)); vm_compute; reflexivity.
Defined.

(** Under a zenith sun the Nagata formula yields at least 1.5 of an
    extraterrestrial 4.921, whatever the transmittance. *)
Lemma Nagata_zenith_above (q : Q) :
  0 < q -> q <= 0.6 ->
  fle (fabs (fsub (@func_TH libm_exact (Fin q) (Fin 4.921) (Fin 1.0)
                     (@func_SH_Nagata libm_exact (Fin q) (Fin 4.921) (Fin 1.0)))
                  (Fin 0.5))) LIMIT1 = false /\
  flt (@func_TH libm_exact (Fin q) (Fin 4.921) (Fin 1.0)
         (@func_SH_Nagata libm_exact (Fin q) (Fin 4.921) (Fin 1.0))) (Fin 0.5) = false.
Proof.
  intros Hpos Hle.
  assert (Hpow : @pow libm_exact (Fin q) (fdiv (Fin 1) (Fin 1.0)) = Fin q) by reflexivity.
  unfold func_TH, func_SH_Nagata. rewrite Hpow.
  cbn [fadd fsub fmul lift2 fabs].
  match goal with
  | |- fle (Fin (Qabs (Qred (?v - 0.5)))) _ = false /\ _ =>
      assert (Hv : v == 4.921 * q + 4.921 * (1 - q) * 0.34 * (0.9 - 0.3 * q))
        by (rewrite !Qred_correct; ring);
      set (t := v) in *
  end.
  assert (Hbig : 1.5 <= t) by (rewrite Hv; nra).
  split.
  - apply fle_Fin_false. rewrite Qred_correct, Qabs_pos by lra.
    assert (E : 1e-5 == 0.00001) by reflexivity. rewrite E. lra.
  - apply negb_false_iff, Qle_bool_iff. lra.
Qed.

(** A dim hour under a zenith sun, [TH = 0.5]: below what the Nagata
    formula yields for any transmittance. *)
Lemma get_SH_core_clamps_low_witness :
  @get_SH_core libm_exact (Fin 0.5) (Fin 1.0) (Fin 4.921) (@func_SH_Nagata libm_exact)
  = py_min (@func_SH_Nagata libm_exact (Fin 0.0) (Fin 4.921) (Fin 1.0)) (Fin 0.5).
Proof.
  apply (@get_SH_core_clamps_low libm_exact (@func_SH_Nagata libm_exact)
           (Fin 0.5) (Fin 1.0) (Fin 4.921)).
  apply Nagata_zenith_above.
Defined.

(** ** Rows of [get_SH] *)

Lemma py_max_zero_range (r : float) (th : Q) :
  r = NaN \/ (exists q, r = Fin q /\ q <= th) ->
  exists v, py_max (Fin 0.0) r = Fin v /\ 0 <= v /\ (0 <= th -> v <= th).
Proof.
  intros [->|(q & -> & Hq)].
  - exists 0.0. split; [done|]. split; [lra|]. intros; lra.
  - unfold py_max, fgt. destruct (flt (Fin 0.0) (Fin q)) eqn:Hpos.
    + simpl in Hpos. apply negb_true_iff in Hpos.
      apply (fle_Fin_false q 0.0) in Hpos.
      exists q. split; [done|]. split; [lra|]. intros; lra.
    + exists 0.0. split; [done|]. split; [lra|]. intros; lra.
Qed.

Section BisectionRows.
Context {M : Libm}.
Variable method_SH : float -> float -> float -> float.

(** X4: every row of [get_SH] is 0 when the sun is down, the marker when the
    sun is up and [TH] is missing, and otherwise a present value that is not
    negative and, for [TH >= 0], not above [TH]. *)
Theorem get_SH_range (TH Sinh IN0 SH : list float) (i : nat) (th s : float) :
  get_SH TH Sinh IN0 method_SH = Ok SH ->
  TH !! i = Some th -> Sinh !! i = Some s ->
  if fle s 0.0 then SH !! i = Some (Fin 0.0)
  else match th with
       | NaN => SH !! i = Some NaN
       | Fin q => exists v, SH !! i = Some (Fin v) /\ 0 <= v /\ (0 <= q -> v <= q)
       end.
Proof.
  intros Hrun Hth Hs.
  destruct (get_SH_row _ _ _ _ _ _ _ Hrun Hth) as (s' & Hs' & Hrow).
  assert (s' = s) by congruence. subst s'.
  destruct (fle s 0.0); [done|].
  destruct th as [|q]; [done|]. cbn [isnan] in Hrow.
  destruct Hrow as (in0 & _ & ->).
  destruct (py_max_zero_range _ q (get_SH_core_at_most method_SH q s in0))
    as (v & -> & Hv0 & Hvle).
  by exists v.
Qed.

End BisectionRows.

(** The Nagata formula under a zenith sun ([Sinh = 1], where [P ** (1/Sinh)]
    is [P]), one clear hour. *)
Lemma get_SH_range_witness :
  exists SH v,
    @get_SH libm_exact [Fin 2.5] [Fin 1.0] [Fin 4.921] (@func_SH_Nagata libm_exact) = Ok SH /\
    SH !! 0%nat = Some (Fin v) /\ 0 <= v /\ v <= 2.5.
Proof.
  assert (Hrun : exists SH,
            @get_SH libm_exact [Fin 2.5] [Fin 1.0] [Fin 4.921] (@func_SH_Nagata libm_exact) = Ok SH)
    by (eexists; vm_compute; reflexivity).
  destruct Hrun as [SH Hrun].
  pose proof (@get_SH_range libm_exact (@func_SH_Nagata libm_exact) [Fin 2.5] [Fin 1.0] [Fin 4.921]
                SH 0%nat (Fin 2.5) (Fin 1.0) Hrun eq_refl eq_refl) as Hrow.
  change (fle (Fin 1.0) 0.0) with false in Hrow. cbn iota in Hrow.
  destruct Hrow as (v & Hv & Hlo & Hhi).
  exists SH, v. repeat split; try done. apply Hhi. lra.
Defined.

(** ** The Erbs correlation: range of the diffuse fraction *)

Lemma erbs_term_between (c x s : Q) :
  0 <= x -> x <= s -> Qmin0 c * s <= c * x /\ c * x <= Qmax0 c * s.
Proof.
  intros Hx Hs. unfold Qmin0, Qmax0.
  destruct (Qle_bool 0 c) eqn:Hc.
  - apply Qle_bool_iff in Hc. split; nra.
  - assert (Hneg : c < 0).
    { apply Qnot_le_lt. intros Hle. apply Qle_bool_iff in Hle. congruence. }
    split; nra.
Qed.

Lemma erbs_poly_between (lo step t : Q) :
  0 <= t -> t <= step ->
  erbs_poly_lower lo step <= erbs_poly (lo + t) /\
  erbs_poly (lo + t) <= erbs_poly_upper lo step.
Proof.
  intros Ht Hstep.
  assert (Hexp : erbs_poly (lo + t) ==
                 erbs_poly lo + erbs_d1 lo * t + erbs_d2 lo * (t * t)
                 + erbs_d3 lo * (t * (t * t)) + 12.336 * (t * (t * (t * t))))
    by (unfold erbs_poly, erbs_d1, erbs_d2, erbs_d3; ring).
  assert (H2 : t * t <= step * step) by nra.
  assert (H2' : 0 <= t * t) by nra.
  assert (H3 : t * (t * t) <= step * (step * step)) by nra.
  assert (H3' : 0 <= t * (t * t)) by nra.
  assert (H4 : t * (t * (t * t)) <= step * (step * (step * step))) by nra.
  assert (H4' : 0 <= t * (t * (t * t))) by nra.
  destruct (erbs_term_between (erbs_d1 lo) t step Ht Hstep) as [L1 U1].
  destruct (erbs_term_between (erbs_d2 lo) (t * t) (step * step) H2' H2) as [L2 U2].
  destruct (erbs_term_between (erbs_d3 lo) (t * (t * t)) (step * (step * step)) H3' H3)
    as [L3 U3].
  unfold erbs_poly_lower, erbs_poly_upper. rewrite Hexp. split; lra.
Qed.

Lemma erbs_piece_sound (lo step k : Q) :
  0.16 <= erbs_poly_lower lo step -> erbs_poly_upper lo step <= 1 ->
  lo <= k -> k <= lo + step ->
  0.16 <= erbs_poly k /\ erbs_poly k <= 1.
Proof.
  intros Hlow Hupp Hk1 Hk2.
  destruct (erbs_poly_between lo step (k - lo)) as [H1 H2]; [lra|lra|].
  assert (Hk : erbs_poly (lo + (k - lo)) == erbs_poly k)
    by (unfold erbs_poly; ring).
  rewrite Hk in H1, H2. lra.
Qed.

(** A property that the enclosures establish on each piece holds on the
    whole range the pieces cover. *)
Lemma pieces_ok_sound (lower upper : Q -> Q -> Q) (lb ub : Q) (P : Q -> Prop)
    (step : Q) :
  0 <= step ->
  (forall lo k, lb <= lower lo step -> upper lo step <= ub ->
                lo <= k -> k <= lo + step -> P k) ->
  forall (n : nat) (lo k : Q),
    pieces_ok lower upper lb ub (S n) lo step = true ->
    lo <= k -> k <= lo + inject_Z (Z.of_nat (S n)) * step -> P k.
Proof.
  intros Hstep Hpiece n.
  induction n as [|n IH]; intros lo k Hok Hk1 Hk2;
    cbn [pieces_ok] in Hok; apply andb_true_iff in Hok as [Hhere Hrest];
    apply andb_true_iff in Hhere as [Hlow Hupp];
    apply Qle_bool_iff in Hlow, Hupp.
  - apply (Hpiece lo k Hlow Hupp Hk1).
    assert (E : inject_Z (Z.of_nat 1) == 1) by reflexivity.
    rewrite E in Hk2. lra.
  - destruct (Qlt_le_dec (lo + step) k) as [Hfar|Hnear].
    + apply (IH (Qred (lo + step)) k Hrest).
      * rewrite Qred_correct. lra.
      * rewrite Qred_correct.
        assert (Hm : inject_Z (Z.of_nat (S (S n))) == inject_Z (Z.of_nat (S n)) + 1).
        { rewrite (Nat2Z.inj_succ (S n)). unfold Z.succ. by rewrite inject_Z_plus. }
        rewrite Hm in Hk2. set (m := inject_Z (Z.of_nat (S n))) in *.
        clearbody m. lra.
    + by apply (Hpiece lo k Hlow Hupp).
Qed.

(** On the domain of the degree-4 branch the quartic stays within
    [0.16, 1] (its minimum, near 0.79, is 0.1646). *)
Lemma erbs_poly_range (k : Q) :
  0.22 <= k -> k <= 0.8 -> 0.16 <= erbs_poly k /\ erbs_poly k <= 1.
Proof.
  intros Hk1 Hk2.
  assert (E : inject_Z (Z.of_nat (S 57)) == 58) by reflexivity.
  apply (pieces_ok_sound erbs_poly_lower erbs_poly_upper 0.16 1
           (fun k => 0.16 <= erbs_poly k /\ erbs_poly k <= 1) 0.01 ltac:(lra)
           (fun lo k => erbs_piece_sound lo 0.01 k) 57 0.22 k);
    [vm_compute; reflexivity|lra|rewrite E; lra].
Qed.

Lemma py_min_one (x : float) :
  exists k, py_min (Fin 1.0) x = Fin k /\ k <= 1 /\
            (match x with NaN => True | Fin q => 0 <= q end -> 0 <= k).
Proof.
  unfold py_min. destruct x as [|q]; [exists 1.0; repeat split; lra|].
  destruct (flt (Fin q) (Fin 1.0)) eqn:Hlt.
  - simpl in Hlt. apply negb_true_iff in Hlt. apply (fle_Fin_false 1.0 q) in Hlt.
    exists q. repeat split; [lra|done].
  - exists 1.0. repeat split; lra.
Qed.

Lemma func_KT_sign (th qi qs : Q) :
  0 < th -> 0 < qi * qs ->
  match func_KT (Fin th) (Fin qi) (Fin qs) with NaN => True | Fin q => 0 <= q end.
Proof.
  intros Hth Hpos. unfold func_KT. cbn [fmul fdiv lift2].
  destruct (Qeq_bool _ 0); [done|].
  rewrite Qred_correct.
  assert (Hden : 0 < Qred (qi * qs)) by (by rewrite Qred_correct).
  apply Qlt_le_weak, Qlt_shift_div_l; [done|lra].
Qed.

(** The three branches of the Erbs correlation for a positive [TH] and a
    clamped clearness index [k]. *)
Lemma Erbs_branches (th k : Q) :
  0 < th -> k <= 1 ->
  exists sh,
    (if fle (Fin k) (Fin 0.22) then func_SH_Erbs_1d_022 (Fin th) (Fin k)
     else if flt (Fin 0.22) (Fin k) && fle (Fin k) (Fin 0.80)
          then func_SH_Erbs_4d (Fin th) (Fin k)
          else func_SH_Erbs_1d_080 (Fin th)) = Fin sh /\
    0.16 * th <= sh /\ (0 <= k -> sh <= th).
Proof.
  intros Hth Hk.
  destruct (func_SH_Erbs_1d_022_value th k) as (a & -> & Ha).
  destruct (func_SH_Erbs_4d_value th k) as (b & -> & Hb).
  destruct (func_SH_Erbs_1d_080_value th) as (c & -> & Hc).
  destruct (fle (Fin k) (Fin 0.22)) eqn:H22.
  - apply fle_Fin in H22. exists a. split; [done|]. rewrite Ha. split; [nra|]. intros; nra.
  - apply fle_Fin_false in H22.
    assert (Hlt : flt (Fin 0.22) (Fin k) = true)
      by (simpl; apply negb_true_iff, (fle_Fin_false k 0.22), H22).
    rewrite Hlt. cbn [andb].
    destruct (fle (Fin k) (Fin 0.80)) eqn:H80.
    + apply fle_Fin in H80. exists b. split; [done|].
      destruct (erbs_poly_range k) as [Hlo Hhi]; [lra|lra|].
      fold (erbs_poly k) in Hb. rewrite Hb.
      set (p := erbs_poly k) in *. clearbody p. split; [nra|]. intros; nra.
    + exists c. split; [done|]. rewrite Hc. split; [lra|]. intros; lra.
Qed.

Lemma get_SH_Erbs_row (TH IN0 Sinh SH : list float) (i : nat) (th : float) :
  get_SH_Erbs TH IN0 Sinh = Ok SH ->
  TH !! i = Some th ->
  match th with
  | NaN => SH !! i = Some NaN
  | Fin q =>
      if Qle_bool q 0.0 then SH !! i = Some (Fin 0.0)
      else exists sh,
             SH !! i = Some (Fin sh) /\ 0.16 * q <= sh /\
             (forall qi qs, IN0 !! i = Some (Fin qi) -> Sinh !! i = Some (Fin qs) ->
                0 < qi * qs -> sh <= q)
  end.
Proof.
  intros Hrun Hth. apply for_range_lookup in Hrun as [_ Hrows].
  destruct (Hrows i) as (x & Hbody & Hx); [by eapply lookup_lt_Some|].
  rewrite (getitem_Some _ _ _ Hth) in Hbody. cbn [mbind result_bind] in Hbody.
  destruct th as [|q]; cbn [isnan] in Hbody; [by inversion Hbody; subst|].
  change (fle (Fin q) (Fin 0.0)) with (Qle_bool q 0.0) in Hbody.
  destruct (Qle_bool q 0.0) eqn:Hq; [by inversion Hbody; subst|].
  assert (Hpos0 : 0.0 < q) by (apply (fle_Fin_false q 0.0), Hq).
  assert (Hpos : 0 < q) by lra.
  step_getitem Hbody.
  match type of Hbody with
  | context [py_min (Fin 1.0) ?kt] =>
      destruct (py_min_one kt) as (k & Hk & Hk1 & Hk0); rewrite Hk in Hbody
  end.
  destruct (Erbs_branches q k Hpos Hk1) as (sh & Hsh & Hlo & Hhi).
  assert (Hx' : x = Fin sh).
  { destruct (fle (Fin k) (Fin 0.22));
      [|destruct (flt (Fin 0.22) (Fin k) && fle (Fin k) (Fin 0.80))];
      inversion Hbody; subst; exact Hsh. }
  subst x. exists sh. split; [done|]. split; [done|].
  intros qi qs Hqi Hqs Hext. apply Hhi, Hk0.
  assert (a = Fin qi) by congruence. assert (a0 = Fin qs) by congruence. subst.
  by apply func_KT_sign.
Qed.

(** X5: every row of [get_SH_Erbs] is the marker when [TH] is missing, 0
    when [TH <= 0], and for [TH > 0] a present value of at least
    [0.16 * TH]; it is at most [TH] when the extraterrestrial horizontal
    irradiance [IN0 * Sinh] is positive. *)
Theorem get_SH_Erbs_range (TH IN0 Sinh SH : list float) (i : nat) (th : float) :
  get_SH_Erbs TH IN0 Sinh = Ok SH ->
  TH !! i = Some th ->
  match th with
  | NaN => SH !! i = Some NaN
  | Fin q =>
      if Qle_bool q 0.0 then SH !! i = Some (Fin 0.0)
      else exists sh,
             SH !! i = Some (Fin sh) /\ 0.16 * q <= sh /\
             (forall qi qs, IN0 !! i = Some (Fin qi) -> Sinh !! i = Some (Fin qs) ->
                0 < qi * qs -> sh <= q)
  end.
Proof.
  intros Hrun Hth.
  pose proof (get_SH_Erbs_row _ _ _ _ _ _ Hrun Hth) as Hrow.
  destruct th as [|q]; [exact Hrow|].
  destruct (Qle_bool q 0.0); exact Hrow.
Qed.

(** One hour at [KT = 0.5] under a low sun. *)
Lemma get_SH_Erbs_range_witness :
  exists SH sh,
    get_SH_Erbs [Fin 0.73815] [Fin 4.921] [Fin 0.3] = Ok SH /\
    SH !! 0%nat = Some (Fin sh) /\ 0.16 * 0.73815 <= sh /\ sh <= 0.73815.
Proof.
  assert (Hrun : exists SH, get_SH_Erbs [Fin 0.73815] [Fin 4.921] [Fin 0.3] = Ok SH)
    by (eexists; vm_compute; reflexivity).
  destruct Hrun as [SH Hrun].
  pose proof (get_SH_Erbs_range [Fin 0.73815] [Fin 4.921] [Fin 0.3] SH 0%nat
                (Fin 0.73815) Hrun eq_refl) as Hrow.
  cbn iota in Hrow. change (Qle_bool 0.73815 0.0) with false in Hrow. cbn iota in Hrow.
  destruct Hrow as (sh & Hsh & Hlo & Hhi).
  exists SH, sh. repeat split; try done.
  apply (Hhi 4.921 0.3); reflexivity.
Defined.

(** ** The Udagawa model row by row *)

(** X6: every row of [get_DN_Udagawa] is the marker when [TH] is missing,
    0 when [TH <= 0], and for [TH > 0] a present value that is not
    negative, whatever [IN0] and [Sinh] are (missing values included): the
    output is missing exactly where [TH] is. *)
Theorem get_DN_Udagawa_range (TH IN0 Sinh DN : list float) (i : nat) (th : float) :
  get_DN_Udagawa TH IN0 Sinh = Ok DN ->
  TH !! i = Some th ->
  match th with
  | NaN => DN !! i = Some NaN
  | Fin q =>
      if Qle_bool q 0.0 then DN !! i = Some (Fin 0.0)
      else exists dn, DN !! i = Some (Fin dn) /\ 0 <= dn
  end.
Proof.
  intros Hrun Hth. apply for_range_lookup in Hrun as [_ Hrows].
  destruct (Hrows i) as (x & Hbody & Hx); [by eapply lookup_lt_Some|].
  rewrite (getitem_Some _ _ _ Hth) in Hbody. cbn [mbind result_bind] in Hbody.
  destruct th as [|q]; cbn [isnan] in Hbody; [by inversion Hbody; subst|].
  change (fle (Fin q) (Fin 0.0)) with (Qle_bool q 0.0) in Hbody.
  destruct (Qle_bool q 0.0); [by inversion Hbody; subst|].
  step_getitem Hbody. cbn zeta in Hbody.
  assert (Hmax : forall y, exists dn, py_max (Fin 0.0) y = Fin dn /\ 0 <= dn).
  { intros y. unfold py_max, fgt.
    destruct y as [|qy]; [exists 0.0; split; [reflexivity|lra]|].
    destruct (flt (Fin 0.0) (Fin qy)) eqn:Hp; [|exists 0.0; split; [reflexivity|lra]].
    exists qy. split; [reflexivity|].
    simpl in Hp. apply negb_true_iff in Hp. apply (fle_Fin_false qy 0.0) in Hp. lra. }
  destruct (flt _ _); inversion Hbody; subst;
    match goal with
    | Hx : DN !! i = Some (py_max _ ?y) |- _ =>
        destruct (Hmax y) as (dn & Hdn & Hdn0); rewrite Hdn in Hx; by exists dn
    end.
Qed.

(** A clear hour with a missing extraterrestrial irradiance: present, 0. *)
Lemma get_DN_Udagawa_range_witness :
  exists DN dn,
    get_DN_Udagawa [Fin 1.0] [NaN] [Fin 0.3] = Ok DN /\
    DN !! 0%nat = Some (Fin dn) /\ 0 <= dn.
Proof.
  assert (Hrun : exists DN, get_DN_Udagawa [Fin 1.0] [NaN] [Fin 0.3] = Ok DN)
    by (eexists; vm_compute; reflexivity).
  destruct Hrun as [DN Hrun].
  pose proof (get_DN_Udagawa_range [Fin 1.0] [NaN] [Fin 0.3] DN 0%nat (Fin 1.0)
                Hrun eq_refl) as Hrow.
  cbn iota in Hrow. change (Qle_bool 1.0 0.0) with false in Hrow. cbn iota in Hrow.
  destruct Hrow as (dn & Hdn & Hdn0). by exists DN, dn.
Defined.

(** ** Outputs are never negative *)

Lemma floor_at_zero_nonneg (x : float) : nonneg_or_missing (floor_at_zero x).
Proof.
  unfold floor_at_zero. destruct (fle x 0.0) eqn:Hc; [simpl; lra|].
  destruct x as [|q]; [done|]. apply fle_Fin_false in Hc. simpl. lra.
Qed.

Lemma py_max_zero_nonneg (x : float) : nonneg_or_missing (py_max (Fin 0.0) x).
Proof.
  unfold py_max, fgt. destruct x as [|q]; [simpl; lra|].
  destruct (flt (Fin 0.0) (Fin q)) eqn:Hpos; [|simpl; lra].
  simpl in Hpos. apply negb_true_iff in Hpos.
  apply (fle_Fin_false q 0.0) in Hpos. simpl. lra.
Qed.

Lemma for_range_Forall (P : float -> Prop) (n : nat) (body : nat -> result float)
    (out : list float) :
  for_range n body = Ok out ->
  (forall i x, (i < n)%nat -> body i = Ok x -> P x) ->
  Forall P out.
Proof.
  intros Hrun Hbody. apply for_range_lookup in Hrun as [Hlen Hrows].
  apply Forall_lookup. intros i x Hx.
  assert (Hi : (i < n)%nat) by (rewrite <- Hlen; by eapply lookup_lt_Some).
  destruct (Hrows i Hi) as (x' & Hb & Hx'). assert (x' = x) by congruence. subst x'.
  by eapply Hbody.
Qed.

Lemma get_DN_Udagawa_nonneg (TH IN0 Sinh DN : list float) :
  get_DN_Udagawa TH IN0 Sinh = Ok DN -> Forall nonneg_or_missing DN.
Proof.
  intros Hrun. eapply for_range_Forall; [exact Hrun|].
  intros i x _ Hbody. cbn beta in Hbody. unfold mbind in Hbody.
  step_getitem Hbody.
  destruct (isnan _); [by inversion Hbody; subst|].
  destruct (fle _ _); [inversion Hbody; subst; simpl; lra|].
  step_getitem Hbody. cbn zeta in Hbody.
  destruct (flt _ _); inversion Hbody; subst; apply py_max_zero_nonneg.
Qed.

Lemma get_SH_Erbs_nonneg (TH IN0 Sinh SH : list float) :
  get_SH_Erbs TH IN0 Sinh = Ok SH -> Forall nonneg_or_missing SH.
Proof.
  intros Hrun. apply Forall_lookup. intros i x Hx.
  assert (Hi : (i < length TH)%nat).
  { pose proof Hrun as Hlen. apply for_range_lookup in Hlen as [Hlen _].
    rewrite <- Hlen. by eapply lookup_lt_Some. }
  destruct (lookup_lt_is_Some_2 TH i Hi) as [th Hth].
  pose proof (get_SH_Erbs_row _ _ _ _ _ _ Hrun Hth) as Hrow.
  destruct th as [|q].
  - assert (x = NaN) by congruence. by subst.
  - destruct (Qle_bool q 0.0) eqn:Hq.
    + assert (x = Fin 0.0) by congruence. subst. simpl. lra.
    + destruct Hrow as (sh & Hsh & Hlo & _).
      assert (x = Fin sh) by congruence. subst. simpl.
      assert (0.0 < q) by (apply (fle_Fin_false q 0.0), Hq). lra.
Qed.

Section BatchNonneg.
Context {M : Libm}.

Lemma get_SH_nonneg (method_SH : float -> float -> float -> float)
    (TH Sinh IN0 SH : list float) :
  get_SH TH Sinh IN0 method_SH = Ok SH -> Forall nonneg_or_missing SH.
Proof.
  intros Hrun. eapply for_range_Forall; [exact Hrun|].
  intros i x _ Hbody. cbn beta in Hbody. unfold mbind in Hbody.
  step_getitem Hbody.
  destruct (fle _ _); [inversion Hbody; subst; simpl; lra|].
  step_getitem Hbody.
  destruct (isnan _); [by inversion Hbody; subst|].
  step_getitem Hbody. inversion Hbody; subst. apply py_max_zero_nonneg.
Qed.

Lemma W_to_MJ_nonneg (x : float) : nonneg_or_missing x -> nonneg_or_missing (W_to_MJ x).
Proof.
  destruct x as [|q]; [done|]. simpl. intros Hq. rewrite !Qred_correct.
  assert (E : 1e-6 == 0.000001) by reflexivity. rewrite E. nra.
Qed.

Lemma get_DN_perez_core_nonneg (G_mj h_deg : ndarray3) (TD ALT IN0 dn : float) :
  get_DN_perez_core G_mj h_deg TD ALT IN0 = Ok dn -> nonneg_or_missing dn.
Proof.
  unfold get_DN_perez_core.
  destruct (_ || _); [intros [= <-]; simpl; lra|].
  destruct (fle (at1 h_deg) _); [intros [= <-]; simpl; lra|].
  destruct (flt _ _); [intros [= <-]; simpl; lra|].
  destruct (if fle _ _ then _ else _) as [[A B] C].
  destruct (perez_bins _ _ _) as [[[i j] k] l].
  destruct (CM_getitem i j k l) as [c|]; [|discriminate].
  cbn [mbind result_bind]. intros [= <-]. apply W_to_MJ_nonneg.
  destruct (flt _ _) eqn:Hneg; [simpl; lra|].
  match goal with |- nonneg_or_missing ?d => destruct d as [|q] eqn:Hd end; [done|].
  simpl. simpl in Hneg. apply negb_false_iff, Qle_bool_iff in Hneg. lra.
Qed.

Lemma get_DN_perez_nonneg (TH h TD : list float) (ALT : float) (IN0 DN : list float) :
  get_DN_perez TH h TD ALT IN0 = Ok DN -> Forall nonneg_or_missing DN.
Proof.
  intros Hrun. apply Forall_lookup. intros i x Hx.
  assert (Hi : (i < length TH)%nat).
  { pose proof Hrun as Hlen. apply for_range_lookup in Hlen as [Hlen _].
    rewrite <- Hlen. by eapply lookup_lt_Some. }
  destruct (lookup_lt_is_Some_2 TH i Hi) as [th Hth].
  destruct (get_DN_perez_row _ _ _ _ _ _ _ _ Hrun Hth)
    as (hi & G & H & _ & _ & _ & Hrow).
  destruct (isnan th).
  - assert (x = NaN) by congruence. by subst.
  - destruct Hrow as (td & in0 & dn & _ & _ & Hcore & Hdn).
    assert (x = dn) by congruence. subst. by eapply get_DN_perez_core_nonneg.
Qed.

(** X7: no batch function of a model ever returns a negative value: every
    entry of [get_SH], [get_SH_Erbs], [get_DN_Udagawa] and [get_DN_perez] is
    the missing-value marker or at least 0. *)
Theorem model_estimates_not_negative :
  (forall method_SH TH Sinh IN0 SH,
     get_SH TH Sinh IN0 method_SH = Ok SH -> Forall nonneg_or_missing SH) /\
  (forall TH IN0 Sinh SH,
     get_SH_Erbs TH IN0 Sinh = Ok SH -> Forall nonneg_or_missing SH) /\
  (forall TH IN0 Sinh DN,
     get_DN_Udagawa TH IN0 Sinh = Ok DN -> Forall nonneg_or_missing DN) /\
  (forall TH h TD ALT IN0 DN,
     get_DN_perez TH h TD ALT IN0 = Ok DN -> Forall nonneg_or_missing DN).
Proof.
  split; [intros; by eapply get_SH_nonneg|].
  split; [intros; by eapply get_SH_Erbs_nonneg|].
  split; [intros; by eapply get_DN_Udagawa_nonneg|].
  intros; by eapply get_DN_perez_nonneg.
Qed.

End BatchNonneg.

(** Two hours of the Erbs model, the second without an observation. *)
Lemma model_estimates_not_negative_witness :
  exists SH,
    get_SH_Erbs [Fin 0.73815; NaN] [Fin 4.921; Fin 4.921] [Fin 0.3; Fin 0.3] = Ok SH /\
    Forall nonneg_or_missing SH.
Proof.
  assert (Hrun : exists SH,
            get_SH_Erbs [Fin 0.73815; NaN] [Fin 4.921; Fin 4.921] [Fin 0.3; Fin 0.3] = Ok SH)
    by (eexists; vm_compute; reflexivity).
  destruct Hrun as [SH Hrun]. exists SH. split; [exact Hrun|].
  exact (proj1 (proj2 (@model_estimates_not_negative libm_exact)) _ _ _ _ Hrun).
Defined.

(** ** One value per row *)

Section Shapes.
Context {M : Libm}.

(** X8: on series of one length, [get_SH], [get_SH_Erbs] and
    [get_DN_Udagawa] raise nothing and return exactly one value per row (so
    an empty series gives an empty result). *)
Theorem batch_functions_one_value_per_row
    (method_SH : float -> float -> float -> float) (TH IN0 Sinh : list float) :
  length IN0 = length TH -> length Sinh = length TH ->
  (exists SH, get_SH TH Sinh IN0 method_SH = Ok SH /\ length SH = length TH) /\
  (exists SH, get_SH_Erbs TH IN0 Sinh = Ok SH /\ length SH = length TH) /\
  (exists DN, get_DN_Udagawa TH IN0 Sinh = Ok DN /\ length DN = length TH).
Proof.
  intros HIN0 HSinh.
  assert (Hgo : forall arr j, (j < length arr)%nat -> exists x, getitem arr j = Ok x)
    by (intros arr j Hj; destruct (getitem_lt arr j Hj) as (x & ? & _); eauto).
  assert (Hlen : forall n body,
            (forall i, (i < n)%nat -> exists x, body i = Ok x) ->
            exists out, for_range n body = Ok out /\ length out = n).
  { intros n body Hbody. destruct (for_range_ok n body Hbody) as [out Hout].
    exists out. split; [done|]. by apply for_range_lookup in Hout as [? _]. }
  repeat split; apply Hlen; intros i Hi;
    repeat match goal with
           | |- context [getitem ?arr ?j] =>
               let x := fresh "x" in let Hx := fresh "Hx" in
               destruct (Hgo arr j) as [x Hx]; [lia|];
               rewrite Hx; cbn [mbind result_bind]
           | |- context [if ?c then Ok _ else _] => destruct c; [eauto|]
           end; eauto.
Qed.

End Shapes.

(** Two hours of the closed-form models, and the empty series. *)
Lemma batch_functions_one_value_per_row_witness :
  (exists SH, get_SH_Erbs [Fin 1.0; Fin 0.5] [Fin 4.921; Fin 4.921] [Fin 0.3; Fin 0.2]
              = Ok SH /\ length SH = 2%nat) /\
  (exists DN, get_DN_Udagawa [] [] [] = Ok DN /\ length DN = 0%nat).
Proof.
  split.
  - apply (@batch_functions_one_value_per_row libm_exact method_SH_jump
             [Fin 1.0; Fin 0.5] [Fin 4.921; Fin 4.921] [Fin 0.3; Fin 0.2]);
      reflexivity.
  - apply (@batch_functions_one_value_per_row libm_exact method_SH_jump [] [] []);
      reflexivity.
Defined.

(** ** The Perez window *)

Section PerezWindow.
Context {M : Libm}.

(** X9: hour [i] of [get_DN_perez] depends on the hours [i-1], [i] and
    [i+1] only: two runs on series of one length that agree on [TH] and
    [h] at these three hours and on [TD] and [IN0] at hour [i] give the same
    value for hour [i]. *)
Theorem get_DN_perez_window (TH TH' h h' TD TD' : list float) (ALT : float)
    (IN0 IN0' DN DN' : list float) (i : nat) :
  get_DN_perez TH h TD ALT IN0 = Ok DN ->
  get_DN_perez TH' h' TD' ALT IN0' = Ok DN' ->
  length TH = length TH' ->
  (i < length TH)%nat ->
  (forall j, (i - 1 <= j <= i + 1)%nat -> TH !! j = TH' !! j /\ h !! j = h' !! j) ->
  TD !! i = TD' !! i -> IN0 !! i = IN0' !! i ->
  DN !! i = DN' !! i.
Proof.
  intros Hrun Hrun' Hlen Hi Hwin HTD HIN0.
  unfold get_DN_perez in Hrun, Hrun'.
  apply for_range_lookup in Hrun as [_ Hrows].
  apply for_range_lookup in Hrun' as [_ Hrows'].
  destruct (Hrows i Hi) as (x & Hbody & ->).
  destruct (Hrows' i) as (x' & Hbody' & ->); [lia|].
  f_equal. rewrite <- Hlen in Hbody'.
  assert (Hget : forall j, (i - 1 <= j <= i + 1)%nat ->
            getitem TH' j = getitem TH j /\ getitem h' j = getitem h j).
  { intros j Hj. destruct (Hwin j Hj) as [H1 H2]. unfold getitem. by rewrite H1, H2. }
  assert (HgTD : getitem TD' i = getitem TD i) by (unfold getitem; by rewrite HTD).
  assert (HgIN0 : getitem IN0' i = getitem IN0 i) by (unfold getitem; by rewrite HIN0).
  destruct (Hget (i - 1)%nat) as [E1 E2]; [lia|].
  destruct (Hget i) as [E3 E4]; [lia|].
  destruct (Hget (i + 1)%nat) as [E5 E6]; [lia|].
  rewrite E1, E2, E3, E4, E5, E6, HgTD, HgIN0 in Hbody'.
  rewrite Hbody in Hbody'. by inversion Hbody'.
Qed.

End PerezWindow.

(** Three dark hours and the same with a fourth, bright one appended after
    a dark fourth: hour 0 is the same in a series that differs at hour 3. *)
Lemma get_DN_perez_window_witness :
  exists DN DN',
    @get_DN_perez libm_exact [Fin 0.0; Fin 0.0; Fin 0.0; Fin 0.0]
      [Fin 10; Fin 20; Fin 30; Fin 40] [Fin 5; Fin 5; Fin 5; Fin 5] (Fin 100)
      [Fin 4.921; Fin 4.921; Fin 4.921; Fin 4.921] = Ok DN /\
    @get_DN_perez libm_exact [Fin 0.0; Fin 0.0; Fin 0.0; NaN]
      [Fin 10; Fin 20; Fin 30; Fin 50] [Fin 5; Fin 5; Fin 5; Fin 7] (Fin 100)
      [Fin 4.921; Fin 4.921; Fin 4.921; Fin 5.0] = Ok DN' /\
    DN !! 0%nat = DN' !! 0%nat.
Proof.
  eexists _, _. split; [vm_compute; reflexivity|]. split; [vm_compute; reflexivity|].
  eapply (@get_DN_perez_window libm_exact
            [Fin 0.0; Fin 0.0; Fin 0.0; Fin 0.0] [Fin 0.0; Fin 0.0; Fin 0.0; NaN]
            [Fin 10; Fin 20; Fin 30; Fin 40] [Fin 10; Fin 20; Fin 30; Fin 50]
            [Fin 5; Fin 5; Fin 5; Fin 5] [Fin 5; Fin 5; Fin 5; Fin 7] (Fin 100)
            [Fin 4.921; Fin 4.921; Fin 4.921; Fin 4.921]
            [Fin 4.921; Fin 4.921; Fin 4.921; Fin 5.0] _ _ 0%nat).
  - vm_compute; reflexivity.
  - vm_compute; reflexivity.
  - reflexivity.
  - simpl; lia.
  - intros j Hj. assert (j = 0 \/ j = 1)%nat as [-> | ->] by lia; by split.
  - reflexivity.
  - reflexivity.
Defined.

(** ** Unit conversion *)

(** X10: [W_to_MJ] and [MJ_to_W] are inverse to each other on present
    values (exactly, rounding aside), keep the marker, and one W/m2 is
    0.0036 MJ/m2 per hour. *)
Theorem unit_conversions_invert (x : Q) :
  (exists y, W_to_MJ (MJ_to_W (Fin x)) = Fin y /\ y == x) /\
  (exists y, MJ_to_W (W_to_MJ (Fin x)) = Fin y /\ y == x) /\
  (exists y, W_to_MJ (Fin x) = Fin y /\ y == 0.0036 * x) /\
  W_to_MJ NaN = NaN /\ MJ_to_W NaN = NaN.
Proof.
  assert (E : 1e-6 == 0.000001) by reflexivity.
  repeat split; try reflexivity.
  - eexists. split; [reflexivity|]. rewrite !Qred_correct, E. field.
  - eexists. split; [reflexivity|]. rewrite !Qred_correct, E. field.
  - eexists. split; [reflexivity|]. rewrite !Qred_correct, E. ring.
Qed.

(** ** What [get_separate] writes for one target *)

Section OutputColumns.
Context {M : Libm} {E : Ephemeris}.

Lemma get_separate_estimate (df df' : DataFrame) (lat lon ele_target : float)
    (mode_separation targ : string) (m : model) (TH : list float) :
  get_separate df lat lon ele_target mode_separation = Ok df' ->
  model_of_name mode_separation = Some m ->
  targ = "est" \/ targ = "msm" ->
  columns df !! ("DSWRF_" +:+ targ) = Some TH ->
  (estimates_SH m = false -> columns df !! ("SH_" +:+ targ) = None) ->
  exists est,
    match m with
    | Nagata =>
        get_SH TH (sun_Sinh (get_sun_position lat lon (index df)))
          (sun_IN0 (get_sun_position lat lon (index df))) func_SH_Nagata = Ok est
    | Watanabe =>
        get_SH TH (sun_Sinh (get_sun_position lat lon (index df)))
          (sun_IN0 (get_sun_position lat lon (index df))) func_SH_Watanabe = Ok est
    | Erbs =>
        get_SH_Erbs TH (sun_IN0 (get_sun_position lat lon (index df)))
          (sun_Sinh (get_sun_position lat lon (index df))) = Ok est
    | Udagawa =>
        get_DN_Udagawa TH (sun_IN0 (get_sun_position lat lon (index df)))
          (sun_Sinh (get_sun_position lat lon (index df))) = Ok est
    | Perez =>
        exists DT,
          columns df !! "DT" = Some DT /\
          get_DN_perez TH (sun_h (get_sun_position lat lon (index df))) DT ele_target
            (sun_IN0 (get_sun_position lat lon (index df))) = Ok est
    end /\
    if estimates_SH m then
      columns df' !! ("SH_" +:+ targ) = Some est /\
      columns df' !! ("DN_" +:+ targ) =
        Some (map floor_at_zero
                (map3 func_DN TH est (sun_Sinh (get_sun_position lat lon (index df)))))
    else
      columns df' !! ("DN_" +:+ targ) = Some est /\
      columns df' !! ("SH_" +:+ targ) =
        Some (map floor_at_zero
                (map3 func_SH TH est (sun_Sinh (get_sun_position lat lon (index df))))).
Proof.
  intros Hrun Hm Htarg HTH Hfresh.
  destruct (get_separate_target _ _ _ _ _ _ _ _ Hrun Htarg HTH)
    as (cols_a & cols_b & cols_c & HaS & HaI & Hah & HaDT & HaTH & HaSH & _ &
        Hdisp & Hder & HfSH & HfDN).
  set (sun := get_sun_position lat lon (index df)) in *.
  assert (HbTH : cols_b !! ("DSWRF_" +:+ targ) = Some TH)
    by (rewrite (dispatch_model_frame _ _ _ _ _ _ _ Hdisp) by names_differ; done).
  assert (HbS : cols_b !! "Sinh" = Some (sun_Sinh sun))
    by (rewrite (dispatch_model_frame _ _ _ _ _ _ _ Hdisp) by names_differ; done).
  apply dispatch_model_spec in Hdisp. rewrite Hm in Hdisp.
  apply derive_complement_spec in Hder as [_ Hder].
  rewrite HfDN, HfSH. clear HfDN HfSH.
  assert (HSHmodel : forall est,
            cols_b !! ("SH_" +:+ targ) = Some est ->
            cols_c !! ("SH_" +:+ targ) = Some est /\
            cols_c !! ("DN_" +:+ targ) =
              Some (map floor_at_zero (map3 func_DN TH est (sun_Sinh sun)))).
  { intros est HbSH. rewrite HbSH in Hder.
    destruct Hder as (TH' & Sinh' & HTH' & HSinh' & HcSH & HcDN).
    assert (TH' = TH) by congruence. assert (Sinh' = sun_Sinh sun) by congruence.
    by subst TH' Sinh'. }
  assert (HDNmodel : forall est,
            cols_b !! ("SH_" +:+ targ) = None ->
            cols_b !! ("DN_" +:+ targ) = Some est ->
            cols_c !! ("DN_" +:+ targ) = Some est /\
            cols_c !! ("SH_" +:+ targ) =
              Some (map floor_at_zero (map3 func_SH TH est (sun_Sinh sun)))).
  { intros est HbSH HbDN. rewrite HbSH, HbDN in Hder.
    destruct Hder as (TH' & Sinh' & HTH' & HSinh' & HcDN & HcSH).
    assert (TH' = TH) by congruence. assert (Sinh' = sun_Sinh sun) by congruence.
    by subst TH' Sinh'. }
  clear Hder. destruct m; cbn [estimates_SH] in *.
  - destruct Hdisp as (Sinh & IN0 & SH & HSinh & HIN0 & Hest & ->).
    assert (Sinh = sun_Sinh sun) by congruence.
    assert (IN0 = sun_IN0 sun) by congruence. subst Sinh IN0.
    exists SH. split; [done|]. apply HSHmodel, lookup_insert_eq.
  - destruct Hdisp as (Sinh & IN0 & SH & HSinh & HIN0 & Hest & ->).
    assert (Sinh = sun_Sinh sun) by congruence.
    assert (IN0 = sun_IN0 sun) by congruence. subst Sinh IN0.
    exists SH. split; [done|]. apply HSHmodel, lookup_insert_eq.
  - destruct Hdisp as (Sinh & IN0 & SH & HSinh & HIN0 & Hest & ->).
    assert (Sinh = sun_Sinh sun) by congruence.
    assert (IN0 = sun_IN0 sun) by congruence. subst Sinh IN0.
    exists SH. split; [done|]. apply HSHmodel, lookup_insert_eq.
  - destruct Hdisp as (Sinh & IN0 & DN & HSinh & HIN0 & Hest & ->).
    assert (Sinh = sun_Sinh sun) by congruence.
    assert (IN0 = sun_IN0 sun) by congruence. subst Sinh IN0.
    exists DN. split; [done|]. apply HDNmodel; [|apply lookup_insert_eq].
    rewrite lookup_insert_ne by names_differ. rewrite HaSH. by apply Hfresh.
  - destruct Hdisp as (h & DT & IN0 & DN & Hh & HDT & HIN0 & Hest & ->).
    assert (h = sun_h sun) by congruence.
    assert (IN0 = sun_IN0 sun) by congruence. subst h IN0.
    exists DN. split; [exists DT; split; [congruence|done]|].
    apply HDNmodel; [|apply lookup_insert_eq].
    rewrite lookup_insert_ne by names_differ. rewrite HaSH. by apply Hfresh.
Qed.

(** X11: for each of the five models and either target with an irradiance
    column, the estimated column of the result is exactly what the model's
    batch function returns on that column and the sun position, and the
    other column is the complement derived from it by [func_DN] or
    [func_SH], floored at 0.  (For Udagawa and Perez the input frame
    carries no ["SH_"] column of its own.) *)
Theorem get_separate_columns (df df' : DataFrame) (lat lon ele_target : float)
    (mode_separation targ : string) (m : model) (TH : list float) :
  get_separate df lat lon ele_target mode_separation = Ok df' ->
  model_of_name mode_separation = Some m ->
  targ = "est" \/ targ = "msm" ->
  columns df !! ("DSWRF_" +:+ targ) = Some TH ->
  (estimates_SH m = false -> columns df !! ("SH_" +:+ targ) = None) ->
  exists est,
    match m with
    | Nagata =>
        get_SH TH (sun_Sinh (get_sun_position lat lon (index df)))
          (sun_IN0 (get_sun_position lat lon (index df))) func_SH_Nagata = Ok est
    | Watanabe =>
        get_SH TH (sun_Sinh (get_sun_position lat lon (index df)))
          (sun_IN0 (get_sun_position lat lon (index df))) func_SH_Watanabe = Ok est
    | Erbs =>
        get_SH_Erbs TH (sun_IN0 (get_sun_position lat lon (index df)))
          (sun_Sinh (get_sun_position lat lon (index df))) = Ok est
    | Udagawa =>
        get_DN_Udagawa TH (sun_IN0 (get_sun_position lat lon (index df)))
          (sun_Sinh (get_sun_position lat lon (index df))) = Ok est
    | Perez =>
        exists DT,
          columns df !! "DT" = Some DT /\
          get_DN_perez TH (sun_h (get_sun_position lat lon (index df))) DT ele_target
            (sun_IN0 (get_sun_position lat lon (index df))) = Ok est
    end /\
    if estimates_SH m then
      columns df' !! ("SH_" +:+ targ) = Some est /\
      columns df' !! ("DN_" +:+ targ) =
        Some (map floor_at_zero
                (map3 func_DN TH est (sun_Sinh (get_sun_position lat lon (index df)))))
    else
      columns df' !! ("DN_" +:+ targ) = Some est /\
      columns df' !! ("SH_" +:+ targ) =
        Some (map floor_at_zero
                (map3 func_SH TH est (sun_Sinh (get_sun_position lat lon (index df))))).
Proof.
  intros Hrun Hm Htarg HTH Hfresh.
  destruct (get_separate_estimate _ _ _ _ _ _ _ _ _ Hrun Hm Htarg HTH Hfresh)
    as (est & Hest & Hcols).
  exists est. split; [exact Hest|exact Hcols].
Qed.

End OutputColumns.

(** The Udagawa model on the clear hour under a low sun. *)
Lemma get_separate_columns_witness :
  exists df' est,
    @get_separate libm_exact sun_low (frame_of [Fin 0.73815])
      (Fin 35) (Fin 139) (Fin 10) "Udagawa" = Ok df' /\
    get_DN_Udagawa [Fin 0.73815] [Fin 4.921] [Fin 0.3] = Ok est /\
    columns df' !! "DN_est" = Some est /\
    columns df' !! "SH_est" =
      Some (map floor_at_zero (map3 func_SH [Fin 0.73815] est [Fin 0.3])).
Proof.
  assert (Hrun : exists df',
            @get_separate libm_exact sun_low (frame_of [Fin 0.73815])
              (Fin 35) (Fin 139) (Fin 10) "Udagawa" = Ok df')
    by (eexists; vm_compute; reflexivity).
  destruct Hrun as [df' Hrun].
  assert (HTH : columns (frame_of [Fin 0.73815]) !! ("DSWRF_" +:+ "est") = Some [Fin 0.73815])
    by (vm_compute; reflexivity).
  assert (HSH0 : estimates_SH Udagawa = false ->
                 columns (frame_of [Fin 0.73815]) !! ("SH_" +:+ "est") = None)
    by (intros _; vm_compute; reflexivity).
  pose proof (@get_separate_columns libm_exact sun_low (frame_of [Fin 0.73815]) df'
              (Fin 35) (Fin 139) (Fin 10) "Udagawa" "est" Udagawa [Fin 0.73815]
              Hrun eq_refl (or_introl eq_refl) HTH HSH0) as Hcols.
  destruct Hcols as (est & Hest & HDN & HSH).
  exists df', est.
  split; [exact Hrun|]. split; [exact Hest|]. split; [exact HDN|exact HSH].
Defined.

(** ** Energy balance for the models that estimate [SH] *)

Lemma floor_func_DN_exact (th sh s : Q) :
  0 < s -> sh <= th ->
  exists dn,
    floor_at_zero (func_DN (Fin th) (Fin sh) (Fin s)) = Fin dn /\
    0 <= dn /\ th == dn * s + sh.
Proof.
  intros Hs Hle.
  destruct (floor_at_zero (func_DN (Fin th) (Fin sh) (Fin s))) as [|dn] eqn:Hfl.
  - exfalso. unfold func_DN, floor_at_zero in Hfl. cbn [fsub fdiv lift2] in Hfl.
    destruct (Qeq_bool s 0) eqn:Hz; [apply Qeq_bool_iff in Hz; lra|].
    by destruct (fle _ _).
  - exists dn. split; [done|].
    destruct (floor_func_DN_balance _ _ _ _ Hs Hfl) as [Hge Heq].
    assert (Hnonneg : 0 <= dn).
    { unfold func_DN, floor_at_zero in Hfl. cbn [fsub fdiv lift2] in Hfl.
      destruct (Qeq_bool s 0); [discriminate|].
      destruct (fle _ _) eqn:Hc; injection Hfl as <-; [lra|].
      apply fle_Fin_false in Hc. lra. }
    split; [done|].
    destruct (Qlt_le_dec 0 dn) as [Hpos|Hzero]; [by apply Heq|].
    assert (Hdn : dn == 0) by lra. rewrite Hdn in *. lra.
Qed.

Section SHModels.
Context {M : Libm} {E : Ephemeris}.

(** X12: with the Nagata or Watanabe model, on every row with the sun up
    ([Sinh > 0]) and [TH >= 0] present, both outputs are present, [SH] lies
    in [[0, TH]], [DN] is not negative, and the energy balance
    [TH = DN*Sinh + SH] holds exactly: nothing is floored away. *)
Theorem bisection_energy_balance (df df' : DataFrame) (lat lon ele_target : float)
    (mode_separation targ : string) (m : model) (TH : list float)
    (i : nat) (th s : Q) :
  get_separate df lat lon ele_target mode_separation = Ok df' ->
  model_of_name mode_separation = Some m ->
  m = Nagata \/ m = Watanabe ->
  targ = "est" \/ targ = "msm" ->
  columns df !! ("DSWRF_" +:+ targ) = Some TH ->
  TH !! i = Some (Fin th) -> 0 <= th ->
  sun_Sinh (get_sun_position lat lon (index df)) !! i = Some (Fin s) -> 0 < s ->
  exists DN SH dn sh,
    columns df' !! ("DN_" +:+ targ) = Some DN /\
    columns df' !! ("SH_" +:+ targ) = Some SH /\
    DN !! i = Some (Fin dn) /\ SH !! i = Some (Fin sh) /\
    0 <= sh /\ sh <= th /\ 0 <= dn /\ th == dn * s + sh.
Proof.
  intros Hrun Hm Hbis Htarg HTH Hth Hth0 Hs Hpos.
  destruct (get_separate_estimate _ _ _ _ _ _ _ _ _ Hrun Hm Htarg HTH)
    as (SH & Hest & Hcols); [by destruct Hbis as [-> | ->]|].
  assert (Hrow : exists method_SH,
            get_SH TH (sun_Sinh (get_sun_position lat lon (index df)))
              (sun_IN0 (get_sun_position lat lon (index df))) method_SH = Ok SH)
    by (destruct Hbis as [-> | ->]; eauto).
  assert (Hm' : estimates_SH m = true) by (by destruct Hbis as [-> | ->]).
  rewrite Hm' in Hcols. destruct Hcols as [HSH HDN].
  destruct Hrow as [method_SH Hrow].
  destruct (get_SH_row _ _ _ _ _ _ _ Hrow Hth) as (s' & Hs' & Hval).
  assert (s' = Fin s) by congruence. subst s'.
  assert (Hup : fle (Fin s) 0.0 = false) by (apply (fle_Fin_false s 0.0); lra).
  rewrite Hup in Hval. cbn [isnan] in Hval. destruct Hval as (in0 & _ & Hval).
  destruct (py_max_zero_range _ th (get_SH_core_at_most method_SH th (Fin s) in0))
    as (sh & Hsh & Hsh0 & Hshle).
  rewrite Hsh in Hval.
  destruct (floor_func_DN_exact th sh s Hpos (Hshle Hth0)) as (dn & Hdn & Hdn0 & Hbal).
  exists (map floor_at_zero
            (map3 func_DN TH SH (sun_Sinh (get_sun_position lat lon (index df))))),
    SH, dn, sh.
  repeat split; try done; [|by apply Hshle].
  by rewrite list_lookup_fmap, (map3_lookup _ _ _ _ _ _ _ _ Hth Hval Hs), <- Hdn.
Qed.

(** X13: with the Erbs model, on every row with [Sinh > 0], [IN0 > 0] and
    [TH > 0] present, both outputs are present, [SH] lies in
    [[0.16*TH, TH]], [DN] is not negative, and the energy balance holds
    exactly. *)
Theorem Erbs_energy_balance (df df' : DataFrame) (lat lon ele_target : float)
    (mode_separation targ : string) (TH : list float)
    (i : nat) (th s in0 : Q) :
  get_separate df lat lon ele_target mode_separation = Ok df' ->
  model_of_name mode_separation = Some Erbs ->
  targ = "est" \/ targ = "msm" ->
  columns df !! ("DSWRF_" +:+ targ) = Some TH ->
  TH !! i = Some (Fin th) -> 0 < th ->
  sun_Sinh (get_sun_position lat lon (index df)) !! i = Some (Fin s) -> 0 < s ->
  sun_IN0 (get_sun_position lat lon (index df)) !! i = Some (Fin in0) -> 0 < in0 ->
  exists DN SH dn sh,
    columns df' !! ("DN_" +:+ targ) = Some DN /\
    columns df' !! ("SH_" +:+ targ) = Some SH /\
    DN !! i = Some (Fin dn) /\ SH !! i = Some (Fin sh) /\
    0.16 * th <= sh /\ sh <= th /\ 0 <= dn /\ th == dn * s + sh.
Proof.
  intros Hrun Hm Htarg HTH Hth Hth0 Hs Hpos Hin0 Hin0pos.
  destruct (get_separate_estimate _ _ _ _ _ _ _ _ _ Hrun Hm Htarg HTH)
    as (SH & Hest & HSH & HDN); [discriminate|].
  pose proof (get_SH_Erbs_row _ _ _ _ _ _ Hest Hth) as Hval. cbn iota in Hval.
  assert (Hq : Qle_bool th 0.0 = false) by (apply (fle_Fin_false th 0.0); lra).
  rewrite Hq in Hval. destruct Hval as (sh & Hsh & Hlo & Hhi).
  assert (Hle : sh <= th) by (apply (Hhi in0 s); [done|done|nra]).
  destruct (floor_func_DN_exact th sh s Hpos Hle) as (dn & Hdn & Hdn0 & Hbal).
  exists (map floor_at_zero
            (map3 func_DN TH SH (sun_Sinh (get_sun_position lat lon (index df))))),
    SH, dn, sh.
  repeat split; try done.
  by rewrite list_lookup_fmap, (map3_lookup _ _ _ _ _ _ _ _ Hth Hsh Hs), <- Hdn.
Qed.

End SHModels.

(** One hour under a zenith sun with the Nagata model. *)
Lemma bisection_energy_balance_witness :
  exists df' DN SH dn sh,
    @get_separate libm_exact sun_zenith (frame_of [Fin 2.5])
      (Fin 35) (Fin 139) (Fin 10) "Nagata" = Ok df' /\
    columns df' !! "DN_est" = Some DN /\ columns df' !! "SH_est" = Some SH /\
    DN !! 0%nat = Some (Fin dn) /\ SH !! 0%nat = Some (Fin sh) /\
    0 <= sh /\ sh <= 2.5 /\ 0 <= dn /\ 2.5 == dn * 1.0 + sh.
Proof.
  assert (Hrun : exists df',
            @get_separate libm_exact sun_zenith (frame_of [Fin 2.5])
              (Fin 35) (Fin 139) (Fin 10) "Nagata" = Ok df')
    by (eexists; vm_compute; reflexivity).
  destruct Hrun as [df' Hrun].
  destruct (@bisection_energy_balance libm_exact sun_zenith (frame_of [Fin 2.5]) df'
              (Fin 35) (Fin 139) (Fin 10) "Nagata" "est" Nagata [Fin 2.5] 0%nat 2.5 1.0
              Hrun eq_refl (or_introl eq_refl) (or_introl eq_refl) eq_refl eq_refl)
    as (DN & SH & dn & sh & H); [discriminate|reflexivity|reflexivity|].
  by exists df', DN, SH, dn, sh.
Defined.

(** The Erbs model on the clear hour under a low sun. *)
Lemma Erbs_energy_balance_witness :
  exists df' DN SH dn sh,
    @get_separate libm_exact sun_low (frame_of [Fin 0.73815])
      (Fin 35) (Fin 139) (Fin 10) "Erbs" = Ok df' /\
    columns df' !! "DN_est" = Some DN /\ columns df' !! "SH_est" = Some SH /\
    DN !! 0%nat = Some (Fin dn) /\ SH !! 0%nat = Some (Fin sh) /\
    0.16 * 0.73815 <= sh /\ sh <= 0.73815 /\ 0 <= dn /\ 0.73815 == dn * 0.3 + sh.
Proof.
  assert (Hrun : exists df',
            @get_separate libm_exact sun_low (frame_of [Fin 0.73815])
              (Fin 35) (Fin 139) (Fin 10) "Erbs" = Ok df')
    by (eexists; vm_compute; reflexivity).
  destruct Hrun as [df' Hrun].
  destruct (@Erbs_energy_balance libm_exact sun_low (frame_of [Fin 0.73815]) df'
              (Fin 35) (Fin 139) (Fin 10) "Erbs" "est" [Fin 0.73815] 0%nat
              0.73815 0.3 4.921 Hrun eq_refl (or_introl eq_refl) eq_refl eq_refl)
    as (DN & SH & dn & sh & H); [reflexivity..|].
  by exists df', DN, SH, dn, sh.
Defined.

Section OutputsNonneg.
Context {M : Libm} {E : Ephemeris}.

(** X14: for each of the five models and either target with an irradiance
    column, every entry of the ["DN_"] and ["SH_"] columns that
    [get_separate] returns is the missing-value marker or at least 0.  (For
    Udagawa and Perez the input frame carries no ["SH_"] column of its
    own.) *)
Theorem separated_columns_not_negative (df df' : DataFrame)
    (lat lon ele_target : float) (mode_separation targ : string) (m : model)
    (TH c : list float) :
  get_separate df lat lon ele_target mode_separation = Ok df' ->
  model_of_name mode_separation = Some m ->
  targ = "est" \/ targ = "msm" ->
  columns df !! ("DSWRF_" +:+ targ) = Some TH ->
  (estimates_SH m = false -> columns df !! ("SH_" +:+ targ) = None) ->
  columns df' !! ("DN_" +:+ targ) = Some c \/ columns df' !! ("SH_" +:+ targ) = Some c ->
  Forall nonneg_or_missing c.
Proof.
  intros Hrun Hm Htarg HTH Hfresh Hc.
  destruct (get_separate_estimate _ _ _ _ _ _ _ _ _ Hrun Hm Htarg HTH Hfresh)
    as (est & Hest & Hcols).
  assert (Hestnn : Forall nonneg_or_missing est).
  { destruct m.
    - by eapply get_SH_nonneg.
    - by eapply get_SH_nonneg.
    - by eapply get_SH_Erbs_nonneg.
    - by eapply get_DN_Udagawa_nonneg.
    - destruct Hest as (DT & _ & Hest). by eapply get_DN_perez_nonneg. }
  assert (Hfloor : forall l, Forall nonneg_or_missing (map floor_at_zero l)).
  { intros l. apply Forall_fmap, Forall_forall. intros x _. apply floor_at_zero_nonneg. }
  destruct (estimates_SH m); destruct Hcols as [H1 H2]; destruct Hc as [Hc|Hc];
    rewrite Hc in *; simplify_eq; done.
Qed.

End OutputsNonneg.

(** The floored row of the Udagawa model: [SH] is 0, not negative. *)
Lemma separated_columns_not_negative_witness :
  exists df' SH,
    @get_separate libm_exact sun_low (frame_of [Fin 1.107225])
      (Fin 35) (Fin 139) (Fin 10) "Udagawa" = Ok df' /\
    columns df' !! "SH_est" = Some SH /\ Forall nonneg_or_missing SH.
Proof.
  assert (Hrun : exists df' SH,
            @get_separate libm_exact sun_low (frame_of [Fin 1.107225])
              (Fin 35) (Fin 139) (Fin 10) "Udagawa" = Ok df' /\
            columns df' !! "SH_est" = Some SH)
    by (eexists _, _; split; vm_compute; reflexivity).
  destruct Hrun as (df' & SH & Hrun & HSH). exists df', SH.
  split; [done|]. split; [done|].
  by apply (@separated_columns_not_negative libm_exact sun_low
              (frame_of [Fin 1.107225]) df' (Fin 35) (Fin 139) (Fin 10)
              "Udagawa" "est" Udagawa [Fin 1.107225] SH Hrun eq_refl
              (or_introl eq_refl) eq_refl (fun _ => eq_refl) (or_intror HSH)).
Defined.

(** ** The frame returned by [get_separate] *)

Lemma sun_columns_dropped (cols : gmap string (list float)) (sun : SunPosition) :
  delete "Sinh" (delete "IN0"
    (<["A":=sun_A sun]> (<["Sinh":=sun_Sinh sun]>
       (<["h":=sun_h sun]> (<["IN0":=sun_IN0 sun]> cols)))))
  = <["A":=sun_A sun]> (<["h":=sun_h sun]> (delete "Sinh" (delete "IN0" cols))).
Proof.
  apply map_eq. intros k.
  destruct (decide (k = "Sinh")) as [->|].
  { rewrite lookup_delete_eq, !lookup_insert_ne by names_differ.
    by rewrite lookup_delete_eq. }
  destruct (decide (k = "IN0")) as [->|].
  { rewrite lookup_delete_ne, lookup_delete_eq by names_differ.
    rewrite !lookup_insert_ne, lookup_delete_ne by names_differ.
    by rewrite lookup_delete_eq. }
  rewrite !lookup_delete_ne by done.
  destruct (decide (k = "A")) as [->|]; [by rewrite !lookup_insert_eq|].
  rewrite !(lookup_insert_ne _ "A") by done.
  rewrite (lookup_insert_ne _ "Sinh") by done.
  destruct (decide (k = "h")) as [->|]; [by rewrite !lookup_insert_eq|].
  rewrite !(lookup_insert_ne _ "h") by done.
  rewrite (lookup_insert_ne _ "IN0") by done.
  by rewrite !lookup_delete_ne.
Qed.

Section ReturnedFrame.
Context {M : Libm} {E : Ephemeris}.

Lemma separate_target_absent (ele_target : float) (mode_separation targ : string)
    (cols : gmap string (list float)) :
  cols !! ("DSWRF_" +:+ targ) = None ->
  separate_target ele_target mode_separation targ cols = Ok cols.
Proof. unfold separate_target. by intros ->. Qed.

(** X15: whenever [get_separate] returns, for any [mode_separation], the
    result has the index of the input, the sun's altitude and azimuth as
    columns ["h"] and ["A"], no column ["IN0"] or ["Sinh"] (an input column
    of either name is lost), and every other column of the input unchanged
    except the eight output names ["SH_est"], ["DN_est"], ["SH_msm"],
    ["DN_msm"], ["h"], ["A"], ["IN0"], ["Sinh"]; in particular the
    irradiance columns are returned as they came. *)
Theorem get_separate_frame (df df' : DataFrame) (lat lon ele_target : float)
    (mode_separation : string) :
  get_separate df lat lon ele_target mode_separation = Ok df' ->
  index df' = index df /\
  columns df' !! "IN0" = None /\ columns df' !! "Sinh" = None /\
  columns df' !! "h" = Some (sun_h (get_sun_position lat lon (index df))) /\
  columns df' !! "A" = Some (sun_A (get_sun_position lat lon (index df))) /\
  forall k,
    k ∉ ["IN0"; "Sinh"; "h"; "A"; "SH_est"; "DN_est"; "SH_msm"; "DN_msm"] ->
    columns df' !! k = columns df !! k.
Proof.
  unfold get_separate. cbn [for_targets]. unfold mbind, result_bind.
  set (sun := get_sun_position lat lon (index df)).
  set (cols0 := <["A":=sun_A sun]> (<["Sinh":=sun_Sinh sun]>
                  (<["h":=sun_h sun]> (<["IN0":=sun_IN0 sun]> (columns df))))).
  destruct (separate_target _ _ "est" cols0) as [cols1|] eqn:Hest; [|discriminate].
  destruct (separate_target _ _ "msm" cols1) as [cols2|] eqn:Hmsm; [|discriminate].
  intros [= <-]. cbn [index columns].
  assert (Hkeep : forall k, k ≠ "DN_est" -> k ≠ "SH_est" -> k ≠ "DN_msm" ->
                    k ≠ "SH_msm" -> cols2 !! k = cols0 !! k).
  { intros k ? ? ? ?.
    rewrite (separate_target_frame _ _ _ _ _ _ Hmsm) by done.
    by rewrite (separate_target_frame _ _ _ _ _ _ Hest). }
  split; [done|].
  split; [by rewrite lookup_delete_ne, lookup_delete_eq by names_differ|].
  split; [by rewrite lookup_delete_eq|].
  split.
  { rewrite !lookup_delete_ne, Hkeep by names_differ. unfold cols0.
    do 2 rewrite lookup_insert_ne by names_differ. apply lookup_insert_eq. }
  split.
  { rewrite !lookup_delete_ne, Hkeep by names_differ. apply lookup_insert_eq. }
  intros k Hk. rewrite !not_elem_of_cons in Hk.
  destruct Hk as (? & ? & ? & ? & ? & ? & ? & ? & _).
  rewrite !lookup_delete_ne, Hkeep by done. unfold cols0.
  by rewrite !lookup_insert_ne.
Qed.

(** X16: a frame without ["DSWRF_est"] and ["DSWRF_msm"] is returned with
    the sun's altitude and azimuth added and nothing else computed, for
    every [mode_separation]: no model runs, no column is required (not even
    ["DT"] for Perez) and nothing is raised. *)
Theorem get_separate_without_irradiance (df : DataFrame) (lat lon ele_target : float)
    (mode_separation : string) :
  columns df !! "DSWRF_est" = None -> columns df !! "DSWRF_msm" = None ->
  get_separate df lat lon ele_target mode_separation =
    Ok (mkDataFrame (index df)
          (<["A" := sun_A (get_sun_position lat lon (index df))]>
             (<["h" := sun_h (get_sun_position lat lon (index df))]>
                (delete "Sinh" (delete "IN0" (columns df)))))).
Proof.
  intros Hest Hmsm. unfold get_separate. cbn [for_targets].
  rewrite separate_target_absent
    by (rewrite !lookup_insert_ne by names_differ; exact Hest).
  cbn [mbind result_bind].
  rewrite separate_target_absent
    by (rewrite !lookup_insert_ne by names_differ; exact Hmsm).
  cbn [mbind result_bind]. by rewrite sun_columns_dropped.
Qed.

Lemma get_DN_perez_single_row (th : float) (h TD : list float) (ALT : float)
    (IN0 : list float) :
  get_DN_perez [th] h TD ALT IN0 = Raise IndexError.
Proof. apply for_range_raise; [simpl; lia|]. reflexivity. Qed.

(** X17: with the Perez model and an irradiance column ["DSWRF_est"],
    [get_separate] raises [KeyError] for ["DT"] when the frame has no
    dew-point column, and [IndexError] when the frame has a dew-point
    column but a single row. *)
Theorem get_separate_Perez_errors (df : DataFrame) (lat lon ele_target : float)
    (TH : list float) :
  columns df !! "DSWRF_est" = Some TH ->
  (columns df !! "DT" = None ->
   get_separate df lat lon ele_target "Perez" = Raise (KeyError "DT")) /\
  (is_Some (columns df !! "DT") -> length TH = 1%nat ->
   get_separate df lat lon ele_target "Perez" = Raise IndexError).
Proof.
  intros HTH.
  set (sun := get_sun_position lat lon (index df)).
  set (cols0 := <["A":=sun_A sun]> (<["Sinh":=sun_Sinh sun]>
                  (<["h":=sun_h sun]> (<["IN0":=sun_IN0 sun]> (columns df))))).
  assert (H0TH : cols0 !! "DSWRF_est" = Some TH)
    by (unfold cols0; rewrite !lookup_insert_ne by names_differ; exact HTH).
  assert (H0h : cols0 !! "h" = Some (sun_h sun)).
  { unfold cols0. do 2 rewrite lookup_insert_ne by names_differ. apply lookup_insert_eq. }
  assert (H0I : cols0 !! "IN0" = Some (sun_IN0 sun)).
  { unfold cols0. rewrite !lookup_insert_ne by names_differ. apply lookup_insert_eq. }
  assert (H0DT : cols0 !! "DT" = columns df !! "DT")
    by (unfold cols0; by rewrite !lookup_insert_ne by names_differ).
  split.
  - intros HDT. unfold get_separate. fold sun. fold cols0. cbn [for_targets].
    unfold separate_target. change ("DSWRF_" +:+ "est") with "DSWRF_est".
    rewrite H0TH. unfold dispatch_model. cbn [String.eqb Ascii.eqb Bool.eqb orb].
    unfold column. rewrite H0h, H0DT, HDT. reflexivity.
  - intros [DT HDT] Hlen. unfold get_separate. fold sun. fold cols0. cbn [for_targets].
    unfold separate_target. change ("DSWRF_" +:+ "est") with "DSWRF_est".
    rewrite H0TH. unfold dispatch_model. cbn [String.eqb Ascii.eqb Bool.eqb orb].
    unfold column. rewrite H0h, H0DT, HDT, H0I. cbn [mbind result_bind].
    destruct TH as [|th [|? ?]]; try discriminate.
    by rewrite get_DN_perez_single_row.
Qed.

End ReturnedFrame.

(** A frame with an extra column and a column named ["IN0"]. *)
Lemma get_separate_frame_witness :
  exists df',
    @get_separate libm_exact sun_low
      (mkDataFrame [0%Z] {[ "DSWRF_est" := [Fin 1.0]; "TMP" := [Fin 20];
                            "IN0" := [Fin 7] ]})
      (Fin 35) (Fin 139) (Fin 10) "Erbs" = Ok df' /\
    columns df' !! "TMP" = Some [Fin 20] /\
    columns df' !! "DSWRF_est" = Some [Fin 1.0] /\
    columns df' !! "IN0" = None.
Proof.
  assert (Hrun : exists df',
            @get_separate libm_exact sun_low
              (mkDataFrame [0%Z] {[ "DSWRF_est" := [Fin 1.0]; "TMP" := [Fin 20];
                                    "IN0" := [Fin 7] ]})
              (Fin 35) (Fin 139) (Fin 10) "Erbs" = Ok df')
    by (eexists; vm_compute; reflexivity).
  destruct Hrun as [df' Hrun]. exists df'. split; [done|].
  destruct (@get_separate_frame libm_exact sun_low _ df' _ _ _ _ Hrun)
    as (_ & HIN0 & _ & _ & _ & Hkeep).
  split; [|split; [|exact HIN0]].
  - rewrite Hkeep; [reflexivity|]. rewrite !not_elem_of_cons.
    repeat split; try discriminate. apply not_elem_of_nil.
  - rewrite Hkeep; [reflexivity|]. rewrite !not_elem_of_cons.
    repeat split; try discriminate. apply not_elem_of_nil.
Defined.

(** A frame with temperature only, and the Perez model without dew point. *)
Lemma get_separate_without_irradiance_witness :
  exists df',
    @get_separate libm_exact sun_low (mkDataFrame [0%Z] {[ "TMP" := [Fin 20] ]})
      (Fin 35) (Fin 139) (Fin 10) "Perez" = Ok df' /\
    columns df' !! "h" = Some [Fin 17.46] /\ columns df' !! "A" = Some [Fin 180] /\
    columns df' !! "TMP" = Some [Fin 20] /\
    columns df' !! "SH_est" = None /\ columns df' !! "DN_est" = None.
Proof.
  eexists. split.
  - apply (@get_separate_without_irradiance libm_exact sun_low
             (mkDataFrame [0%Z] {[ "TMP" := [Fin 20] ]}));
      vm_compute; reflexivity.
  - repeat split; vm_compute; reflexivity.
Defined.

(** The Perez model on two dark hours without dew point, and on one dark
    hour with it. *)
Lemma get_separate_Perez_errors_witness :
  @get_separate libm_exact sun_low (frame_of [Fin 0.0; Fin 0.0])
    (Fin 35) (Fin 139) (Fin 10) "Perez" = Raise (KeyError "DT") /\
  @get_separate libm_exact sun_low
    (mkDataFrame [0%Z] {[ "DSWRF_est" := [Fin 0.0]; "DT" := [Fin 5] ]})
    (Fin 35) (Fin 139) (Fin 10) "Perez" = Raise IndexError.
Proof.
  split.
  - apply (@get_separate_Perez_errors libm_exact sun_low (frame_of [Fin 0.0; Fin 0.0])
             (Fin 35) (Fin 139) (Fin 10) [Fin 0.0; Fin 0.0]); reflexivity.
  - apply (@get_separate_Perez_errors libm_exact sun_low
             (mkDataFrame [0%Z] {[ "DSWRF_est" := [Fin 0.0]; "DT" := [Fin 5] ]})
             (Fin 35) (Fin 139) (Fin 10) [Fin 0.0]);
      [reflexivity|by eexists|reflexivity].
Defined.
